(** * BellaLui host board: message bus, datagram builder, telemetry scheduler

    A shallow embedding of
      - communication/message_bus.cpp
      - telemetry/datagram_builder.cpp
      - telemetry/telemetry_handling.cpp
    and the properties of the protocol engine stated over it.

    Conventions.  C integers are values of [Z]; a function argument of an
    unsigned type is taken inside the range of its type, and every place
    where the code itself converts or overflows has the wrap-around written
    out ([uint8], [uint16], [uint32]).  Memory reached through a pointer is
    a list of bytes. *)

From stdpp Require Import gmap list strings.
From Stdlib Require Import ZArith Lia SpecFloat Ascii.

Local Open Scope Z_scope.

(** ** Fixed-width unsigned integers *)

Definition uint8  (z : Z) : Z := z mod 2 ^ 8.
Definition uint16 (z : Z) : Z := z mod 2 ^ 16.
Definition uint32 (z : Z) : Z := z mod 2 ^ 32.

(** ** The message bus (communication/message_bus.cpp) *)

Module Bus.

(** What [register_object<T>], [register_handler<T>] and [send<T>] use of
    the template argument: [sizeof(T)] and [typeid(T).hash_code()]. *)
Record Kind : Type := mkKind { sizeof : Z; hash_code : Z }.

Section MessageBus.
(** Handlers are function pointers [void ( * )(void * )]; the bus only
    stores and calls them. *)
Context {Handler : Type}.

(** Modelled from the spec: the declarations of the three members
    (communication/message_bus.h) are not among the sources.
    [identifiers] is the mapping from message kind to its one wire
    identifier, [safe_cast_reference] the table of expected payload
    lengths indexed by the 8-bit identifier, and [handlers] the multimap
    from identifier to callbacks, kept as the sequence in which an
    iterator running from [begin()] to [end()] visits its entries. *)
Record MessageBus : Type := mkBus {
  lock : bool;
  identifiers : gmap Z Z;
  safe_cast_reference : list Z;
  handlers : list (Z * Handler)
}.

(** Modelled from the spec: [identifiers.insert(hint, {key, value})] on a
    mapping with one identifier per kind; a kind that is already bound
    keeps its identifier. *)
Definition identifiers_insert (key value : Z) (m : gmap Z Z) : gmap Z Z :=
  match m !! key with
  | Some _ => m
  | None => <[key := value]> m
  end.

(** Modelled from the spec: [handlers.insert(hint, {key, value})];
    registration appends the entry to the handler table. *)
Definition handlers_insert (entry : Z * Handler) (tbl : list (Z * Handler))
  : list (Z * Handler) := tbl ++ [entry].

(** [handlers.find(key)]: the iterator at the first entry with that key,
    given as the entries from there to [handlers.end()]. *)
Fixpoint handlers_find (key : Z) (tbl : list (Z * Handler))
  : list (Z * Handler) :=
  match tbl with
  | [] => []
  | entry :: rest =>
      if entry.1 =? key then entry :: rest else handlers_find key rest
  end.

(** The bus before [init_protocol] runs; [table] is the initial content
    of [safe_cast_reference]. *)
Definition fresh (table : list Z) : MessageBus :=
  {| lock := false; identifiers := ∅;
     safe_cast_reference := table; handlers := [] |}.

Definition set_lock (l : bool) (bus : MessageBus) : MessageBus :=
  {| lock := l; identifiers := identifiers bus;
     safe_cast_reference := safe_cast_reference bus;
     handlers := handlers bus |}.

(** [MessageBus::MessageBus()] *)
Definition MessageBus_ctor (init_protocol : MessageBus -> MessageBus)
    (table : list Z) : MessageBus :=
  set_lock true (init_protocol (set_lock false (fresh table))).

(** [template<typename T> void MessageBus::register_object(uint8_t identifier)] *)
Definition register_object (T : Kind) (identifier : Z) (bus : MessageBus)
  : MessageBus :=
  let size := sizeof T in
  if 256 <? size then bus
  else
    let type_hash := hash_code T in
    {| lock := lock bus;
       identifiers := identifiers_insert type_hash identifier (identifiers bus);
       safe_cast_reference :=
         <[Z.to_nat identifier := uint8 size]> (safe_cast_reference bus);
       handlers := handlers bus |}.

(** [template<typename T> void MessageBus::register_handler(void ( *handler)(T* ))] *)
Definition register_handler (T : Kind) (handler : Handler) (bus : MessageBus)
  : MessageBus :=
  let type_hash := hash_code T in
  match identifiers bus !! type_hash with
  | Some identifier =>
      {| lock := lock bus;
         identifiers := identifiers bus;
         safe_cast_reference := safe_cast_reference bus;
         handlers := handlers_insert (identifier, handler) (handlers bus) |}
  | None => bus
  end.

(** [template<typename T> void MessageBus::send(T *message)]: the
    [write] calls it makes, each with the bytes handed over. *)
Definition send (T : Kind) (message : list Z) (bus : MessageBus)
  : list (list Z) :=
  match identifiers bus !! hash_code T with
  | Some identifier => [[identifier]; take (Z.to_nat (sizeof T)) message]
  | None => []
  end.

(** The entry of [safe_cast_reference] read for an identifier. *)
Definition expected_length (bus : MessageBus) (packet_id : Z) : Z :=
  safe_cast_reference bus !!! Z.to_nat packet_id.

(** [void MessageBus::receive(uint8_t *pointer, uint8_t length)]: the
    handler calls it makes, in order, each with the bytes its argument
    points to. *)
Definition receive (pointer : list Z) (length : Z) (bus : MessageBus)
  : list (Handler * list Z) :=
  if 0 <? length then
    let packet_id := hd 0 pointer in
    let pointer := tl pointer in
    if negb (length - 1 =? expected_length bus packet_id) then []
    else (fun it : Z * Handler => (it.2, pointer))
           <$> handlers_find packet_id (handlers bus)
  else [].

End MessageBus.

Arguments MessageBus : clear implicits.

End Bus.

(** ** The datagram builder (telemetry/datagram_builder.cpp) *)

(** A call that comes back with a value, or one that never does. *)
Inductive outcome (A : Type) : Type :=
| Returns (a : A)
| Hangs.
Arguments Returns {A} a.
Arguments Hangs {A}.

Definition outcome_bind {A B : Type} (o : outcome A) (k : A -> outcome B)
  : outcome B :=
  match o with
  | Returns a => k a
  | Hangs => Hangs
  end.

Notation "'let*' p := o 'in' k" := (outcome_bind o (fun p => k))
  (at level 10, p pattern, o at level 100, k at level 200, only parsing).

(** Modelled from the spec: telemetry/simpleCRC.h is not among the sources.
    The CRC engine is the seed [CRC_16_GENERATOR_POLY.initialValue], the
    table-driven step [CalculateRemainderFromTable (input, currentCRC)] and
    [FinalizeCRC]; remainders are 16-bit values. *)
Class SimpleCRC : Type := {
  initialValue : Z;
  CalculateRemainderFromTable : Z -> Z -> Z;
  FinalizeCRC : Z -> Z
}.

(** The byte order of multi-byte fields; the spec leaves the choice open and
    asks that it be the same everywhere. *)
Inductive endianness : Type := BigEndian | LittleEndian.
Existing Class endianness.

Module Builder.

(** [#define MALLOC_SIZE 64] *)
Definition MALLOC_SIZE : Z := 64.

(** Modelled from the spec: telemetry/telemetry_protocol.h is not among
    the sources.  The frame is [type tag][4-byte marker][payload][2-byte
    CRC]: the header is the first five bytes, and header and trailer
    together add seven bytes to the payload. *)
Definition HEADER_SIZE : Z := 5.

(** Modelled from the spec: the overhead constant of the same absent
    header; five header bytes and two checksum bytes. *)
Definition TOTAL_DATAGRAM_OVERHEAD : Z := 7.

(** An access through [datagramPtr] that the allocation does not cover, or
    a read of something never written.  The model records each one and goes
    on (a bad read yields 0, a bad store changes nothing). *)
Inductive fault : Type :=
| NullLoad (offset : Z)
| NullStore (offset : Z)
| LoadOutside (offset : Z)
| StoreOutside (offset : Z)
| LoadUninitialised (offset : Z)
| CrcUninitialised.

(** [struct Telemetry_Message { void *ptr; uint16_t size; }]; a pointer is
    [None] for NULL or the identity of an allocated block. *)
Record Telemetry_Message : Type := mkMessage { ptr : option N; size : Z }.

(** Modelled from the spec: the class declaration (misc/datagram_builder.h)
    is not among the sources; the four members are the ones the .cpp file
    uses, the three integers being 16-bit unsigned.  [memory] is the block
    [datagramPtr] points to, one entry per byte, [None] while the byte has
    never been written; [faults] is the log of bad accesses. *)
Record DatagramBuilder : Type := mkBuilder {
  datagramPtr : option N;
  memory : list (option Z);
  datagramSize : Z;
  currentIdx : Z;
  datagramCrc : option Z;
  faults : list fault
}.

Definition set_currentIdx (i : Z) (b : DatagramBuilder) : DatagramBuilder :=
  mkBuilder (datagramPtr b) (memory b) (datagramSize b) i (datagramCrc b)
            (faults b).

Definition set_datagramCrc (c : Z) (b : DatagramBuilder) : DatagramBuilder :=
  mkBuilder (datagramPtr b) (memory b) (datagramSize b) (currentIdx b) (Some c)
            (faults b).

Definition raise (f : fault) (b : DatagramBuilder) : DatagramBuilder :=
  mkBuilder (datagramPtr b) (memory b) (datagramSize b) (currentIdx b)
            (datagramCrc b) (faults b ++ [f]).

Definition in_block (offset : Z) : bool :=
  (0 <=? offset) && (offset <? MALLOC_SIZE).

(** [*((uint8_t* ) datagramPtr + offset) = val] *)
Definition store (offset val : Z) (b : DatagramBuilder) : DatagramBuilder :=
  match datagramPtr b with
  | None => raise (NullStore offset) b
  | Some _ =>
      if in_block offset then
        mkBuilder (datagramPtr b) (<[Z.to_nat offset := Some val]> (memory b))
                  (datagramSize b) (currentIdx b) (datagramCrc b) (faults b)
      else raise (StoreOutside offset) b
  end.

(** [*((uint8_t* ) datagramPtr + offset)] *)
Definition load (offset : Z) (b : DatagramBuilder) : Z * DatagramBuilder :=
  match datagramPtr b with
  | None => (0, raise (NullLoad offset) b)
  | Some _ =>
      if in_block offset then
        match memory b !! Z.to_nat offset with
        | Some (Some v) => (v, b)
        | _ => (0, raise (LoadUninitialised offset) b)
        end
      else (0, raise (LoadOutside offset) b)
  end.

(** A read of the member [datagramCrc]. *)
Definition read_datagramCrc (b : DatagramBuilder) : Z * DatagramBuilder :=
  match datagramCrc b with
  | Some c => (c, b)
  | None => (0, raise CrcUninitialised b)
  end.

(** [void DatagramBuilder::write8 (uint8_t val)] *)
Definition write8 (val : Z) (b : DatagramBuilder) : DatagramBuilder :=
  if currentIdx b + 1 <=? datagramSize b then
    set_currentIdx (uint16 (currentIdx b + 1)) (store (currentIdx b) val b)
  else b.

(** The [n] bytes of the object representation of [val], least
    significant first. *)
Fixpoint bytes_le (n : nat) (val : Z) : list Z :=
  match n with
  | O => []
  | S n' => val mod 256 :: bytes_le n' (val / 256)
  end.

Section Fields.
Context {byte_order : endianness}.

Definition field_bytes (n : nat) (val : Z) : list Z :=
  match byte_order with
  | LittleEndian => bytes_le n val
  | BigEndian => rev (bytes_le n val)
  end.

(** [*((uint8_t* ) datagramPtr + currentIdx++) = byte], once per byte. *)
Definition append (bytes : list Z) (b : DatagramBuilder) : DatagramBuilder :=
  foldl (fun b byte =>
           set_currentIdx (uint16 (currentIdx b + 1))
                          (store (currentIdx b) byte b))
        b bytes.

(** Modelled from the spec: [template<typename T> void write16 (T val)]
    is defined in misc/datagram_builder.h, which is not among the
    sources.  It appends the bytes of the value in the fixed byte order
    at the cursor and advances it, and drops the value when the write
    would pass the declared datagram size. *)
Definition write16 (val : Z) (b : DatagramBuilder) : DatagramBuilder :=
  if currentIdx b + 2 <=? datagramSize b then append (field_bytes 2 val) b
  else b.

(** Modelled from the spec: [template<typename T> void write32 (T val)]
    of the same absent header, for the 4-byte types [uint32_t],
    [int32_t] and [float32_t]; as [write16] with four bytes. *)
Definition write32 (val : Z) (b : DatagramBuilder) : DatagramBuilder :=
  if currentIdx b + 4 <=? datagramSize b then append (field_bytes 4 val) b
  else b.
End Fields.

Section Checksum.
Context {crc : SimpleCRC} {byte_order : endianness}.

(** [for (int16_t i = from; i < currentIdx; i++)
       datagramCrc = CalculateRemainderFromTable (datagramPtr[i], datagramCrc);]
    run for [n] iterations. *)
Fixpoint crc_loop (n : nat) (i : Z) (b : DatagramBuilder) : DatagramBuilder :=
  match n with
  | O => b
  | S n' =>
      let '(byte, b) := load i b in
      let '(current, b) := read_datagramCrc b in
      crc_loop n' (i + 1)
               (set_datagramCrc (CalculateRemainderFromTable byte current) b)
  end.

Definition char (c : ascii) : Z := Z.of_nat (nat_of_ascii c).

(** [DatagramBuilder::DatagramBuilder (uint16_t datagramPayloadSize,
      uint8_t datagramType, uint32_t datagramSequenceNumber)];
    [allocation] is what [pvPortMalloc (MALLOC_SIZE)] returned. *)
Definition DatagramBuilder_ctor (allocation : option N)
    (datagramPayloadSize datagramType datagramSequenceNumber : Z)
  : DatagramBuilder :=
  let datagramSize := uint16 (datagramPayloadSize + TOTAL_DATAGRAM_OVERHEAD) in
  match allocation with
  | Some block =>
      let b := mkBuilder (Some block)
                         (replicate (Z.to_nat MALLOC_SIZE) None)
                         datagramSize 0 None [] in
      let b := write8 datagramType b in
      let b := write8 (char "E"%char) b in
      let b := write8 (char "P"%char) b in
      let b := write8 (char "F"%char) b in
      let b := write8 (char "L"%char) b in
      let b := set_datagramCrc initialValue b in
      crc_loop 5 (currentIdx b - 5) b
  | None =>
      mkBuilder None [] datagramSize datagramSize None []
  end.

(** [Telemetry_Message DatagramBuilder::finalizeDatagram ()].  The loop
    index is an [int16_t]: with the cursor above 32767 it wraps to
    -32768 before it can reach the cursor, and the loop never ends. *)
Definition finalizeDatagram (b : DatagramBuilder)
  : outcome (Telemetry_Message * DatagramBuilder) :=
  if 32767 <? currentIdx b then Hangs
  else
    let b := crc_loop (Z.to_nat (currentIdx b - HEADER_SIZE)) HEADER_SIZE b in
    let '(current, b) := read_datagramCrc b in
    let b := set_datagramCrc (FinalizeCRC current) b in
    let '(current, b) := read_datagramCrc b in
    let b := write16 current b in
    Returns (mkMessage (datagramPtr b) (datagramSize b), b).
End Checksum.

(** The bytes a receiver of the message reads: [size] bytes from [ptr]. *)
Definition frame (b : DatagramBuilder) : list (option Z) :=
  take (Z.to_nat (datagramSize b)) (memory b).

End Builder.

(** ** The telemetry scheduler (telemetry/telemetry_handling.cpp) *)

(** Payload sizes and type tags of telemetry/telemetry_protocol.h, which is
    not among the sources: the five payload sizes handed to the builder and
    the five type tags. *)
Class TelemetryProtocol : Type := {
  SENSOR_DATAGRAM_PAYLOAD_SIZE : Z;
  AB_DATAGRAM_PAYLOAD_SIZE : Z;
  GPS_DATAGRAM_PAYLOAD_SIZE : Z;
  MOTORPRESSURE_DATAGRAM_PAYLOAD_SIZE : Z;
  WARNING_DATAGRAM_PAYLOAD_SIZE : Z;
  TELEMETRY_PACKET : Z;
  AIRBRAKES_PACKET : Z;
  GPS_PACKET : Z;
  MOTOR_PACKET : Z;
  STATUS_PACKET : Z
}.

(** *** Conversion of a 32-bit unsigned integer to [float32_t] *)

(** The 32 bits of an IEEE 754 binary32 value. *)
Definition bits_of_binary32 (f : spec_float) : Z :=
  let sign (s : bool) := if s then 2 ^ 31 else 0 in
  match f with
  | S754_zero s => sign s
  | S754_infinity s => sign s + 255 * 2 ^ 23
  | S754_nan => 255 * 2 ^ 23 + 2 ^ 22
  | S754_finite s m e =>
      if Z.pos m <? 2 ^ 23 then sign s + Z.pos m
      else sign s + (e + 150) * 2 ^ 23 + (Z.pos m - 2 ^ 23)
  end.

(** [(float32_t) n] for a [uint32_t n], rounded to nearest even, as its 32
    bits. *)
Definition float32_of_uint32 (n : Z) : Z :=
  bits_of_binary32 (binary_normalize 24 128 n 0 false).

Module Telemetry.
Import Builder.

Definition TELE_TIMEMIN : Z := 20.
Definition GPS_TIMEMIN : Z := 100.
Definition MOTOR_TIMEMIN : Z := 100.
Definition WARNING_TIMEMIN : Z := 50.
Definition AB_TIMEMIN : Z := 100.

(** The sample structures of misc/Common.h, which is not among the sources:
    the members the code reads, and one more that the initialisers of [imu]
    and [baro] show.  A [float] is carried as its 32 bits. *)
Record float3D : Type := mkFloat3D { x : Z; y : Z; z : Z }.
Record IMU_data : Type := mkIMU {
  acceleration : float3D; eulerAngles : float3D; imu_last : Z
}.
Record BARO_data : Type := mkBARO {
  temperature : Z; pressure : Z; baro_last : Z
}.
Record GPS_data : Type := mkGPS {
  sats : Z; hdop : Z; lat : Z; lon : Z; altitude : Z
}.

(** The globals [m1] .. [m6] whose address goes on the queue. *)
Inductive slot : Type := M1 | M2 | M3 | M4 | M5 | M6.

(** Calls into the allocator and the radio queue, as they happen.  A put
    is logged with the message found at the address handed over and with
    the bytes that message points to at that moment. *)
Inductive event : Type :=
| Malloc (size : Z) (result : option N)
| MessagePut (info : slot) (message : Telemetry_Message)
             (datagram : list (option Z)) (millisec : Z) (osOK : bool)
| Free (pv : option N).

(** What the collaborators answer during one call of an entry point: the
    tick counter at the entry point's own reading and at the one
    [createGPSDatagram] takes, whether the allocator and the queue accept,
    and the CAN readings as the [float32_t] handed to [write32]. *)
Record Env : Type := mkEnv {
  HAL_GetTick : Z;
  HAL_GetTick_build : Z;
  pvPortMalloc_ok : bool;
  osMessagePut_ok : bool;
  can_getSpeed : Z;
  can_getAltitude : Z;
  can_getABangle : Z
}.

(** The globals of the file ([last_update] is the static local of
    [telemetry_sendGPSData]), the allocator's live blocks, and the logs. *)
Record State : Type := mkState {
  Packet_Number : Z;
  telemetrySeqNumber : Z;
  imu : IMU_data;
  baro : BARO_data;
  last_sensor_update : Z;
  last_motor_update : Z;
  last_warning_update : Z;
  last_airbrakes_update : Z;
  last_update : Z;
  m1 : Telemetry_Message;
  m2 : Telemetry_Message;
  m3 : Telemetry_Message;
  m4 : Telemetry_Message;
  m5 : Telemetry_Message;
  m6 : Telemetry_Message;
  heap : gmap N (list (option Z));
  next_block : N;
  trace : list event;
  faults : list fault
}.

Definition set_Packet_Number (v : Z) (st : State) : State :=
    mkState v (telemetrySeqNumber st) (imu st) (baro st)
      (last_sensor_update st) (last_motor_update st)
      (last_warning_update st) (last_airbrakes_update st) (last_update st)
      (m1 st) (m2 st) (m3 st) (m4 st) (m5 st) (m6 st) (heap st)
      (next_block st) (trace st) (faults st).

Definition set_telemetrySeqNumber (v : Z) (st : State) : State :=
    mkState (Packet_Number st) v (imu st) (baro st) (last_sensor_update st)
      (last_motor_update st) (last_warning_update st)
      (last_airbrakes_update st) (last_update st) (m1 st) (m2 st) (m3 st)
      (m4 st) (m5 st) (m6 st) (heap st) (next_block st) (trace st)
      (faults st).

Definition set_imu (v : IMU_data) (st : State) : State :=
    mkState (Packet_Number st) (telemetrySeqNumber st) v (baro st)
      (last_sensor_update st) (last_motor_update st)
      (last_warning_update st) (last_airbrakes_update st) (last_update st)
      (m1 st) (m2 st) (m3 st) (m4 st) (m5 st) (m6 st) (heap st)
      (next_block st) (trace st) (faults st).

Definition set_baro (v : BARO_data) (st : State) : State :=
    mkState (Packet_Number st) (telemetrySeqNumber st) (imu st) v
      (last_sensor_update st) (last_motor_update st)
      (last_warning_update st) (last_airbrakes_update st) (last_update st)
      (m1 st) (m2 st) (m3 st) (m4 st) (m5 st) (m6 st) (heap st)
      (next_block st) (trace st) (faults st).

Definition set_last_sensor_update (v : Z) (st : State) : State :=
    mkState (Packet_Number st) (telemetrySeqNumber st) (imu st) (baro st) v
      (last_motor_update st) (last_warning_update st)
      (last_airbrakes_update st) (last_update st) (m1 st) (m2 st) (m3 st)
      (m4 st) (m5 st) (m6 st) (heap st) (next_block st) (trace st)
      (faults st).

Definition set_last_motor_update (v : Z) (st : State) : State :=
    mkState (Packet_Number st) (telemetrySeqNumber st) (imu st) (baro st)
      (last_sensor_update st) v (last_warning_update st)
      (last_airbrakes_update st) (last_update st) (m1 st) (m2 st) (m3 st)
      (m4 st) (m5 st) (m6 st) (heap st) (next_block st) (trace st)
      (faults st).

Definition set_last_warning_update (v : Z) (st : State) : State :=
    mkState (Packet_Number st) (telemetrySeqNumber st) (imu st) (baro st)
      (last_sensor_update st) (last_motor_update st) v
      (last_airbrakes_update st) (last_update st) (m1 st) (m2 st) (m3 st)
      (m4 st) (m5 st) (m6 st) (heap st) (next_block st) (trace st)
      (faults st).

Definition set_last_airbrakes_update (v : Z) (st : State) : State :=
    mkState (Packet_Number st) (telemetrySeqNumber st) (imu st) (baro st)
      (last_sensor_update st) (last_motor_update st)
      (last_warning_update st) v (last_update st) (m1 st) (m2 st) (m3 st)
      (m4 st) (m5 st) (m6 st) (heap st) (next_block st) (trace st)
      (faults st).

Definition set_last_update (v : Z) (st : State) : State :=
    mkState (Packet_Number st) (telemetrySeqNumber st) (imu st) (baro st)
      (last_sensor_update st) (last_motor_update st)
      (last_warning_update st) (last_airbrakes_update st) v (m1 st) (m2 st)
      (m3 st) (m4 st) (m5 st) (m6 st) (heap st) (next_block st) (trace st)
      (faults st).

Definition set_m1 (v : Telemetry_Message) (st : State) : State :=
    mkState (Packet_Number st) (telemetrySeqNumber st) (imu st) (baro st)
      (last_sensor_update st) (last_motor_update st)
      (last_warning_update st) (last_airbrakes_update st) (last_update st) v
      (m2 st) (m3 st) (m4 st) (m5 st) (m6 st) (heap st) (next_block st)
      (trace st) (faults st).

Definition set_m2 (v : Telemetry_Message) (st : State) : State :=
    mkState (Packet_Number st) (telemetrySeqNumber st) (imu st) (baro st)
      (last_sensor_update st) (last_motor_update st)
      (last_warning_update st) (last_airbrakes_update st) (last_update st)
      (m1 st) v (m3 st) (m4 st) (m5 st) (m6 st) (heap st) (next_block st)
      (trace st) (faults st).

Definition set_m3 (v : Telemetry_Message) (st : State) : State :=
    mkState (Packet_Number st) (telemetrySeqNumber st) (imu st) (baro st)
      (last_sensor_update st) (last_motor_update st)
      (last_warning_update st) (last_airbrakes_update st) (last_update st)
      (m1 st) (m2 st) v (m4 st) (m5 st) (m6 st) (heap st) (next_block st)
      (trace st) (faults st).

Definition set_m4 (v : Telemetry_Message) (st : State) : State :=
    mkState (Packet_Number st) (telemetrySeqNumber st) (imu st) (baro st)
      (last_sensor_update st) (last_motor_update st)
      (last_warning_update st) (last_airbrakes_update st) (last_update st)
      (m1 st) (m2 st) (m3 st) v (m5 st) (m6 st) (heap st) (next_block st)
      (trace st) (faults st).

Definition set_m5 (v : Telemetry_Message) (st : State) : State :=
    mkState (Packet_Number st) (telemetrySeqNumber st) (imu st) (baro st)
      (last_sensor_update st) (last_motor_update st)
      (last_warning_update st) (last_airbrakes_update st) (last_update st)
      (m1 st) (m2 st) (m3 st) (m4 st) v (m6 st) (heap st) (next_block st)
      (trace st) (faults st).

Definition set_m6 (v : Telemetry_Message) (st : State) : State :=
    mkState (Packet_Number st) (telemetrySeqNumber st) (imu st) (baro st)
      (last_sensor_update st) (last_motor_update st)
      (last_warning_update st) (last_airbrakes_update st) (last_update st)
      (m1 st) (m2 st) (m3 st) (m4 st) (m5 st) v (heap st) (next_block st)
      (trace st) (faults st).

Definition set_heap (v : gmap N (list (option Z))) (st : State) : State :=
    mkState (Packet_Number st) (telemetrySeqNumber st) (imu st) (baro st)
      (last_sensor_update st) (last_motor_update st)
      (last_warning_update st) (last_airbrakes_update st) (last_update st)
      (m1 st) (m2 st) (m3 st) (m4 st) (m5 st) (m6 st) v (next_block st)
      (trace st) (faults st).

Definition set_next_block (v : N) (st : State) : State :=
    mkState (Packet_Number st) (telemetrySeqNumber st) (imu st) (baro st)
      (last_sensor_update st) (last_motor_update st)
      (last_warning_update st) (last_airbrakes_update st) (last_update st)
      (m1 st) (m2 st) (m3 st) (m4 st) (m5 st) (m6 st) (heap st) v (trace st)
      (faults st).

Definition set_trace (v : list event) (st : State) : State :=
    mkState (Packet_Number st) (telemetrySeqNumber st) (imu st) (baro st)
      (last_sensor_update st) (last_motor_update st)
      (last_warning_update st) (last_airbrakes_update st) (last_update st)
      (m1 st) (m2 st) (m3 st) (m4 st) (m5 st) (m6 st) (heap st)
      (next_block st) v (faults st).

Definition set_faults (v : list fault) (st : State) : State :=
    mkState (Packet_Number st) (telemetrySeqNumber st) (imu st) (baro st)
      (last_sensor_update st) (last_motor_update st)
      (last_warning_update st) (last_airbrakes_update st) (last_update st)
      (m1 st) (m2 st) (m3 st) (m4 st) (m5 st) (m6 st) (heap st)
      (next_block st) (trace st) v.


(** The state at start-up (the initialisers of the globals). *)
Definition initial : State :=
  mkState 0 0 (mkIMU (mkFloat3D 0 0 0) (mkFloat3D 0 0 0) 0) (mkBARO 0 0 0)
          0 0 0 0 0
          (mkMessage None 0) (mkMessage None 0) (mkMessage None 0)
          (mkMessage None 0) (mkMessage None 0) (mkMessage None 0)
          ∅ 0%N [] [].

Definition log (e : event) (st : State) : State :=
  set_trace (trace st ++ [e]) st.

(** [pvPortMalloc (MALLOC_SIZE)] *)
Definition pvPortMalloc (env : Env) (st : State) : option N * State :=
  if pvPortMalloc_ok env then
    let block := next_block st in
    let st := set_heap (<[block := replicate (Z.to_nat MALLOC_SIZE) None]>
                          (heap st)) st in
    let st := set_next_block (block + 1)%N st in
    (Some block, log (Malloc MALLOC_SIZE (Some block)) st)
  else (None, log (Malloc MALLOC_SIZE None) st).

(** The [size] bytes at [ptr] of a message. *)
Definition datagram_of (message : Telemetry_Message) (st : State)
  : list (option Z) :=
  match ptr message with
  | Some block =>
      take (Z.to_nat (size message)) (default [] (heap st !! block))
  | None => []
  end.

(** [osMessagePut (xBeeQueueHandle, (uint32_t) &m, millisec) == osOK] *)
Definition osMessagePut (env : Env) (info : slot) (message : Telemetry_Message)
    (millisec : Z) (st : State) : bool * State :=
  (osMessagePut_ok env,
   log (MessagePut info message (datagram_of message st) millisec
                   (osMessagePut_ok env)) st).

(** [vPortFree (pv)] *)
Definition vPortFree (pv : option N) (st : State) : State :=
  let st := log (Free pv) st in
  match pv with
  | Some block => set_heap (delete block (heap st)) st
  | None => st
  end.

(** [Packet_Number++] *)
Definition next_Packet_Number (st : State) : Z * State :=
  (Packet_Number st, set_Packet_Number (uint32 (Packet_Number st + 1)) st).

(** [telemetrySeqNumber++] *)
Definition next_telemetrySeqNumber (st : State) : Z * State :=
  (telemetrySeqNumber st,
   set_telemetrySeqNumber (uint32 (telemetrySeqNumber st + 1)) st).

Section Scheduler.
Context {crc : SimpleCRC} {byte_order : endianness}
        {protocol : TelemetryProtocol}.

(** [DatagramBuilder builder = DatagramBuilder (size, type, seq)] *)
Definition DatagramBuilder_new (env : Env)
    (datagramPayloadSize datagramType datagramSequenceNumber : Z)
    (st : State) : DatagramBuilder * State :=
  let '(allocation, st) := pvPortMalloc env st in
  (DatagramBuilder_ctor allocation datagramPayloadSize datagramType
                        datagramSequenceNumber, st).

(** [return builder.finalizeDatagram ()]: the builder's stores reach the
    block, its bad accesses the log. *)
Definition finalize (builder : DatagramBuilder) (st : State)
  : outcome (Telemetry_Message * State) :=
  let* (m, builder) := finalizeDatagram builder in
  let st := match datagramPtr builder with
            | Some block => set_heap (<[block := memory builder]> (heap st)) st
            | None => st
            end in
  Returns (m, set_faults (faults st ++ Builder.faults builder) st).

Definition createTelemetryDatagram (env : Env) (imu_data : IMU_data)
    (baro_data : BARO_data) (time_stamp telemetrySeqNumber : Z) (st : State)
  : outcome (Telemetry_Message * State) :=
  let '(builder, st) :=
    DatagramBuilder_new env SENSOR_DATAGRAM_PAYLOAD_SIZE TELEMETRY_PACKET
                        telemetrySeqNumber st in
  let builder := write32 time_stamp builder in
  let '(number, st) := next_Packet_Number st in
  let builder := write32 number builder in
  let builder := write32 (x (acceleration imu_data)) builder in
  let builder := write32 (y (acceleration imu_data)) builder in
  let builder := write32 (z (acceleration imu_data)) builder in
  let builder := write32 (x (eulerAngles imu_data)) builder in
  let builder := write32 (y (eulerAngles imu_data)) builder in
  let builder := write32 (z (eulerAngles imu_data)) builder in
  let builder := write32 (temperature baro_data) builder in
  let builder := write32 (pressure baro_data) builder in
  let builder := write32 (can_getSpeed env) builder in
  let builder := write32 (can_getAltitude env) builder in
  finalize builder st.

Definition createAirbrakesDatagram (env : Env)
    (time_stamp telemetrySeqNumber : Z) (st : State)
  : outcome (Telemetry_Message * State) :=
  let '(builder, st) :=
    DatagramBuilder_new env AB_DATAGRAM_PAYLOAD_SIZE AIRBRAKES_PACKET
                        telemetrySeqNumber st in
  let builder := write32 time_stamp builder in
  let '(number, st) := next_Packet_Number st in
  let builder := write32 number builder in
  let builder := write32 (can_getABangle env) builder in
  finalize builder st.

Definition createGPSDatagram (env : Env) (seqNumber : Z) (gpsData : GPS_data)
    (st : State) : outcome (Telemetry_Message * State) :=
  let '(builder, st) :=
    DatagramBuilder_new env GPS_DATAGRAM_PAYLOAD_SIZE GPS_PACKET seqNumber st in
  let builder := write32 (HAL_GetTick_build env) builder in
  let '(number, st) := next_Packet_Number st in
  let builder := write32 number builder in
  let builder := write8 (sats gpsData) builder in
  let builder := write32 (hdop gpsData) builder in
  let builder := write32 (lat gpsData) builder in
  let builder := write32 (lon gpsData) builder in
  let builder := write32 (altitude gpsData) builder in
  finalize builder st.

(** [pressure] is a [float32_t] parameter. *)
Definition createMotorPressurePacketDatagram (env : Env)
    (time_stamp pressure seqNumber : Z) (st : State)
  : outcome (Telemetry_Message * State) :=
  let '(builder, st) :=
    DatagramBuilder_new env MOTORPRESSURE_DATAGRAM_PAYLOAD_SIZE MOTOR_PACKET
                        seqNumber st in
  let builder := write32 time_stamp builder in
  let '(number, st) := next_Packet_Number st in
  let builder := write32 number builder in
  let builder := write32 pressure builder in
  finalize builder st.

Definition createWarningPacketDatagram (env : Env)
    (time_stamp id value av_state seqNumber : Z) (st : State)
  : outcome (Telemetry_Message * State) :=
  let '(builder, st) :=
    DatagramBuilder_new env WARNING_DATAGRAM_PAYLOAD_SIZE STATUS_PACKET
                        seqNumber st in
  let builder := write32 time_stamp builder in
  let '(number, st) := next_Packet_Number st in
  let builder := write32 number builder in
  let builder := write8 id builder in
  let builder := write32 value builder in
  let builder := write8 av_state builder in
  finalize builder st.

Definition telemetry_sendGPSData (env : Env) (data : GPS_data) (st : State)
  : outcome (bool * State) :=
  let now := HAL_GetTick env in
  if GPS_TIMEMIN <? uint32 (now - last_update st) then
    let '(seq, st) := next_telemetrySeqNumber st in
    let* (m, st) := createGPSDatagram env seq data st in
    let st := set_m1 m st in
    let '(ok, st) := osMessagePut env M1 (m1 st) 10 st in
    let st := if negb ok then vPortFree (ptr (m1 st)) st else st in
    let st := set_last_update now st in
    Returns (true, st)
  else Returns (false, st).

Definition telemetry_sendIMUData (env : Env) (data : IMU_data) (st : State)
  : outcome (bool * State) :=
  let now := HAL_GetTick env in
  let st := set_imu data st in
  if TELE_TIMEMIN <? uint32 (now - last_sensor_update st) then
    let '(seq, st) := next_telemetrySeqNumber st in
    let* (m, st) := createTelemetryDatagram env (imu st) (baro st) now seq st in
    let st := set_m2 m st in
    let '(ok, st) := osMessagePut env M2 (m2 st) 10 st in
    let st := if negb ok then vPortFree (ptr (m2 st)) st else st in
    let st := set_last_sensor_update now st in
    Returns (true, st)
  else Returns (false, st).

Definition telemetry_sendBaroData (env : Env) (data : BARO_data) (st : State)
  : outcome (bool * State) :=
  let now := HAL_GetTick env in
  let st := set_baro data st in
  if TELE_TIMEMIN <? uint32 (now - last_sensor_update st) then
    let '(seq, st) := next_telemetrySeqNumber st in
    let* (m, st) := createTelemetryDatagram env (imu st) (baro st) now seq st in
    let st := set_m3 m st in
    let '(ok, st) := osMessagePut env M3 (m3 st) 10 st in
    let st := if negb ok then vPortFree (ptr (m3 st)) st else st in
    let st := set_last_sensor_update now st in
    Returns (true, st)
  else Returns (false, st).

(** The call passes [pressure] for the [uint32_t time_stamp] and [now]
    for the [float32_t pressure], which converts it. *)
Definition telemetry_sendMotorPressureData (env : Env) (pressure : Z)
    (st : State) : outcome (bool * State) :=
  let now := HAL_GetTick env in
  if MOTOR_TIMEMIN <? uint32 (now - last_motor_update st) then
    let '(seq, st) := next_telemetrySeqNumber st in
    let* (m, st) :=
      createMotorPressurePacketDatagram env pressure (float32_of_uint32 now)
                                        seq st in
    let st := set_m4 m st in
    let '(ok, st) := osMessagePut env M4 (m4 st) 10 st in
    let st := if negb ok then vPortFree (ptr (m4 st)) st else st in
    let st := set_last_motor_update now st in
    Returns (true, st)
  else Returns (false, st).

(** [id] is a [bool] converted to the [uint8_t] parameter. *)
Definition telemetry_sendWarningPacketData (env : Env) (id : bool)
    (value av_state : Z) (st : State) : outcome (bool * State) :=
  let now := HAL_GetTick env in
  if WARNING_TIMEMIN <? uint32 (now - last_warning_update st) then
    let '(seq, st) := next_telemetrySeqNumber st in
    let* (m, st) :=
      createWarningPacketDatagram env now (Z.b2z id) value av_state seq st in
    let st := set_m5 m st in
    let '(ok, st) := osMessagePut env M5 (m5 st) 10 st in
    let st := if negb ok then vPortFree (ptr (m5 st)) st else st in
    let st := set_last_warning_update now st in
    Returns (true, st)
  else Returns (false, st).

Definition telemetry_sendABData (env : Env) (st : State)
  : outcome (bool * State) :=
  let now := HAL_GetTick env in
  if AB_TIMEMIN <? uint32 (now - last_airbrakes_update st) then
    let '(seq, st) := next_telemetrySeqNumber st in
    let* (m, st) := createAirbrakesDatagram env now seq st in
    let st := set_m6 m st in
    let '(ok, st) := osMessagePut env M6 (m6 st) 10 st in
    let st := if negb ok then vPortFree (ptr (m6 st)) st else st in
    let st := set_last_airbrakes_update now st in
    Returns (true, st)
  else Returns (false, st).
End Scheduler.

End Telemetry.

(** ** Instances used in the examples *)

(** A bitwise CRC-16 (polynomial 0x1021, seed 0, most significant bit
    first, no final inversion) standing in for the table of simpleCRC.h. *)
Fixpoint crc16_shift (n : nat) (r : Z) : Z :=
  match n with
  | O => r
  | S n' =>
      crc16_shift n'
        (if Z.testbit r 15 then Z.lxor (uint16 (Z.shiftl r 1)) 4129
         else uint16 (Z.shiftl r 1))
  end.

Definition crc16_xmodem : SimpleCRC :=
  {| initialValue := 0;
     CalculateRemainderFromTable input currentCRC :=
       crc16_shift 8 (Z.lxor currentCRC (Z.shiftl input 8));
     FinalizeCRC currentCRC := currentCRC |}.

(** Payload sizes equal to the bytes each [create*Datagram] writes, and
    type tags 1 to 5. *)
Definition example_protocol : TelemetryProtocol :=
  {| SENSOR_DATAGRAM_PAYLOAD_SIZE := 48;
     AB_DATAGRAM_PAYLOAD_SIZE := 12;
     GPS_DATAGRAM_PAYLOAD_SIZE := 25;
     MOTORPRESSURE_DATAGRAM_PAYLOAD_SIZE := 12;
     WARNING_DATAGRAM_PAYLOAD_SIZE := 14;
     TELEMETRY_PACKET := 1;
     AIRBRAKES_PACKET := 2;
     GPS_PACKET := 3;
     MOTOR_PACKET := 4;
     STATUS_PACKET := 5 |}.

(** * Properties *)

(** ** Vocabulary: the message bus *)

Section BusVocabulary.
Context {Handler : Type}.

(** A run of [register_object] calls, the first call first. *)
Definition register_objects (calls : list (Bus.Kind * Z))
    (bus : Bus.MessageBus Handler) : Bus.MessageBus Handler :=
  foldl (fun bus call => Bus.register_object call.1 call.2 bus) bus calls.

(** Kinds with different type hashes are bound to different identifiers. *)
Definition identifiers_distinct (bus : Bus.MessageBus Handler) : Prop :=
  forall h1 h2 i1 i2,
    h1 <> h2 ->
    Bus.identifiers bus !! h1 = Some i1 ->
    Bus.identifiers bus !! h2 = Some i2 ->
    i1 <> i2.

(** Every identifier bound to a kind has an entry in the table of
    expected payload lengths. *)
Definition lengths_total (bus : Bus.MessageBus Handler) : Prop :=
  forall h i,
    Bus.identifiers bus !! h = Some i ->
    is_Some (Bus.safe_cast_reference bus !! Z.to_nat i).

(** The calls [receive] makes when the length check passes: one per
    entry from the first entry of the identifier to the end of the
    handler table. *)
Definition dispatched (packet_id : Z) (payload : list Z)
    (bus : Bus.MessageBus Handler) : list (Handler * list Z) :=
  (fun it : Z * Handler => (it.2, payload))
    <$> Bus.handlers_find packet_id (Bus.handlers bus).
End BusVocabulary.

(** Two message kinds of two bytes each, and one of 256 bytes. *)
Definition KindA : Bus.Kind := Bus.mkKind 2 1001.
Definition KindB : Bus.Kind := Bus.mkKind 2 1002.
Definition Kind256 : Bus.Kind := Bus.mkKind 256 1003.

(** A bus set up with [KindA] as identifier 5 and [KindB] as identifier 6,
    handlers H1 and H2 for [KindA] and then H3 for [KindB]. *)
Definition two_kind_bus : Bus.MessageBus string :=
  Bus.register_handler KindB "H3"
    (Bus.register_handler KindA "H2"
       (Bus.register_handler KindA "H1"
          (Bus.register_object KindB 6
             (Bus.register_object KindA 5 (Bus.fresh (replicate 256 0)))))).

(** A bus with the 256-byte kind as identifier 7 and one handler for it. *)
Definition wide_kind_bus : Bus.MessageBus string :=
  Bus.register_handler Kind256 "H"
    (Bus.register_object Kind256 7 (Bus.fresh (replicate 256 0))).

(** ** Vocabulary: the datagram builder *)

(** One call of a write method of the builder. *)
Inductive field : Type :=
| U8 (val : Z)
| U16 (val : Z)
| U32 (val : Z).

Definition field_size (f : field) : Z :=
  match f with U8 _ => 1 | U16 _ => 2 | U32 _ => 4 end.

Definition payload_size (fs : list field) : Z :=
  foldr (fun f n => field_size f + n) 0 fs.

Section BuilderVocabulary.
Context {crc : SimpleCRC} {byte_order : endianness}.

Definition write_field (f : field) (b : Builder.DatagramBuilder)
  : Builder.DatagramBuilder :=
  match f with
  | U8 val => Builder.write8 val b
  | U16 val => Builder.write16 val b
  | U32 val => Builder.write32 val b
  end.

(** A run of write calls, the first call first. *)
Definition write_fields (fs : list field) (b : Builder.DatagramBuilder)
  : Builder.DatagramBuilder :=
  foldl (fun b f => write_field f b) b fs.

(** The bytes a field occupies on the wire. *)
Definition field_image (f : field) : list Z :=
  match f with
  | U8 val => [val]
  | U16 val => Builder.field_bytes 2 val
  | U32 val => Builder.field_bytes 4 val
  end.

Definition payload_image (fs : list field) : list Z :=
  concat (field_image <$> fs).

(** The five header bytes: the type tag and the marker. *)
Definition header (datagramType : Z) : list Z :=
  [datagramType; Builder.char "E"; Builder.char "P"; Builder.char "F";
   Builder.char "L"].

(** The CRC-16 of a byte sequence, in the spec's words: seed, one update
    per byte, finalisation. *)
Definition crc_update (currentCRC input : Z) : Z :=
  CalculateRemainderFromTable input currentCRC.

Definition crc16 (bytes : list Z) : Z :=
  FinalizeCRC (foldl crc_update initialValue bytes).

(** The builder state in which exactly [bytes] have been written, from
    offset 0 on, without a bad access. *)
Definition written (b : Builder.DatagramBuilder) (bytes : list Z) : Prop :=
  is_Some (Builder.datagramPtr b) /\
  Builder.memory b
  = (Some <$> bytes) ++ replicate (64 - length bytes) None /\
  Builder.currentIdx b = Z.of_nat (length bytes) /\
  (length bytes <= 64)%nat /\
  Builder.faults b = [].

(** A builder made for a payload of [datagramPayloadSize] bytes, then the
    given write calls, then [finalizeDatagram]. *)
Definition build (allocation : option N)
    (datagramPayloadSize datagramType datagramSequenceNumber : Z)
    (fs : list field)
  : outcome (Builder.Telemetry_Message * Builder.DatagramBuilder) :=
  Builder.finalizeDatagram
    (write_fields fs
       (Builder.DatagramBuilder_ctor allocation datagramPayloadSize
                                     datagramType datagramSequenceNumber)).

(** The frame layout of the wire format: type tag, marker, payload, and
    the CRC-16 of everything before it as the last two bytes. *)
Definition well_framed (datagramType : Z) (fr : list (option Z)) : Prop :=
  exists payload : list Z,
    let bytes := header datagramType ++ payload in
    fr = Some <$> (bytes ++ Builder.field_bytes 2 (crc16 bytes)).
End BuilderVocabulary.

(** ** Vocabulary: the telemetry scheduler *)

(** The telemetry categories, each with the arguments of its entry point. *)
Inductive category : Type :=
| GPS (data : Telemetry.GPS_data)
| IMU (data : Telemetry.IMU_data)
| Baro (data : Telemetry.BARO_data)
| MotorPressure (pressure : Z)
| Warning (id : bool) (value av_state : Z)
| Airbrakes.

Definition min_interval (c : category) : Z :=
  match c with
  | GPS _ => Telemetry.GPS_TIMEMIN
  | IMU _ | Baro _ => Telemetry.TELE_TIMEMIN
  | MotorPressure _ => Telemetry.MOTOR_TIMEMIN
  | Warning _ _ _ => Telemetry.WARNING_TIMEMIN
  | Airbrakes => Telemetry.AB_TIMEMIN
  end.

(** The tick of the last attempt, as the category keeps it. *)
Definition last_sent (c : category) (st : Telemetry.State) : Z :=
  match c with
  | GPS _ => Telemetry.last_update st
  | IMU _ | Baro _ => Telemetry.last_sensor_update st
  | MotorPressure _ => Telemetry.last_motor_update st
  | Warning _ _ _ => Telemetry.last_warning_update st
  | Airbrakes => Telemetry.last_airbrakes_update st
  end.

(** The ticks since the last attempt, in 32-bit unsigned arithmetic. *)
Definition elapsed (c : category) (env : Telemetry.Env) (st : Telemetry.State)
  : Z :=
  uint32 (Telemetry.HAL_GetTick env - last_sent c st).

(** The global a category stores its message in. *)
Definition slot_of (c : category) : Telemetry.slot :=
  match c with
  | GPS _ => Telemetry.M1
  | IMU _ => Telemetry.M2
  | Baro _ => Telemetry.M3
  | MotorPressure _ => Telemetry.M4
  | Warning _ _ _ => Telemetry.M5
  | Airbrakes => Telemetry.M6
  end.

Definition message_of (c : category) (st : Telemetry.State)
  : Builder.Telemetry_Message :=
  match c with
  | GPS _ => Telemetry.m1 st
  | IMU _ => Telemetry.m2 st
  | Baro _ => Telemetry.m3 st
  | MotorPressure _ => Telemetry.m4 st
  | Warning _ _ _ => Telemetry.m5 st
  | Airbrakes => Telemetry.m6 st
  end.

Definition store_message (c : category) (m : Builder.Telemetry_Message)
    (st : Telemetry.State) : Telemetry.State :=
  match c with
  | GPS _ => Telemetry.set_m1 m st
  | IMU _ => Telemetry.set_m2 m st
  | Baro _ => Telemetry.set_m3 m st
  | MotorPressure _ => Telemetry.set_m4 m st
  | Warning _ _ _ => Telemetry.set_m5 m st
  | Airbrakes => Telemetry.set_m6 m st
  end.

Definition set_last_sent (c : category) (tick : Z) (st : Telemetry.State)
  : Telemetry.State :=
  match c with
  | GPS _ => Telemetry.set_last_update tick st
  | IMU _ | Baro _ => Telemetry.set_last_sensor_update tick st
  | MotorPressure _ => Telemetry.set_last_motor_update tick st
  | Warning _ _ _ => Telemetry.set_last_warning_update tick st
  | Airbrakes => Telemetry.set_last_airbrakes_update tick st
  end.

(** The cached sample a category overwrites before it looks at the clock. *)
Definition cache_sample (c : category) (st : Telemetry.State)
  : Telemetry.State :=
  match c with
  | IMU data => Telemetry.set_imu data st
  | Baro data => Telemetry.set_baro data st
  | _ => st
  end.

Section SchedulerVocabulary.
Context {crc : SimpleCRC} {byte_order : endianness}
        {protocol : TelemetryProtocol}.

(** The entry point of a category. *)
Definition on_data (c : category) (env : Telemetry.Env) (st : Telemetry.State)
  : outcome (bool * Telemetry.State) :=
  match c with
  | GPS data => Telemetry.telemetry_sendGPSData env data st
  | IMU data => Telemetry.telemetry_sendIMUData env data st
  | Baro data => Telemetry.telemetry_sendBaroData env data st
  | MotorPressure pressure =>
      Telemetry.telemetry_sendMotorPressureData env pressure st
  | Warning id value av_state =>
      Telemetry.telemetry_sendWarningPacketData env id value av_state st
  | Airbrakes => Telemetry.telemetry_sendABData env st
  end.

Definition declared_payload_size (c : category) : Z :=
  match c with
  | GPS _ => GPS_DATAGRAM_PAYLOAD_SIZE
  | IMU _ | Baro _ => SENSOR_DATAGRAM_PAYLOAD_SIZE
  | MotorPressure _ => MOTORPRESSURE_DATAGRAM_PAYLOAD_SIZE
  | Warning _ _ _ => WARNING_DATAGRAM_PAYLOAD_SIZE
  | Airbrakes => AB_DATAGRAM_PAYLOAD_SIZE
  end.

Definition type_tag (c : category) : Z :=
  match c with
  | GPS _ => GPS_PACKET
  | IMU _ | Baro _ => TELEMETRY_PACKET
  | MotorPressure _ => MOTOR_PACKET
  | Warning _ _ _ => STATUS_PACKET
  | Airbrakes => AIRBRAKES_PACKET
  end.

(** The declared size of a category's datagram, as the builder keeps it. *)
Definition declared_size (c : category) : Z :=
  uint16 (declared_payload_size c + Builder.TOTAL_DATAGRAM_OVERHEAD).

(** The write calls a category's [create*Datagram] function makes, in
    order, on a state whose cached samples are up to date. *)
Definition fields_of (c : category) (env : Telemetry.Env)
    (st : Telemetry.State) : list field :=
  let now := Telemetry.HAL_GetTick env in
  let number := Telemetry.Packet_Number st in
  match c with
  | GPS data =>
      [U32 (Telemetry.HAL_GetTick_build env); U32 number;
       U8 (Telemetry.sats data); U32 (Telemetry.hdop data);
       U32 (Telemetry.lat data); U32 (Telemetry.lon data);
       U32 (Telemetry.altitude data)]
  | IMU _ | Baro _ =>
      let imu := Telemetry.imu st in
      let baro := Telemetry.baro st in
      [U32 now; U32 number;
       U32 (Telemetry.x (Telemetry.acceleration imu));
       U32 (Telemetry.y (Telemetry.acceleration imu));
       U32 (Telemetry.z (Telemetry.acceleration imu));
       U32 (Telemetry.x (Telemetry.eulerAngles imu));
       U32 (Telemetry.y (Telemetry.eulerAngles imu));
       U32 (Telemetry.z (Telemetry.eulerAngles imu));
       U32 (Telemetry.temperature baro); U32 (Telemetry.pressure baro);
       U32 (Telemetry.can_getSpeed env); U32 (Telemetry.can_getAltitude env)]
  | MotorPressure pressure =>
      [U32 pressure; U32 number; U32 (float32_of_uint32 now)]
  | Warning id value av_state =>
      [U32 now; U32 number; U8 (Z.b2z id); U32 value; U8 av_state]
  | Airbrakes =>
      [U32 now; U32 number; U32 (Telemetry.can_getABangle env)]
  end.

(** The shape the five [create*Datagram] functions share: a new builder,
    the write calls with the packet number taken on the way, and
    [finalizeDatagram]. *)
Definition create (env : Telemetry.Env)
    (datagramPayloadSize datagramType seqNumber : Z) (fs : list field)
    (st : Telemetry.State)
  : outcome (Builder.Telemetry_Message * Telemetry.State) :=
  let '(builder, st) :=
    Telemetry.DatagramBuilder_new env datagramPayloadSize datagramType
                                  seqNumber st in
  let '(_, st) := Telemetry.next_Packet_Number st in
  Telemetry.finalize (write_fields fs builder) st.

(** No declared datagram size is beyond the reach of the 16-bit signed
    loop index of [finalizeDatagram]. *)
Definition sizes_indexable : Prop :=
  forall c, declared_size c <= 32767.

(** Every declared datagram size holds the header and the fields its
    category writes. *)
Definition fields_fit : Prop :=
  forall c env st,
    Builder.HEADER_SIZE + payload_size (fields_of c env st)
    <= declared_size c.

(** What every entry point does with the message it got: store it in the
    category's global, put the global's address on the queue, free the
    buffer when the queue does not take it, note the tick. *)
Definition submit (c : category) (env : Telemetry.Env)
    (m : Builder.Telemetry_Message) (st : Telemetry.State)
  : Telemetry.State :=
  let st := store_message c m st in
  let '(ok, st) :=
    Telemetry.osMessagePut env (slot_of c) (message_of c st) 10 st in
  let st := if negb ok
            then Telemetry.vPortFree (Builder.ptr (message_of c st)) st
            else st in
  set_last_sent c (Telemetry.HAL_GetTick env) st.

(** The schedule all six entry points follow. *)
Definition schedule (c : category) (env : Telemetry.Env)
    (st : Telemetry.State) : outcome (bool * Telemetry.State) :=
  let st := cache_sample c st in
  if min_interval c <? elapsed c env st then
    let '(seq, st) := Telemetry.next_telemetrySeqNumber st in
    let* (m, st) := create env (declared_payload_size c) (type_tag c) seq
                           (fields_of c env st) st in
    Returns (true, submit c env m st)
  else Returns (false, st).
End SchedulerVocabulary.

(** The collaborators at a given tick, with an allocator and a queue that
    accept. *)
Definition env_at (tick : Z) : Telemetry.Env :=
  Telemetry.mkEnv tick tick true true 0 0 0.

(** ** Received packet handling (telemetry/telemetry_handling.cpp) *)

Module Commands.

(** The value of an [int] expression, wrapped to 32 bits two's complement. *)
Definition int32 (z : Z) : Z := (z + 2 ^ 31) mod 2 ^ 32 - 2 ^ 31.

(** [p[i]] for a [uint8_t *p]; a read past the bytes given yields 0. *)
Definition at_index (p : list Z) (i : nat) : Z := default 0 (p !! i).

(** [p[i+3] | (p[i+2] << 8) | (p[i+1] << 16) | (p[i] << 24)] assigned to a
    [uint32_t]: the bytes are promoted to [int], shifted and or-ed as
    [int]s, and the result is converted to 32 bits unsigned. *)
Definition read_uint32 (p : list Z) (i : nat) : Z :=
  uint32
    (Z.lor
       (Z.lor
          (Z.lor (at_index p (i + 3))
                 (int32 (Z.shiftl (at_index p (i + 2)) 8)))
          (int32 (Z.shiftl (at_index p (i + 1)) 16)))
       (int32 (Z.shiftl (at_index p i) 24))).

(** A call [can_setFrame (data, data_id, timestamp)]. *)
Record can_frame : Type := mkFrame { data : Z; data_id : Z; timestamp : Z }.

Section Ignition.
(** The identifier constant of CAN_communication.h, which is not among the
    sources. *)
Context (DATA_ID_IGNITION : Z).

(** [bool telemetry_receiveIgnitionPacket (uint8_t* RX_Ignition_Packet)]:
    the value returned and the [can_setFrame] calls made. *)
Definition telemetry_receiveIgnitionPacket (RX_Ignition_Packet : list Z)
  : bool * list can_frame :=
  let ts := read_uint32 RX_Ignition_Packet 0 in
  let packet_nbr := read_uint32 RX_Ignition_Packet 4 in
  let calls :=
    if at_index RX_Ignition_Packet 8 =? 34
    then [mkFrame (int32 34) DATA_ID_IGNITION ts]
    else [] in
  (false, calls).
End Ignition.

End Commands.

(** ** Vocabulary: further properties *)

Section BusRuns.
Context {Handler : Type}.

(** A run of [register_handler] calls, the first call first. *)
Definition register_handlers (calls : list (Bus.Kind * Handler))
    (bus : Bus.MessageBus Handler) : Bus.MessageBus Handler :=
  foldl (fun bus call => Bus.register_handler call.1 call.2 bus) bus calls.
End BusRuns.

(** The write calls a builder keeps when [room] bytes are left of its
    declared size: every write method tests its own value against what is
    left, so a call that does not fit is skipped and a later, smaller one
    may still be kept. *)
Fixpoint kept (room : Z) (fs : list field) : list field :=
  match fs with
  | [] => []
  | f :: fs =>
      if field_size f <=? room then f :: kept (room - field_size f) fs
      else kept room fs
  end.

(** The value of an [int] converted to [int16_t]. *)
Definition int16 (z : Z) : Z := (z + 2 ^ 15) mod 2 ^ 16 - 2 ^ 15.

Section LoopIndex.
Context {crc : SimpleCRC}.

(** The checksum loop of [finalizeDatagram] with the index the code
    declares,
      [for (int16_t i = HEADER_SIZE; i < currentIdx; i++)
         datagramCrc = CalculateRemainderFromTable (datagramPtr[i], datagramCrc);]
    The test compares the index with the 16-bit unsigned cursor as
    [int]s, and [i++] converts [i + 1] back to [int16_t].  [fuel] bounds
    the number of tests made; the result is [None] when the loop is still
    running after that many. *)
Fixpoint finalize_loop (fuel : nat) (i : Z) (b : Builder.DatagramBuilder)
  : option Builder.DatagramBuilder :=
  match fuel with
  | O => None
  | S fuel' =>
      if i <? Builder.currentIdx b then
        let '(byte, b) := Builder.load i b in
        let '(current, b) := Builder.read_datagramCrc b in
        finalize_loop fuel' (int16 (i + 1))
                      (Builder.set_datagramCrc
                         (CalculateRemainderFromTable byte current) b)
      else Some b
  end.
End LoopIndex.

(** The table entry of [identifier] after a run of [register_object] calls
    on an entry that held [initial]: the size, cut to eight bits, of the
    last call that passed the size test and named this identifier. *)
Definition registered_length (calls : list (Bus.Kind * Z)) (identifier : Z)
    (initial : Z) : Z :=
  foldl (fun len (call : Bus.Kind * Z) =>
           if negb (256 <? Bus.sizeof call.1) && (call.2 =? identifier)
           then uint8 (Bus.sizeof call.1) else len)
        initial calls.

(** An ignition packet as the ground station sends it: time stamp and packet
    number in four bytes each, most significant byte first, and the command
    byte. *)
Definition ignition_packet (ts packet_nbr command : Z) : list Z :=
  @Builder.field_bytes BigEndian 4 ts
    ++ @Builder.field_bytes BigEndian 4 packet_nbr ++ [command].

(** The variables that hold the tick of the last attempt: the static local
    of [telemetry_sendGPSData] and the four globals. *)
Inductive timer : Type :=
| GpsTimer | SensorTimer | MotorTimer | WarningTimer | AirbrakesTimer.

Definition timer_of (c : category) : timer :=
  match c with
  | GPS _ => GpsTimer
  | IMU _ | Baro _ => SensorTimer
  | MotorPressure _ => MotorTimer
  | Warning _ _ _ => WarningTimer
  | Airbrakes => AirbrakesTimer
  end.

(** ** Fixed-width integers *)

Lemma uint8_range z : 0 <= uint8 z < 256.
Proof. unfold uint8. change (2 ^ 8) with 256. apply Z.mod_pos_bound. lia. Qed.

Lemma uint8_small z : 0 <= z < 256 -> uint8 z = z.
Proof. intros. unfold uint8. change (2 ^ 8) with 256. apply Z.mod_small. lia. Qed.

Lemma uint16_range z : 0 <= uint16 z < 65536.
Proof.
  unfold uint16. change (2 ^ 16) with 65536. apply Z.mod_pos_bound. lia.
Qed.

Lemma uint16_small z : 0 <= z < 65536 -> uint16 z = z.
Proof.
  intros. unfold uint16. change (2 ^ 16) with 65536. apply Z.mod_small. lia.
Qed.

Lemma uint32_small z : 0 <= z < 4294967296 -> uint32 z = z.
Proof.
  intros. unfold uint32. change (2 ^ 32) with 4294967296.
  apply Z.mod_small. lia.
Qed.

(** ** The message bus *)

Section BusFacts.
Context {Handler : Type}.
Implicit Types (bus : Bus.MessageBus Handler) (tbl : list (Z * Handler)).

(** *** The length check of [receive] *)

Lemma receive_accepted bus pointer length :
  0 < length ->
  length - 1 = Bus.expected_length bus (hd 0 pointer) ->
  Bus.receive pointer length bus = dispatched (hd 0 pointer) (tl pointer) bus.
Proof.
  intros Hpos Hlen. unfold Bus.receive, dispatched.
  destruct (Z.ltb_spec 0 length) as [_|]; [|lia].
  rewrite Hlen, Z.eqb_refl. reflexivity.
Qed.

Lemma receive_rejected bus pointer length :
  length - 1 <> Bus.expected_length bus (hd 0 pointer) ->
  Bus.receive pointer length bus = [].
Proof.
  intros Hlen. unfold Bus.receive.
  destruct (0 <? length); [|reflexivity].
  destruct (Z.eqb_spec (length - 1) (Bus.expected_length bus (hd 0 pointer)));
    [contradiction | reflexivity].
Qed.

Lemma receive_empty bus pointer : Bus.receive pointer 0 bus = [].
Proof. reflexivity. Qed.

(** *** The walk over the handler table *)

Lemma handlers_find_crosses tbl (X Y : Z) (hx hy : Handler) :
  X <> Y -> (X, hx) ∈ tbl -> (Y, hy) ∈ tbl ->
  (Y, hy) ∈ Bus.handlers_find X tbl \/ (X, hx) ∈ Bus.handlers_find Y tbl.
Proof.
  intros Hne. induction tbl as [|entry rest IH]; intros HX HY.
  - inversion HX.
  - apply elem_of_cons in HX, HY. simpl.
    destruct (Z.eqb_spec entry.1 X) as [HeX|HnX].
    + left. destruct HY as [HY|HY]; [subst entry; simpl in HeX; lia|].
      apply elem_of_cons. now right.
    + destruct (Z.eqb_spec entry.1 Y) as [HeY|HnY].
      * right. destruct HX as [HX|HX]; [subst entry; simpl in HeY; lia|].
        apply elem_of_cons. now right.
      * destruct HX as [HX|HX]; [subst entry; simpl in HnX; lia|].
        destruct HY as [HY|HY]; [subst entry; simpl in HnY; lia|].
        now apply IH.
Qed.

(** Whatever order the handler table is in, once two identifiers both
    have a handler, a frame for one of them also reaches a handler of
    the other one. *)
Lemma receive_reaches_foreign_handler bus (X Y : Z) (hx hy : Handler)
    (px py : list Z) :
  X <> Y ->
  (X, hx) ∈ Bus.handlers bus -> (Y, hy) ∈ Bus.handlers bus ->
  Z.of_nat (length px) = Bus.expected_length bus X ->
  Z.of_nat (length py) = Bus.expected_length bus Y ->
  (hy, px) ∈ Bus.receive (X :: px) (Z.of_nat (length (X :: px))) bus \/
  (hx, py) ∈ Bus.receive (Y :: py) (Z.of_nat (length (Y :: py))) bus.
Proof.
  intros Hne HX HY Hpx Hpy.
  rewrite !receive_accepted by (simpl hd; simpl length; lia).
  unfold dispatched. simpl hd. simpl tl.
  destruct (handlers_find_crosses _ _ _ _ _ Hne HX HY) as [H|H];
    [left|right].
  - apply (list_elem_of_fmap_2 (fun it : Z * Handler => (it.2, px))) in H.
    exact H.
  - apply (list_elem_of_fmap_2 (fun it : Z * Handler => (it.2, py))) in H.
    exact H.
Qed.

(** *** Registration *)

Lemma register_object_oversize (T : Bus.Kind) identifier bus :
  256 < Bus.sizeof T -> Bus.register_object T identifier bus = bus.
Proof.
  intros H. unfold Bus.register_object.
  destruct (Z.ltb_spec 256 (Bus.sizeof T)); [reflexivity | lia].
Qed.

Lemma register_object_length (T : Bus.Kind) identifier bus :
  length (Bus.safe_cast_reference (Bus.register_object T identifier bus))
  = length (Bus.safe_cast_reference bus).
Proof.
  unfold Bus.register_object. destruct (256 <? Bus.sizeof T); [reflexivity|].
  simpl. apply length_insert.
Qed.

(** A kind of at most 255 bytes gets its size as expected length. *)
Lemma register_object_expected_length (T : Bus.Kind) identifier bus :
  length (Bus.safe_cast_reference bus) = 256%nat ->
  0 <= identifier < 256 ->
  0 <= Bus.sizeof T < 256 ->
  Bus.expected_length (Bus.register_object T identifier bus) identifier
  = Bus.sizeof T.
Proof.
  intros Hlen Hid Hsize. unfold Bus.register_object, Bus.expected_length.
  destruct (Z.ltb_spec 256 (Bus.sizeof T)); [lia|]. simpl.
  rewrite list_lookup_total_insert_eq by lia.
  now apply uint8_small.
Qed.

(** For such a kind the length check passes for the buffers one byte
    longer than the kind, and for no others. *)
Lemma receive_after_register_object (T : Bus.Kind) identifier bus
    (payload : list Z) (length : Z) :
  List.length (Bus.safe_cast_reference bus) = 256%nat ->
  0 <= identifier < 256 ->
  0 <= Bus.sizeof T < 256 ->
  0 < length ->
  Bus.receive (identifier :: payload) length
              (Bus.register_object T identifier bus)
  = if length =? Bus.sizeof T + 1
    then dispatched identifier payload (Bus.register_object T identifier bus)
    else [].
Proof.
  intros Hlen Hid Hsize Hpos.
  pose proof (register_object_expected_length T identifier bus Hlen Hid Hsize)
    as Hexp.
  destruct (Z.eqb_spec length (Bus.sizeof T + 1)) as [->|Hne].
  - rewrite receive_accepted; simpl hd; [reflexivity | lia | lia].
  - apply receive_rejected. simpl hd. lia.
Qed.

Lemma identifiers_register_object (T : Bus.Kind) identifier bus h i :
  Bus.identifiers (Bus.register_object T identifier bus) !! h = Some i ->
  Bus.identifiers bus !! h = Some i \/
  (Bus.sizeof T <= 256 /\ Bus.hash_code T = h /\ identifier = i).
Proof.
  unfold Bus.register_object.
  destruct (Z.ltb_spec 256 (Bus.sizeof T)); [now left|]. simpl.
  unfold Bus.identifiers_insert.
  destruct (Bus.identifiers bus !! Bus.hash_code T) eqn:E; [now left|].
  rewrite lookup_insert. case_decide; [|now left].
  intros [= <-]. right. auto.
Qed.

Lemma identifiers_kept (T : Bus.Kind) identifier bus h i :
  Bus.identifiers bus !! h = Some i ->
  Bus.identifiers (Bus.register_object T identifier bus) !! h = Some i.
Proof.
  intros Hh. unfold Bus.register_object.
  destruct (256 <? Bus.sizeof T); [exact Hh|]. simpl.
  unfold Bus.identifiers_insert.
  destruct (Bus.identifiers bus !! Bus.hash_code T) eqn:E; [exact Hh|].
  rewrite lookup_insert_ne; [exact Hh|]. intros Heq. subst h. congruence.
Qed.

Lemma register_objects_kept calls : forall bus h i,
  Bus.identifiers bus !! h = Some i ->
  Bus.identifiers (register_objects calls bus) !! h = Some i.
Proof.
  induction calls as [|call calls IH]; intros bus h i Hh; [exact Hh|].
  simpl. apply IH. now apply identifiers_kept.
Qed.

Lemma register_objects_origin calls : forall bus h i,
  Bus.identifiers (register_objects calls bus) !! h = Some i ->
  Bus.identifiers bus !! h = Some i \/
  exists call, call ∈ calls /\ Bus.sizeof call.1 <= 256 /\
               Bus.hash_code call.1 = h /\ call.2 = i.
Proof.
  induction calls as [|call calls IH]; intros bus h i Hh; [now left|].
  simpl in Hh. apply IH in Hh as [Hh|(c & Hin & Hc)].
  - apply identifiers_register_object in Hh as [Hh|Hh]; [now left|].
    right. exists call. split; [apply elem_of_cons; now left | exact Hh].
  - right. exists c. split; [apply elem_of_cons; now right | exact Hc].
Qed.

Lemma register_objects_length calls : forall bus,
  length (Bus.safe_cast_reference (register_objects calls bus))
  = length (Bus.safe_cast_reference bus).
Proof.
  induction calls as [|call calls IH]; intros bus; [reflexivity|].
  simpl. rewrite IH. apply register_object_length.
Qed.
End BusFacts.

(** C2: an empty buffer makes [receive] do nothing, and a non-empty buffer
    whose length minus one differs from the payload length registered for
    the identifier in its first byte leads to no handler call at all. *)
Theorem receive_malformed_no_dispatch {Handler : Type}
    (bus : Bus.MessageBus Handler) (pointer : list Z) (length : Z) :
  (length = 0 -> Bus.receive pointer length bus = []) /\
  (0 < length ->
   length - 1 <> Bus.expected_length bus (hd 0 pointer) ->
   Bus.receive pointer length bus = []).
Proof.
  split.
  - intros ->. apply receive_empty.
  - intros _. apply receive_rejected.
Qed.

Lemma receive_malformed_no_dispatch_witness :
  Bus.receive [] 0 two_kind_bus = [] /\
  Bus.receive [5; 17] 2 two_kind_bus = [].
Proof.
  split.
  - apply (proj1 (receive_malformed_no_dispatch two_kind_bus [] 0)).
    reflexivity.
  - apply (proj2 (receive_malformed_no_dispatch two_kind_bus [5; 17] 2)).
    + lia.
    + vm_compute. discriminate.
Defined.

(** C1: on the bus with H1 and H2 registered for identifier 5 and H3 for
    identifier 6, a frame of the right size for identifier 5 calls H1, then
    H2, and then goes on to H3, the handler of the other identifier: the
    walk over the handler table stops at the end of the table, not at the
    last entry of the identifier.  (A frame for identifier 6, whose entry
    is the last of the table, calls H3 alone.) *)
Theorem receive_runs_past_identifier :
  Bus.receive [5; 17; 34] 3 two_kind_bus
  = [("H1", [17; 34]); ("H2", [17; 34]); ("H3", [17; 34])] /\
  Bus.receive [6; 17; 34] 3 two_kind_bus = [("H3", [17; 34])].
Proof. split; vm_compute; reflexivity. Qed.

(** C8: a kind of exactly 256 bytes passes the size test of
    [register_object], and the length stored for its identifier is 256
    cut to eight bits, that is 0: the one-byte buffer that holds the
    identifier alone is dispatched to the handler of the 256-byte kind, and
    a length of 257 (which the 8-bit parameter could not carry anyway)
    would be turned away. *)
Theorem register_object_256_stores_zero :
  Bus.sizeof Kind256 = 256 /\
  Bus.expected_length wide_kind_bus 7 = 0 /\
  Bus.receive [7] 1 wide_kind_bus = [("H", [])] /\
  forall payload, Bus.receive (7 :: payload) 257 wide_kind_bus = [].
Proof.
  split; [reflexivity|]. split; [vm_compute; reflexivity|].
  split; [vm_compute; reflexivity|].
  intros payload. apply receive_rejected. vm_compute. discriminate.
Qed.

(** C9, as stated, fails: two kinds registered under the same identifier
    are both bound to it. *)
Lemma shared_identifier_counterexample :
  ~ identifiers_distinct
      (register_objects [(KindA, 5); (KindB, 5)]
                        (@Bus.fresh string (replicate 256 0))).
Proof.
  intros H. apply (H 1001 1002 5 5); [lia | reflexivity | reflexivity | reflexivity].
Qed.

(** C9, amended: after any run of [register_object] calls with 8-bit
    identifiers on a fresh bus, every identifier bound to a kind has an
    entry in the table of expected lengths; a kind keeps the identifier
    it is bound to through all later registrations; and kinds with
    different type hashes have different identifiers provided the accepted
    calls gave them different identifiers (the bus makes no check). *)
Theorem register_objects_registry {Handler : Type}
    (calls : list (Bus.Kind * Z)) (table : list Z) :
  length table = 256%nat ->
  Forall (fun call : Bus.Kind * Z => 0 <= call.2 < 256) calls ->
  let bus := register_objects calls (@Bus.fresh Handler table) in
  lengths_total bus /\
  (forall more h i,
     Bus.identifiers bus !! h = Some i ->
     Bus.identifiers (register_objects more bus) !! h = Some i) /\
  ((forall c1 c2 : Bus.Kind * Z,
      c1 ∈ calls -> c2 ∈ calls ->
      Bus.sizeof c1.1 <= 256 -> Bus.sizeof c2.1 <= 256 ->
      Bus.hash_code c1.1 <> Bus.hash_code c2.1 -> c1.2 <> c2.2) ->
   identifiers_distinct bus).
Proof.
  intros Hlen Hids bus.
  assert (Horigin : forall h i,
             Bus.identifiers bus !! h = Some i ->
             exists call, call ∈ calls /\ Bus.sizeof call.1 <= 256 /\
                          Bus.hash_code call.1 = h /\ call.2 = i).
  { intros h i Hh. apply register_objects_origin in Hh as [Hh|Hh]; [|exact Hh].
    simpl in Hh. rewrite lookup_empty in Hh. discriminate. }
  split; [|split].
  - intros h i Hh. apply Horigin in Hh as (call & Hin & _ & _ & <-).
    rewrite Forall_forall in Hids. specialize (Hids call Hin).
    apply lookup_lt_is_Some. unfold bus.
    rewrite register_objects_length. simpl. lia.
  - intros more h i. apply register_objects_kept.
  - intros Hcalls h1 h2 i1 i2 Hne H1 H2.
    apply Horigin in H1 as (c1 & Hin1 & Hs1 & <- & <-).
    apply Horigin in H2 as (c2 & Hin2 & Hs2 & <- & <-).
    now apply Hcalls.
Qed.

Lemma register_objects_registry_witness :
  let bus := register_objects [(KindA, 5); (KindB, 6)]
                              (@Bus.fresh string (replicate 256 0)) in
  lengths_total bus /\ identifiers_distinct bus.
Proof.
  pose proof (@register_objects_registry string
                [(KindA, 5); (KindB, 6)] (replicate 256 0)) as H.
  destruct H as (Htotal & _ & Hdistinct).
  - reflexivity.
  - repeat constructor; simpl; lia.
  - split; [exact Htotal|]. apply Hdistinct.
    intros c1 c2 H1 H2 _ _.
    apply elem_of_cons in H1 as [->|H1];
      [|apply elem_of_cons in H1 as [->|H1]; [|inversion H1]];
      (apply elem_of_cons in H2 as [->|H2];
       [|apply elem_of_cons in H2 as [->|H2]; [|inversion H2]]);
      simpl; intros; lia.
Defined.

(** ** The datagram builder *)

Section BuilderFacts.
Context {crc : SimpleCRC} {byte_order : endianness}.
Import Builder.
Implicit Types (b : DatagramBuilder) (bytes bs : list Z) (f : field).

Lemma length_bytes_le n val : length (bytes_le n val) = n.
Proof. revert val. induction n; intros; simpl; [|rewrite IHn]; reflexivity. Qed.

Lemma length_field_bytes n val : length (field_bytes n val) = n.
Proof.
  unfold field_bytes. destruct byte_order;
    rewrite ?length_rev; apply length_bytes_le.
Qed.

Lemma length_field_image f : Z.of_nat (length (field_image f)) = field_size f.
Proof. destruct f; simpl; rewrite ?length_field_bytes; reflexivity. Qed.

Lemma length_payload_image fs :
  Z.of_nat (length (payload_image fs)) = payload_size fs.
Proof.
  unfold payload_image. induction fs as [|f fs IH]; [reflexivity|].
  change (payload_size (f :: fs)) with (field_size f + payload_size fs).
  rewrite fmap_cons. simpl concat.
  rewrite length_app, Nat2Z.inj_add, IH, length_field_image.
  reflexivity.
Qed.

Lemma field_size_pos f : 0 < field_size f.
Proof. destruct f; simpl; lia. Qed.

Lemma payload_size_nonneg fs : 0 <= payload_size fs.
Proof.
  induction fs as [|f fs IH]; simpl; [lia|].
  pose proof (field_size_pos f). lia.
Qed.

(** *** What a store and an append leave alone *)

Lemma store_members offset val b :
  datagramPtr (store offset val b) = datagramPtr b /\
  datagramSize (store offset val b) = datagramSize b /\
  currentIdx (store offset val b) = currentIdx b /\
  datagramCrc (store offset val b) = datagramCrc b.
Proof.
  unfold store, raise. destruct (datagramPtr b) eqn:E;
    [destruct (in_block offset)|]; simpl; auto.
Qed.

Lemma append_cons byte bs b :
  append (byte :: bs) b
  = append bs (set_currentIdx (uint16 (currentIdx b + 1))
                              (store (currentIdx b) byte b)).
Proof. reflexivity. Qed.

Lemma append_members bs : forall b,
  datagramPtr (append bs b) = datagramPtr b /\
  datagramSize (append bs b) = datagramSize b /\
  datagramCrc (append bs b) = datagramCrc b.
Proof.
  induction bs as [|byte bs IH]; intros b; [auto|].
  rewrite append_cons.
  destruct (IH (set_currentIdx (uint16 (currentIdx b + 1))
                               (store (currentIdx b) byte b)))
    as (-> & -> & ->).
  destruct (store_members (currentIdx b) byte b) as (? & ? & _ & ?).
  simpl. auto.
Qed.

Lemma append_cursor bs : forall b,
  0 <= currentIdx b ->
  currentIdx b + Z.of_nat (length bs) < 65536 ->
  currentIdx (append bs b) = currentIdx b + Z.of_nat (length bs).
Proof.
  induction bs as [|byte bs IH]; intros b Hlo Hhi; [simpl; lia|].
  rewrite append_cons. simpl length in *.
  rewrite IH; simpl; rewrite uint16_small; lia.
Qed.

(** *** Writes that are dropped, writes that are kept *)

Lemma write_field_dropped f b :
  datagramSize b < currentIdx b + field_size f -> write_field f b = b.
Proof.
  intros H. destruct f; simpl in *;
    unfold write8, write16, write32;
    match goal with
    | |- context [?x <=? ?y] => destruct (Z.leb_spec x y); [lia|reflexivity]
    end.
Qed.

Lemma write_field_kept f b :
  currentIdx b + field_size f <= datagramSize b ->
  write_field f b = append (field_image f) b.
Proof.
  intros H. destruct f; simpl in *;
    unfold write8, write16, write32;
    match goal with
    | |- context [?x <=? ?y] => destruct (Z.leb_spec x y); [reflexivity|lia]
    end.
Qed.

Lemma write_field_cases f b :
  write_field f b = b \/
  (currentIdx b + field_size f <= datagramSize b /\
   write_field f b = append (field_image f) b).
Proof.
  destruct (Z.le_gt_cases (currentIdx b + field_size f) (datagramSize b)).
  - right. split; [assumption|]. now apply write_field_kept.
  - left. apply write_field_dropped. lia.
Qed.

(** The cursor never passes the declared datagram size. *)
Lemma write_field_bounds f b :
  0 <= currentIdx b <= datagramSize b -> datagramSize b < 65536 ->
  currentIdx b <= currentIdx (write_field f b) <= datagramSize b /\
  datagramSize (write_field f b) = datagramSize b /\
  datagramPtr (write_field f b) = datagramPtr b /\
  datagramCrc (write_field f b) = datagramCrc b.
Proof.
  intros Hcur Hsize.
  destruct (write_field_cases f b) as [->|[Hfit ->]];
    [repeat split; try reflexivity; lia|].
  destruct (append_members (field_image f) b) as (-> & -> & ->).
  rewrite append_cursor, length_field_image by (rewrite ?length_field_image; lia).
  pose proof (field_size_pos f). repeat split; try reflexivity; lia.
Qed.

Lemma write_fields_bounds fs : forall b,
  0 <= currentIdx b <= datagramSize b -> datagramSize b < 65536 ->
  currentIdx b <= currentIdx (write_fields fs b) <= datagramSize b /\
  datagramSize (write_fields fs b) = datagramSize b /\
  datagramPtr (write_fields fs b) = datagramPtr b /\
  datagramCrc (write_fields fs b) = datagramCrc b.
Proof.
  induction fs as [|f fs IH]; intros b Hcur Hsize;
    [simpl; repeat split; try reflexivity; lia|].
  destruct (write_field_bounds f b Hcur Hsize) as (Hc & Hs & Hp & Hk).
  change (write_fields (f :: fs) b) with (write_fields fs (write_field f b)).
  destruct (IH (write_field f b)) as (Hc' & Hs' & Hp' & Hk'); [lia..|].
  rewrite Hs', Hp', Hk', Hs, Hp, Hk. repeat split; try reflexivity; lia.
Qed.

(** *** Stores inside the block *)

Lemma append_inside bs : forall b,
  is_Some (datagramPtr b) -> 0 <= currentIdx b ->
  currentIdx b + Z.of_nat (length bs) <= MALLOC_SIZE ->
  faults (append bs b) = faults b.
Proof.
  unfold MALLOC_SIZE.
  induction bs as [|byte bs IH]; intros b Hptr Hlo Hhi; [reflexivity|].
  rewrite append_cons. simpl length in *.
  destruct (store_members (currentIdx b) byte b) as (Hp & _ & _ & _).
  rewrite IH; simpl; rewrite ?Hp, ?uint16_small; try lia; try assumption.
  unfold store. destruct Hptr as [blk ->].
  unfold in_block, MALLOC_SIZE.
  destruct (Z.leb_spec 0 (currentIdx b)); [|lia].
  destruct (Z.ltb_spec (currentIdx b) 64); [|lia].
  reflexivity.
Qed.

(** With a declared size that fits the block, no write method makes a
    bad access. *)
Lemma write_field_inside f b :
  is_Some (datagramPtr b) ->
  0 <= currentIdx b <= datagramSize b -> datagramSize b <= MALLOC_SIZE ->
  faults (write_field f b) = faults b.
Proof.
  intros Hptr Hcur Hsize.
  destruct (write_field_cases f b) as [->|[Hfit ->]]; [reflexivity|].
  apply append_inside; rewrite ?length_field_image; try assumption; lia.
Qed.

Lemma write_fields_inside fs : forall b,
  is_Some (datagramPtr b) ->
  0 <= currentIdx b <= datagramSize b -> datagramSize b <= MALLOC_SIZE ->
  faults (write_fields fs b) = faults b.
Proof.
  unfold MALLOC_SIZE.
  induction fs as [|f fs IH]; intros b Hptr Hcur Hsize; [reflexivity|].
  change (write_fields (f :: fs) b) with (write_fields fs (write_field f b)).
  destruct (write_field_bounds f b) as (Hc & Hs & Hp & _); [lia..|].
  rewrite IH; rewrite ?Hs, ?Hp; try assumption; try lia.
  now apply write_field_inside.
Qed.
End BuilderFacts.

(** *** Writes on a builder whose block holds what was written so far *)

Section BuilderWritten.
Context {crc : SimpleCRC} {byte_order : endianness}.
Import Builder.
Implicit Types (b : DatagramBuilder) (bytes bs : list Z) (f : field).

Lemma written_set_datagramCrc b bytes c :
  written b bytes -> written (set_datagramCrc c b) bytes.
Proof. intros H. exact H. Qed.

Lemma set_datagramCrc_same b c :
  datagramCrc b = Some c -> set_datagramCrc c b = b.
Proof. destruct b. simpl. intros ->. reflexivity. Qed.

Lemma append_one_written b bytes byte :
  written b bytes -> (length bytes < 64)%nat ->
  written (append [byte] b) (bytes ++ [byte]).
Proof.
  intros (Hptr & Hmem & Hcur & Hlen & Hfaults) Hroom.
  destruct Hptr as [block Hblock].
  assert (Hin : in_block (currentIdx b) = true).
  { unfold in_block, MALLOC_SIZE. rewrite Hcur.
    apply andb_true_intro. split; [apply Z.leb_le | apply Z.ltb_lt]; lia. }
  unfold written, append. simpl foldl. unfold store.
  rewrite Hblock, Hin. simpl.
  rewrite ?Hblock, Hfaults, Hmem, Hcur, Nat2Z.id, length_app. simpl length.
  repeat split; [eauto | | | lia].
  - rewrite insert_app_r_alt by (rewrite length_fmap; lia).
    rewrite length_fmap, Nat.sub_diag.
    replace (64 - length bytes)%nat with (S (63 - length bytes)) by lia.
    rewrite fmap_app, <- app_assoc. simpl.
    do 3 f_equal. lia.
  - rewrite uint16_small; lia.
Qed.

Lemma append_written bs : forall b bytes,
  written b bytes -> (length bytes + length bs <= 64)%nat ->
  written (append bs b) (bytes ++ bs).
Proof.
  induction bs as [|byte bs IH]; intros b bytes Hw Hroom.
  - rewrite app_nil_r. exact Hw.
  - simpl length in Hroom.
    change (append (byte :: bs) b) with (append bs (append [byte] b)).
    replace (bytes ++ byte :: bs) with ((bytes ++ [byte]) ++ bs)
      by (rewrite <- app_assoc; reflexivity).
    apply IH; [apply append_one_written; [exact Hw | lia]|].
    rewrite length_app. simpl. lia.
Qed.

Lemma write_field_written f b bytes :
  written b bytes ->
  Z.of_nat (length bytes) + field_size f <= datagramSize b ->
  Z.of_nat (length bytes) + field_size f <= 64 ->
  written (write_field f b) (bytes ++ field_image f).
Proof.
  intros Hw Hfit Hroom.
  pose proof Hw as (_ & _ & Hcur & _).
  rewrite write_field_kept by lia.
  apply append_written; [exact Hw|].
  pose proof (length_field_image f). lia.
Qed.

Lemma write_fields_written fs : forall b bytes,
  written b bytes ->
  Z.of_nat (length bytes) + payload_size fs <= datagramSize b ->
  Z.of_nat (length bytes) + payload_size fs <= 64 ->
  written (write_fields fs b) (bytes ++ payload_image fs).
Proof.
  induction fs as [|f fs IH]; intros b bytes Hw Hfit Hroom.
  - unfold payload_image. simpl. rewrite app_nil_r. exact Hw.
  - change (payload_size (f :: fs)) with (field_size f + payload_size fs)
      in Hfit, Hroom.
    pose proof (payload_size_nonneg fs).
    change (write_fields (f :: fs) b) with (write_fields fs (write_field f b)).
    unfold payload_image. rewrite fmap_cons. simpl concat.
    rewrite app_assoc. apply IH.
    + apply write_field_written; [exact Hw | lia | lia].
    + rewrite length_app, Nat2Z.inj_add, length_field_image.
      destruct (write_field_cases f b) as [->|[_ ->]]; [lia|].
      destruct (append_members (field_image f) b) as (_ & -> & _). lia.
    + rewrite length_app, Nat2Z.inj_add, length_field_image. lia.
Qed.

(** *** The checksum loops *)

Lemma load_written b bytes (i : nat) v :
  written b bytes -> bytes !! i = Some v ->
  load (Z.of_nat i) b = (v, b).
Proof.
  intros (Hptr & Hmem & Hcur & Hlen & Hfaults) Hv.
  pose proof (lookup_lt_Some _ _ _ Hv) as Hi.
  destruct Hptr as [block Hblock]. unfold load. rewrite Hblock.
  assert (Hin : in_block (Z.of_nat i) = true).
  { unfold in_block, MALLOC_SIZE.
    apply andb_true_intro. split; [apply Z.leb_le | apply Z.ltb_lt]; lia. }
  rewrite Hin, Nat2Z.id, Hmem.
  rewrite lookup_app_l by (rewrite length_fmap; lia).
  rewrite list_lookup_fmap, Hv. reflexivity.
Qed.

Lemma crc_loop_written n : forall (i : nat) b bytes c,
  written b bytes -> datagramCrc b = Some c ->
  (i + n <= length bytes)%nat ->
  crc_loop n (Z.of_nat i) b
  = set_datagramCrc (foldl crc_update c (take n (drop i bytes))) b.
Proof.
  induction n as [|n IH]; intros i b bytes c Hw Hc Hn.
  - simpl. symmetry. now apply set_datagramCrc_same.
  - destruct (lookup_lt_is_Some_2 bytes i) as [v Hv]; [lia|].
    simpl crc_loop. rewrite (load_written b bytes i v Hw Hv).
    unfold read_datagramCrc. rewrite Hc.
    replace (Z.of_nat i + 1) with (Z.of_nat (S i)) by lia.
    rewrite (IH (S i) _ bytes (CalculateRemainderFromTable v c));
      [| exact Hw | reflexivity | lia].
    rewrite (drop_S _ _ _ Hv). reflexivity.
Qed.

(** The loops touch nothing but the checksum and the fault log. *)
Lemma crc_loop_members n : forall i b,
  currentIdx (crc_loop n i b) = currentIdx b /\
  datagramSize (crc_loop n i b) = datagramSize b /\
  datagramPtr (crc_loop n i b) = datagramPtr b /\
  memory (crc_loop n i b) = memory b.
Proof.
  induction n as [|n IH]; intros i b; [auto|].
  simpl. unfold load, read_datagramCrc, raise.
  destruct (datagramPtr b) eqn:Eptr;
    [destruct (in_block i);
     [destruct (memory b !! Z.to_nat i) as [[v|]|]|]|];
    destruct (datagramCrc b) eqn:Ecrc; simpl;
    rewrite ?Ecrc; simpl;
    match goal with
    | |- context [crc_loop n ?j ?s] =>
        destruct (IH j s) as (-> & -> & -> & ->)
    end; simpl; auto.
Qed.

(** *** The constructor *)

(** With a block at hand the constructor is five one-byte writes and the
    checksum loop over them. *)
Lemma ctor_allocated block datagramPayloadSize datagramType seq :
  DatagramBuilder_ctor (Some block) datagramPayloadSize datagramType seq
  = let marked :=
      write_fields [U8 datagramType; U8 (char "E"); U8 (char "P");
                    U8 (char "F"); U8 (char "L")]
        (mkBuilder (Some block) (replicate (Z.to_nat MALLOC_SIZE) None)
                   (uint16 (datagramPayloadSize + TOTAL_DATAGRAM_OVERHEAD))
                   0 None []) in
    crc_loop 5 (currentIdx marked - 5) (set_datagramCrc initialValue marked).
Proof.
  cbv beta iota zeta delta [DatagramBuilder_ctor write_fields write_field foldl].
  reflexivity.
Qed.

Lemma ctor_written block datagramPayloadSize datagramType seq :
  5 <= uint16 (datagramPayloadSize + TOTAL_DATAGRAM_OVERHEAD) ->
  let b := DatagramBuilder_ctor (Some block) datagramPayloadSize
                                datagramType seq in
  written b (header datagramType) /\
  datagramCrc b = Some (foldl crc_update initialValue (header datagramType)) /\
  datagramSize b = uint16 (datagramPayloadSize + TOTAL_DATAGRAM_OVERHEAD) /\
  datagramPtr b = Some block.
Proof.
  intros Hsize.
  set (size := uint16 (datagramPayloadSize + TOTAL_DATAGRAM_OVERHEAD)) in *.
  set (b0 := mkBuilder (Some block) (replicate (Z.to_nat MALLOC_SIZE) None)
                       size 0 None []).
  set (marked := write_fields [U8 datagramType; U8 (char "E"); U8 (char "P");
                               U8 (char "F"); U8 (char "L")] b0).
  assert (Hb0 : written b0 []).
  { unfold written, b0. simpl. repeat split; [eauto | lia]. }
  assert (Hw : written marked (header datagramType)).
  { change (header datagramType)
      with ([] ++ payload_image [U8 datagramType; U8 (char "E");
                                 U8 (char "P"); U8 (char "F"); U8 (char "L")]).
    apply (write_fields_written _ b0 [] Hb0); simpl; lia. }
  assert (Hmembers : datagramSize marked = size /\
                     datagramPtr marked = Some block).
  { destruct (write_fields_bounds
                [U8 datagramType; U8 (char "E"); U8 (char "P");
                 U8 (char "F"); U8 (char "L")] b0)
      as (_ & Hs & Hp & _); simpl; [lia | | now split].
    pose proof (uint16_range (datagramPayloadSize + TOTAL_DATAGRAM_OVERHEAD)).
    fold size in H. lia. }
  destruct Hmembers as [Hs Hp].
  rewrite ctor_allocated. cbv zeta. fold size. fold b0. fold marked.
  change (currentIdx marked)
    with (currentIdx (set_datagramCrc initialValue marked)).
  pose proof Hw as (_ & _ & Hcur & _).
  replace (currentIdx (set_datagramCrc initialValue marked) - 5)
    with (Z.of_nat 0) by (simpl; rewrite Hcur; reflexivity).
  rewrite (crc_loop_written 5 0 _ (header datagramType) initialValue);
    [| exact Hw | reflexivity | simpl; lia].
  simpl. rewrite Hs, Hp. auto.
Qed.

Lemma ctor_bounds allocation datagramPayloadSize datagramType seq :
  let b := DatagramBuilder_ctor allocation datagramPayloadSize
                                datagramType seq in
  0 <= currentIdx b <= datagramSize b /\
  datagramSize b = uint16 (datagramPayloadSize + TOTAL_DATAGRAM_OVERHEAD) /\
  datagramPtr b = allocation.
Proof.
  pose proof (uint16_range (datagramPayloadSize + TOTAL_DATAGRAM_OVERHEAD))
    as Hrange.
  destruct allocation as [block|]; [|simpl; repeat split; try reflexivity; lia].
  set (size := uint16 (datagramPayloadSize + TOTAL_DATAGRAM_OVERHEAD)) in *.
  set (b0 := mkBuilder (Some block) (replicate (Z.to_nat MALLOC_SIZE) None)
                       size 0 None []).
  set (marked := write_fields [U8 datagramType; U8 (char "E"); U8 (char "P");
                               U8 (char "F"); U8 (char "L")] b0).
  rewrite ctor_allocated. cbv zeta. fold size. fold b0. fold marked.
  change (currentIdx marked)
    with (currentIdx (set_datagramCrc initialValue marked)).
  destruct (write_fields_bounds
              [U8 datagramType; U8 (char "E"); U8 (char "P");
               U8 (char "F"); U8 (char "L")] b0)
    as (Hc & Hs & Hp & _); [simpl; lia.. |].
  fold marked in Hc, Hs, Hp. simpl in Hc, Hs, Hp.
  destruct (crc_loop_members 5 (currentIdx (set_datagramCrc initialValue marked) - 5)
                             (set_datagramCrc initialValue marked))
    as (-> & -> & -> & _).
  simpl. rewrite Hs, Hp. repeat split; try reflexivity; lia.
Qed.
End BuilderWritten.

(** *** [finalizeDatagram] *)

Section BuilderFinalize.
Context {crc : SimpleCRC} {byte_order : endianness}.
Import Builder.
Implicit Types (b : DatagramBuilder) (bytes bs : list Z) (f : field).

Lemma read_datagramCrc_members b :
  currentIdx (read_datagramCrc b).2 = currentIdx b /\
  datagramSize (read_datagramCrc b).2 = datagramSize b /\
  datagramPtr (read_datagramCrc b).2 = datagramPtr b /\
  memory (read_datagramCrc b).2 = memory b.
Proof. unfold read_datagramCrc. destruct (datagramCrc b); simpl; auto. Qed.

Lemma write16_members val b :
  datagramPtr (write16 val b) = datagramPtr b /\
  datagramSize (write16 val b) = datagramSize b.
Proof.
  unfold write16. destruct (currentIdx b + 2 <=? datagramSize b); [|auto].
  destruct (append_members (field_bytes 2 val) b) as (-> & -> & _). auto.
Qed.

(** With the cursor within reach of the loop index, [finalizeDatagram]
    returns the builder's pointer and its declared size. *)
Lemma finalizeDatagram_returns b :
  currentIdx b <= 32767 ->
  exists b',
    finalizeDatagram b
    = Returns (mkMessage (datagramPtr b) (datagramSize b), b') /\
    datagramPtr b' = datagramPtr b.
Proof.
  intros Hcur. unfold finalizeDatagram.
  destruct (Z.ltb_spec 32767 (currentIdx b)); [lia|].
  set (b1 := crc_loop _ _ b).
  destruct (crc_loop_members (Z.to_nat (currentIdx b - HEADER_SIZE))
                             HEADER_SIZE b) as (_ & Hs1 & Hp1 & _).
  fold b1 in Hs1, Hp1.
  destruct (read_datagramCrc b1) as [c1 b2] eqn:E1.
  pose proof (read_datagramCrc_members b1) as (_ & Hs2 & Hp2 & _).
  rewrite E1 in Hs2, Hp2. simpl in Hs2, Hp2.
  simpl.
  destruct (write16_members (FinalizeCRC c1)
                            (set_datagramCrc (FinalizeCRC c1) b2))
    as (Hp3 & Hs3).
  simpl in Hp3, Hs3.
  eexists. rewrite Hp3, Hs3, Hp2, Hs2, Hp1, Hs1. split; [reflexivity|].
  rewrite Hp3, Hp2, Hp1. reflexivity.
Qed.

Lemma finalizeDatagram_hangs b :
  32767 < currentIdx b -> finalizeDatagram b = Hangs.
Proof.
  intros H. unfold finalizeDatagram.
  destruct (Z.ltb_spec 32767 (currentIdx b)); [reflexivity|lia].
Qed.

(** On a builder that holds [bytes], the loop of [finalizeDatagram] adds
    the bytes after the header to the checksum, and the checksum is
    appended when two more bytes fit the declared size. *)
Lemma finalizeDatagram_written b bytes c :
  written b bytes -> datagramCrc b = Some c ->
  (length bytes <= 62)%nat ->
  exists b',
    finalizeDatagram b
    = Returns (mkMessage (datagramPtr b) (datagramSize b), b') /\
    datagramSize b' = datagramSize b /\
    written b'
      (bytes ++
       if currentIdx b + 2 <=? datagramSize b
       then field_bytes 2 (FinalizeCRC (foldl crc_update c (drop 5 bytes)))
       else []).
Proof.
  intros Hw Hc Hlen.
  pose proof Hw as (_ & _ & Hcur & _).
  unfold finalizeDatagram.
  destruct (Z.ltb_spec 32767 (currentIdx b)); [lia|].
  assert (Hloop : crc_loop (Z.to_nat (currentIdx b - HEADER_SIZE)) HEADER_SIZE b
                  = set_datagramCrc (foldl crc_update c (drop 5 bytes)) b).
  { unfold HEADER_SIZE. rewrite Hcur.
    destruct (Nat.le_gt_cases 5 (length bytes)) as [Hge|Hlt].
    - change 5 with (Z.of_nat 5) at 2.
      rewrite (crc_loop_written _ 5 b bytes c Hw Hc) by lia.
      rewrite take_ge; [reflexivity|]. rewrite length_drop. lia.
    - replace (Z.to_nat (Z.of_nat (length bytes) - 5)) with 0%nat by lia.
      rewrite drop_ge by lia. simpl. symmetry.
      now apply set_datagramCrc_same. }
  rewrite Hloop. simpl.
  set (final := FinalizeCRC (foldl crc_update c (drop 5 bytes))).
  set (b2 := set_datagramCrc final _).
  assert (Hw2 : written b2 bytes) by exact Hw.
  change (currentIdx b) with (currentIdx b2).
  change (datagramSize b) with (datagramSize b2).
  change (datagramPtr b) with (datagramPtr b2).
  unfold write16.
  destruct (Z.leb_spec (currentIdx b2 + 2) (datagramSize b2)) as [Hfit|Hno].
  - destruct (append_members (field_bytes 2 final) b2) as (Hp & Hs & _).
    eexists. rewrite Hp, Hs. split; [reflexivity|]. split; [exact Hs|].
    apply append_written; [exact Hw2|]. rewrite length_field_bytes. lia.
  - eexists. split; [reflexivity|]. split; [reflexivity|].
    rewrite app_nil_r. exact Hw2.
Qed.

(** After a failed allocation every write call is dropped. *)
Lemma failed_allocation_writes_dropped datagramPayloadSize datagramType seq fs :
  write_fields fs (DatagramBuilder_ctor None datagramPayloadSize
                                        datagramType seq)
  = DatagramBuilder_ctor None datagramPayloadSize datagramType seq.
Proof.
  induction fs as [|f fs IH]; [reflexivity|].
  change (write_fields (f :: fs) ?b) with (write_fields fs (write_field f b)).
  rewrite write_field_dropped; [exact IH|].
  simpl. pose proof (field_size_pos f). lia.
Qed.

Lemma written_frame b bytes :
  written b bytes -> datagramSize b = Z.of_nat (length bytes) ->
  frame b = Some <$> bytes.
Proof.
  intros (_ & Hmem & _) Hsize. unfold frame.
  rewrite Hmem, Hsize, Nat2Z.id.
  apply take_app_length'. now rewrite length_fmap.
Qed.
End BuilderFinalize.

(** A write call that would take the cursor past the declared datagram size
    changes nothing; after any run of write calls the cursor is within the
    declared size; and with a declared size within the block no write makes
    a bad access. *)
Lemma writes_within_declared_size {byte_order : endianness}
    (fs : list field) (f : field) (b : Builder.DatagramBuilder) :
  0 <= Builder.currentIdx b <= Builder.datagramSize b ->
  Builder.datagramSize b < 65536 ->
  (Builder.datagramSize b < Builder.currentIdx b + field_size f ->
   write_field f b = b) /\
  Builder.currentIdx (write_fields fs b) <= Builder.datagramSize b /\
  (is_Some (Builder.datagramPtr b) ->
   Builder.datagramSize b <= Builder.MALLOC_SIZE ->
   Builder.faults (write_fields fs b) = Builder.faults b).
Proof.
  intros Hcur Hsize. split; [apply write_field_dropped|].
  destruct (write_fields_bounds fs b Hcur Hsize) as (Hc & Hs & _).
  split; [lia|]. intros Hptr Hfit. now apply write_fields_inside.
Qed.

(** C5: a builder declared for a payload of 100 bytes gets the same 64-byte
    block as any other; its sixtieth one-byte write passes the size test
    (cursor 64 of 107) and stores at offset 64, one past the block. *)
Theorem oversized_datagram_writes_outside :
  let b := @write_fields BigEndian (replicate 60 (U8 170))
             (@Builder.DatagramBuilder_ctor crc16_xmodem (Some 0%N) 100 4 0) in
  Builder.datagramSize b = 107 /\
  Builder.currentIdx b = 65 /\
  length (Builder.memory b) = 64%nat /\
  Builder.faults b = [Builder.StoreOutside 64].
Proof. vm_compute. auto. Qed.

(** C6: after a failed allocation the write calls are dropped, and
    [finalizeDatagram] on the builder made for a 12-byte payload reads the
    fourteen bytes at offsets 5 to 18 from the null pointer and the
    checksum member that was never set. *)
Theorem failed_allocation_finalize_reads_null :
  let b := @Builder.DatagramBuilder_ctor crc16_xmodem None 12 4 0 in
  (forall fs, @write_fields BigEndian fs b = b) /\
  match @Builder.finalizeDatagram crc16_xmodem BigEndian b with
  | Returns (m, b') =>
      m = Builder.mkMessage None 19 /\
      Builder.faults b'
      = Builder.NullLoad 5 :: Builder.CrcUninitialised
          :: (Builder.NullLoad
                <$> [6; 7; 8; 9; 10; 11; 12; 13; 14; 15; 16; 17; 18])
  | Hangs => False
  end.
Proof.
  split.
  - intros fs. apply failed_allocation_writes_dropped.
  - vm_compute. split; reflexivity.
Qed.

(** C7, as stated, fails: a datagram declared for 8 payload bytes and given
    one 4-byte field is built without any dropped write or bad access, and
    its frame of 15 bytes is not in the wire layout: the checksum sits at
    offsets 9 and 10, and the last four bytes were never written. *)
Lemma short_payload_counterexample :
  match @build crc16_xmodem BigEndian (Some 0%N) 8 4 0 [U32 168496141] with
  | Returns (m, b') =>
      m = Builder.mkMessage (Some 0%N) 15 /\
      Builder.faults b' = [] /\
      Builder.currentIdx b' = 11 /\
      Builder.frame b' !! 14%nat = Some None /\
      ~ @well_framed crc16_xmodem BigEndian 4 (Builder.frame b')
  | Hangs => False
  end.
Proof.
  destruct (@build crc16_xmodem BigEndian (Some 0%N) 8 4 0 [U32 168496141])
    as [[m b']|] eqn:E; vm_compute in E; [|discriminate].
  injection E as <- <-.
  split; [reflexivity|]. split; [reflexivity|]. split; [reflexivity|].
  split; [reflexivity|].
  intros [payload Hframe].
  apply (f_equal (fun fr => fr !! 14%nat)) in Hframe.
  rewrite list_lookup_fmap in Hframe.
  match type of Hframe with
  | ?l = _ => change l with (Some (@None Z)) in Hframe
  end.
  destruct (_ !! 14%nat) in Hframe; simpl in Hframe; discriminate.
Qed.

(** C7, amended: a datagram built on an allocated block whose write calls
    fill the declared payload exactly, with the whole datagram within the
    64-byte block, comes out of [finalizeDatagram] as a frame of
    [payload + 7] bytes: the type tag at offset 0, 'E','P','F','L' at
    offsets 1 to 4, the payload, and in the last two bytes the CRC-16 of
    all bytes before them (seeded over the header in the constructor,
    continued over the payload in [finalizeDatagram]). *)
Theorem finalized_frame_layout {crc : SimpleCRC} {byte_order : endianness}
    (block : N) (datagramPayloadSize datagramType seq : Z) (fs : list field) :
  payload_size fs = datagramPayloadSize ->
  datagramPayloadSize + Builder.TOTAL_DATAGRAM_OVERHEAD <= Builder.MALLOC_SIZE ->
  exists b',
    build (Some block) datagramPayloadSize datagramType seq fs
    = Returns (Builder.mkMessage (Some block) (datagramPayloadSize + 7), b') /\
    Builder.faults b' = [] /\
    Builder.frame b'
    = Some <$> (let bytes := header datagramType ++ payload_image fs in
                bytes ++ Builder.field_bytes 2 (crc16 bytes)) /\
    Z.of_nat (length (Builder.frame b')) = datagramPayloadSize + 7 /\
    well_framed datagramType (Builder.frame b').
Proof.
  unfold Builder.TOTAL_DATAGRAM_OVERHEAD, Builder.MALLOC_SIZE.
  intros Hfill Hfit. pose proof (payload_size_nonneg fs) as Hnonneg.
  assert (Hsize : uint16 (datagramPayloadSize + Builder.TOTAL_DATAGRAM_OVERHEAD)
                  = datagramPayloadSize + 7).
  { unfold Builder.TOTAL_DATAGRAM_OVERHEAD. apply uint16_small. lia. }
  destruct (ctor_written block datagramPayloadSize datagramType seq)
    as (Hw0 & Hc0 & Hs0 & Hp0); [rewrite Hsize; lia|].
  set (b0 := Builder.DatagramBuilder_ctor _ _ _ _) in *.
  rewrite Hsize in Hs0.
  assert (Hw1 : written (write_fields fs b0)
                        (header datagramType ++ payload_image fs)).
  { apply write_fields_written; [exact Hw0 | |]; simpl length; lia. }
  destruct (write_fields_bounds fs b0) as (_ & Hs1 & Hp1 & Hc1).
  { pose proof Hw0 as (_ & _ & Hcur & _). simpl length in Hcur. lia. }
  { lia. }
  set (bytes := header datagramType ++ payload_image fs) in *.
  assert (Hlen : Z.of_nat (length bytes) = datagramPayloadSize + 5).
  { unfold bytes. rewrite length_app, Nat2Z.inj_add, length_payload_image.
    simpl length. lia. }
  destruct (finalizeDatagram_written (write_fields fs b0) bytes _ Hw1
              (eq_trans Hc1 Hc0)) as (b' & Hfin & Hs' & Hw'); [lia|].
  pose proof Hw1 as (_ & _ & Hcur1 & _).
  rewrite Hs1, Hs0, Hp1, Hp0 in Hfin. rewrite Hs1, Hs0 in Hs'.
  destruct (Z.leb_spec (Builder.currentIdx (write_fields fs b0) + 2)
                       (Builder.datagramSize (write_fields fs b0)))
    as [_|Hno]; [|lia].
  replace (FinalizeCRC (foldl crc_update
                          (foldl crc_update initialValue (header datagramType))
                          (drop 5 bytes)))
    with (crc16 bytes) in Hw'
    by (unfold crc16, bytes; rewrite foldl_app; reflexivity).
  assert (Hframe : Builder.frame b'
                   = Some <$> (bytes ++ Builder.field_bytes 2 (crc16 bytes))).
  { apply written_frame; [exact Hw'|].
    rewrite Hs', length_app, Nat2Z.inj_add, length_field_bytes. lia. }
  exists b'. split; [exact Hfin|].
  split; [apply Hw'|]. split; [exact Hframe|]. split.
  - rewrite Hframe, length_fmap, length_app, Nat2Z.inj_add, length_field_bytes.
    lia.
  - exists (payload_image fs). exact Hframe.
Qed.

Lemma finalized_frame_layout_witness :
  exists b',
    @build crc16_xmodem BigEndian (Some 0%N) 8 4 0 [U32 168496141; U32 7]
    = Returns (Builder.mkMessage (Some 0%N) (8 + 7), b') /\
    @well_framed crc16_xmodem BigEndian 4 (Builder.frame b').
Proof.
  destruct (@finalized_frame_layout crc16_xmodem BigEndian 0%N 8 4 0
              [U32 168496141; U32 7]) as (b' & Hb & _ & _ & _ & Hf).
  - reflexivity.
  - vm_compute. discriminate.
  - exists b'. split; [exact Hb | exact Hf].
Defined.

(** A datagram whose fields all fit: the block holds the header and the
    fields, followed by the checksum if that fits too. *)
Lemma build_written {crc : SimpleCRC} {byte_order : endianness}
    (block : N) (datagramPayloadSize datagramType seq : Z) (fs : list field) :
  let size := uint16 (datagramPayloadSize + Builder.TOTAL_DATAGRAM_OVERHEAD) in
  Builder.HEADER_SIZE + payload_size fs <= size ->
  payload_size fs <= 57 ->
  exists b' tail,
    build (Some block) datagramPayloadSize datagramType seq fs
    = Returns (Builder.mkMessage (Some block) size, b') /\
    written b' ((header datagramType ++ payload_image fs) ++ tail).
Proof.
  intros size Hfit Hroom. unfold Builder.HEADER_SIZE in Hfit.
  pose proof (payload_size_nonneg fs) as Hnonneg.
  destruct (ctor_written block datagramPayloadSize datagramType seq)
    as (Hw0 & Hc0 & Hs0 & Hp0); [fold size; lia|].
  set (b0 := Builder.DatagramBuilder_ctor _ _ _ _) in *. fold size in Hs0.
  assert (Hw1 : written (write_fields fs b0)
                        (header datagramType ++ payload_image fs)).
  { apply write_fields_written; [exact Hw0 | |]; simpl length; lia. }
  destruct (write_fields_bounds fs b0) as (_ & Hs1 & Hp1 & Hc1).
  { pose proof Hw0 as (_ & _ & Hcur & _). simpl length in Hcur. lia. }
  { pose proof (uint16_range
                  (datagramPayloadSize + Builder.TOTAL_DATAGRAM_OVERHEAD)).
    fold size in H. lia. }
  destruct (finalizeDatagram_written (write_fields fs b0) _ _ Hw1
              (eq_trans Hc1 Hc0)) as (b' & Hfin & _ & Hw').
  { rewrite length_app. pose proof (length_payload_image fs).
    simpl length. lia. }
  rewrite Hs1, Hs0, Hp1, Hp0 in Hfin.
  exists b'. eexists. split; [exact Hfin | exact Hw'].
Qed.

(** ** The telemetry scheduler *)

Section SchedulerFacts.
Context {crc : SimpleCRC} {byte_order : endianness}
        {protocol : TelemetryProtocol}.
Implicit Types (c : category) (env : Telemetry.Env) (st : Telemetry.State)
         (m : Builder.Telemetry_Message).

(** *** The six entry points follow one schedule *)

Lemma DatagramBuilder_new_globals env P ty seq st :
  let st0 := (Telemetry.DatagramBuilder_new env P ty seq st).2 in
  Telemetry.Packet_Number st0 = Telemetry.Packet_Number st /\
  Telemetry.imu st0 = Telemetry.imu st /\
  Telemetry.baro st0 = Telemetry.baro st.
Proof.
  unfold Telemetry.DatagramBuilder_new, Telemetry.pvPortMalloc.
  destruct (Telemetry.pvPortMalloc_ok env); simpl; auto.
Qed.

Ltac create_shape :=
  unfold create;
  let Hnumber := fresh "Hnumber" in
  let Himu := fresh "Himu" in
  let Hbaro := fresh "Hbaro" in
  match goal with
  | |- context [Telemetry.DatagramBuilder_new ?env ?P ?ty ?seq ?st] =>
      pose proof (DatagramBuilder_new_globals env P ty seq st)
        as (Hnumber & Himu & Hbaro);
      destruct (Telemetry.DatagramBuilder_new env P ty seq st)
        as [builder st0]
  end;
  unfold Telemetry.next_Packet_Number;
  cbv beta iota zeta delta [fields_of write_fields write_field foldl];
  simpl snd in Hnumber, Himu, Hbaro;
  rewrite ?Hnumber, ?Himu, ?Hbaro; reflexivity.

Lemma createGPSDatagram_create env seq data st :
  Telemetry.createGPSDatagram env seq data st
  = create env GPS_DATAGRAM_PAYLOAD_SIZE GPS_PACKET seq
           (fields_of (GPS data) env st) st.
Proof.
  unfold Telemetry.createGPSDatagram. create_shape.
Qed.

Lemma createTelemetryDatagram_create env c seq st :
  (exists data, c = IMU data) \/ (exists data, c = Baro data) ->
  Telemetry.createTelemetryDatagram env (Telemetry.imu st) (Telemetry.baro st)
                                    (Telemetry.HAL_GetTick env) seq st
  = create env SENSOR_DATAGRAM_PAYLOAD_SIZE TELEMETRY_PACKET seq
           (fields_of c env st) st.
Proof.
  intros [[data ->]|[data ->]];
    unfold Telemetry.createTelemetryDatagram; create_shape.
Qed.

Lemma createMotorPressurePacketDatagram_create env pressure seq st :
  Telemetry.createMotorPressurePacketDatagram
    env pressure (float32_of_uint32 (Telemetry.HAL_GetTick env)) seq st
  = create env MOTORPRESSURE_DATAGRAM_PAYLOAD_SIZE MOTOR_PACKET seq
           (fields_of (MotorPressure pressure) env st) st.
Proof.
  unfold Telemetry.createMotorPressurePacketDatagram. create_shape.
Qed.

Lemma createWarningPacketDatagram_create env id value av_state seq st :
  Telemetry.createWarningPacketDatagram
    env (Telemetry.HAL_GetTick env) (Z.b2z id) value av_state seq st
  = create env WARNING_DATAGRAM_PAYLOAD_SIZE STATUS_PACKET seq
           (fields_of (Warning id value av_state) env st) st.
Proof.
  unfold Telemetry.createWarningPacketDatagram. create_shape.
Qed.

Lemma createAirbrakesDatagram_create env seq st :
  Telemetry.createAirbrakesDatagram env (Telemetry.HAL_GetTick env) seq st
  = create env AB_DATAGRAM_PAYLOAD_SIZE AIRBRAKES_PACKET seq
           (fields_of Airbrakes env st) st.
Proof.
  unfold Telemetry.createAirbrakesDatagram. create_shape.
Qed.

Ltac same_continuation :=
  match goal with
  | |- outcome_bind ?o _ = outcome_bind ?o _ =>
      destruct o as [[? ?]|]; reflexivity
  end.

Lemma on_data_schedule c env st : on_data c env st = schedule c env st.
Proof.
  destruct c as [data|data|data|pressure|id value av_state|];
    unfold on_data, schedule, elapsed, declared_payload_size, type_tag,
      cache_sample, last_sent, min_interval.
  - unfold Telemetry.telemetry_sendGPSData.
    destruct (_ <? _); [|reflexivity].
    unfold Telemetry.next_telemetrySeqNumber.
    rewrite createGPSDatagram_create. same_continuation.
  - unfold Telemetry.telemetry_sendIMUData.
    destruct (_ <? _); [|reflexivity].
    unfold Telemetry.next_telemetrySeqNumber.
    rewrite (createTelemetryDatagram_create env (IMU data)) by eauto.
    same_continuation.
  - unfold Telemetry.telemetry_sendBaroData.
    destruct (_ <? _); [|reflexivity].
    unfold Telemetry.next_telemetrySeqNumber.
    rewrite (createTelemetryDatagram_create env (Baro data)) by eauto.
    same_continuation.
  - unfold Telemetry.telemetry_sendMotorPressureData.
    destruct (_ <? _); [|reflexivity].
    unfold Telemetry.next_telemetrySeqNumber.
    rewrite createMotorPressurePacketDatagram_create. same_continuation.
  - unfold Telemetry.telemetry_sendWarningPacketData.
    destruct (_ <? _); [|reflexivity].
    unfold Telemetry.next_telemetrySeqNumber.
    rewrite createWarningPacketDatagram_create. same_continuation.
  - unfold Telemetry.telemetry_sendABData.
    destruct (_ <? _); [|reflexivity].
    unfold Telemetry.next_telemetrySeqNumber.
    rewrite createAirbrakesDatagram_create. same_continuation.
Qed.
End SchedulerFacts.

Section SchedulerEffects.
Context {crc : SimpleCRC} {byte_order : endianness}
        {protocol : TelemetryProtocol}.
Implicit Types (c : category) (env : Telemetry.Env) (st : Telemetry.State)
         (m : Builder.Telemetry_Message).

(** *** What building a datagram does to the state *)

Lemma create_returns env P ty seq fs st :
  uint16 (P + Builder.TOTAL_DATAGRAM_OVERHEAD) <= 32767 ->
  let allocation :=
    if Telemetry.pvPortMalloc_ok env
    then Some (Telemetry.next_block st) else None in
  exists m st1 b',
    create env P ty seq fs st = Returns (m, st1) /\
    build allocation P ty seq fs = Returns (m, b') /\
    Builder.size m = uint16 (P + Builder.TOTAL_DATAGRAM_OVERHEAD) /\
    Builder.ptr m = allocation /\
    Telemetry.trace st1
    = Telemetry.trace st ++ [Telemetry.Malloc Builder.MALLOC_SIZE allocation] /\
    Telemetry.heap st1
    = match allocation with
      | Some block => <[block := Builder.memory b']> (Telemetry.heap st)
      | None => Telemetry.heap st
      end /\
    Telemetry.telemetrySeqNumber st1 = Telemetry.telemetrySeqNumber st /\
    Telemetry.Packet_Number st1 = uint32 (Telemetry.Packet_Number st + 1).
Proof.
  intros Hsize allocation.
  set (builder := write_fields fs
                    (Builder.DatagramBuilder_ctor allocation P ty seq)).
  destruct (ctor_bounds allocation P ty seq) as (Hc0 & Hs0 & Hp0).
  destruct (write_fields_bounds fs
              (Builder.DatagramBuilder_ctor allocation P ty seq))
    as (Hc & Hs & Hp & _); [lia | |].
  { rewrite Hs0.
    pose proof (uint16_range (P + Builder.TOTAL_DATAGRAM_OVERHEAD)). lia. }
  fold builder in Hc, Hs, Hp.
  destruct (finalizeDatagram_returns builder) as (b' & Hfin & Hp');
    [rewrite Hs0 in Hc; lia|].
  rewrite Hs, Hs0, Hp, Hp0 in Hfin. rewrite Hp, Hp0 in Hp'.
  unfold create, Telemetry.DatagramBuilder_new, Telemetry.pvPortMalloc,
    Telemetry.next_Packet_Number, Telemetry.finalize, allocation in *.
  destruct (Telemetry.pvPortMalloc_ok env); fold builder; rewrite Hfin;
    cbn [outcome_bind]; rewrite Hp';
    (eexists; eexists; exists b');
    (split; [reflexivity|]); (split; [exact Hfin|]);
    (split; [reflexivity|]); (split; [reflexivity|]);
    (split; [reflexivity|]); (split; [|split; reflexivity]).
  - simpl. apply insert_insert_eq.
  - reflexivity.
Qed.

(** *** What the submission does to the state *)

Lemma submit_effects c env m st :
  let ok := Telemetry.osMessagePut_ok env in
  let st' := submit c env m st in
  Telemetry.trace st'
  = Telemetry.trace st
      ++ Telemetry.MessagePut (slot_of c) m (Telemetry.datagram_of m st) 10 ok
      :: (if ok then [] else [Telemetry.Free (Builder.ptr m)]) /\
  Telemetry.heap st'
  = (if ok then Telemetry.heap st
     else match Builder.ptr m with
          | Some block => delete block (Telemetry.heap st)
          | None => Telemetry.heap st
          end) /\
  last_sent c st' = Telemetry.HAL_GetTick env /\
  Telemetry.telemetrySeqNumber st' = Telemetry.telemetrySeqNumber st /\
  message_of c st' = m.
Proof.
  unfold submit, Telemetry.osMessagePut, Telemetry.vPortFree, Telemetry.log.
  destruct c, (Telemetry.osMessagePut_ok env); cbn [negb];
    destruct (Builder.ptr m) eqn:E; simpl; rewrite ?E;
    repeat split; rewrite <- ?app_assoc; reflexivity.
Qed.
End SchedulerEffects.

Section SchedulerTheorems.
Context {crc : SimpleCRC} {byte_order : endianness}
        {protocol : TelemetryProtocol}.
Implicit Types (c : category) (env : Telemetry.Env) (st : Telemetry.State)
         (m : Builder.Telemetry_Message).

Lemma on_data_IMU data env st :
  on_data (IMU data) env st = Telemetry.telemetry_sendIMUData env data st.
Proof. reflexivity. Qed.

Lemma elapsed_cache_sample c env st :
  elapsed c env (cache_sample c st) = elapsed c env st.
Proof. destruct c; reflexivity. Qed.

Lemma cache_sample_effects c st :
  Telemetry.trace (cache_sample c st) = Telemetry.trace st /\
  Telemetry.heap (cache_sample c st) = Telemetry.heap st /\
  Telemetry.next_block (cache_sample c st) = Telemetry.next_block st /\
  Telemetry.telemetrySeqNumber (cache_sample c st)
  = Telemetry.telemetrySeqNumber st.
Proof. destruct c; simpl; auto. Qed.

(** Below the interval the entry point returns false, and all it has
    done is overwrite the cached sample. *)
Lemma on_data_waits c env st :
  elapsed c env st <= min_interval c ->
  on_data c env st = Returns (false, cache_sample c st).
Proof.
  intros Hwait. rewrite on_data_schedule. unfold schedule.
  rewrite elapsed_cache_sample.
  destruct (Z.ltb_spec (min_interval c) (elapsed c env st)); [lia|].
  reflexivity.
Qed.

(** Above the interval the entry point builds, submits, frees on
    rejection, and returns true. *)
Lemma on_data_sends c env st :
  sizes_indexable ->
  min_interval c < elapsed c env st ->
  let ok := Telemetry.osMessagePut_ok env in
  let allocation :=
    if Telemetry.pvPortMalloc_ok env
    then Some (Telemetry.next_block st) else None in
  let st0 := Telemetry.set_telemetrySeqNumber
               (uint32 (Telemetry.telemetrySeqNumber st + 1))
               (cache_sample c st) in
  exists m st' b',
    on_data c env st = Returns (true, st') /\
    build allocation (declared_payload_size c) (type_tag c)
          (Telemetry.telemetrySeqNumber st) (fields_of c env st0)
    = Returns (m, b') /\
    message_of c st' = m /\
    Builder.size m = declared_size c /\
    Builder.ptr m = allocation /\
    Telemetry.trace st'
    = Telemetry.trace st
        ++ [Telemetry.Malloc Builder.MALLOC_SIZE (Builder.ptr m);
            Telemetry.MessagePut
              (slot_of c) m
              (match allocation with
               | Some _ => take (Z.to_nat (Builder.size m)) (Builder.memory b')
               | None => []
               end) 10 ok]
        ++ (if ok then [] else [Telemetry.Free (Builder.ptr m)]) /\
    (forall block,
       Builder.ptr m = Some block ->
       if ok then is_Some (Telemetry.heap st' !! block)
       else Telemetry.heap st' !! block = None) /\
    last_sent c st' = Telemetry.HAL_GetTick env /\
    Telemetry.telemetrySeqNumber st'
    = uint32 (Telemetry.telemetrySeqNumber st + 1).
Proof.
  intros Hsizes Hdue ok allocation st0.
  destruct (cache_sample_effects c st) as (Htr0 & Hheap0 & Hnext0 & Hseq0).
  rewrite on_data_schedule. unfold schedule.
  rewrite elapsed_cache_sample.
  destruct (Z.ltb_spec (min_interval c) (elapsed c env st)); [|lia].
  unfold Telemetry.next_telemetrySeqNumber. rewrite Hseq0. fold st0.
  destruct (create_returns env (declared_payload_size c) (type_tag c)
              (Telemetry.telemetrySeqNumber st) (fields_of c env st0) st0
              (Hsizes c))
    as (m & st1 & b' & Hcreate & Hbuild & Hsize & Hptr & Htrace & Hheap
        & Hseq & _).
  assert (Hnext : Telemetry.next_block st0 = Telemetry.next_block st)
    by (unfold st0; simpl; exact Hnext0).
  assert (Htr : Telemetry.trace st0 = Telemetry.trace st)
    by (unfold st0; simpl; exact Htr0).
  rewrite Hnext in Hbuild, Hptr, Htrace, Hheap.
  fold allocation in Hbuild, Hptr, Htrace, Hheap.
  rewrite Hcreate. cbn [outcome_bind].
  destruct (submit_effects c env m st1) as (Htrace' & Hheap' & Hlast & Hseq' & Hm).
  fold ok in Htrace', Hheap'.
  exists m, (submit c env m st1), b'.
  split; [reflexivity|]. split; [exact Hbuild|]. split; [exact Hm|].
  split; [exact Hsize|]. split; [exact Hptr|]. split; [|split; [|split]].
  - rewrite Htrace', Htrace, Htr, Hptr, <- app_assoc. simpl.
    do 3 f_equal.
    unfold Telemetry.datagram_of. rewrite Hptr, Hheap.
    destruct allocation as [block|]; [|reflexivity].
    rewrite lookup_insert_eq. reflexivity.
  - intros block Hblock. rewrite Hheap', Hblock, Hheap.
    rewrite Hptr in Hblock. rewrite Hblock.
    destruct ok.
    + rewrite lookup_insert_eq. eauto.
    + apply lookup_delete_eq.
  - exact Hlast.
  - rewrite Hseq', Hseq. unfold st0. reflexivity.
Qed.

(** *** Where a field lies in the datagram *)

Lemma field_at (datagram : list (option Z)) (bytes pre fld post : list Z)
    (n k : nat) :
  take (length bytes) datagram = Some <$> bytes ->
  bytes = pre ++ fld ++ post ->
  length pre = n -> length fld = k ->
  take k (drop n datagram) = Some <$> fld.
Proof.
  intros Htake -> <- <-.
  rewrite <- (take_drop (length (pre ++ fld ++ post)) datagram), Htake.
  rewrite !fmap_app, <- !app_assoc.
  rewrite drop_app_length' by (now rewrite length_fmap).
  apply take_app_length'. now rewrite length_fmap.
Qed.

Lemma written_prefix (b : Builder.DatagramBuilder) (bytes tail : list Z)
    (n : nat) :
  written b (bytes ++ tail) -> (length bytes <= n)%nat ->
  take (length bytes) (take n (Builder.memory b)) = Some <$> bytes.
Proof.
  intros (_ & Hmem & _) Hn.
  rewrite take_take, Nat.min_l, Hmem by exact Hn.
  rewrite fmap_app, <- app_assoc.
  apply take_app_length'. now rewrite length_fmap.
Qed.
End SchedulerTheorems.

Lemma example_sizes_indexable : @sizes_indexable example_protocol.
Proof. intros c. destruct c; vm_compute; discriminate. Qed.

Lemma example_fields_fit : @fields_fit example_protocol.
Proof. intros c env st. destruct c; vm_compute; discriminate. Qed.

(** C3, as stated, fails on its example: from the initial state, where the
    tick of the last attempt is 0, the call at tick 0 finds 0 - 0 > 20
    false, returns false and attempts nothing. *)
Lemma tick_zero_counterexample :
  match @Telemetry.telemetry_sendIMUData crc16_xmodem BigEndian example_protocol
          (env_at 0) (Telemetry.imu Telemetry.initial) Telemetry.initial with
  | Returns (handled, st') => handled = false /\ Telemetry.trace st' = []
  | Hangs => False
  end.
Proof. vm_compute. auto. Qed.

(** C3, amended: an entry point called at tick [t] builds a datagram and
    returns true exactly when [t - last_sent > I] in 32-bit unsigned
    arithmetic, and otherwise returns false having done nothing but store
    the sample; with interval 20 and calls at ticks 0, 5 and 25 from the
    initial state, a send is attempted at tick 25 only. *)
Theorem on_data_rate_limit {crc : SimpleCRC} {byte_order : endianness}
    {protocol : TelemetryProtocol} :
  sizes_indexable ->
  (forall c env st,
     exists handled st',
       on_data c env st = Returns (handled, st') /\
       (handled = true <-> min_interval c < elapsed c env st) /\
       (handled = true ->
        exists m datagram ok,
          Telemetry.trace st'
          = Telemetry.trace st
              ++ [Telemetry.Malloc Builder.MALLOC_SIZE (Builder.ptr m);
                  Telemetry.MessagePut (slot_of c) m datagram 10 ok]
              ++ (if ok then [] else [Telemetry.Free (Builder.ptr m)])) /\
       (handled = false -> st' = cache_sample c st)) /\
  (forall d0 d5 d25,
     exists s1 s2 s3 m datagram,
       Telemetry.telemetry_sendIMUData (env_at 0) d0 Telemetry.initial
       = Returns (false, s1) /\
       Telemetry.telemetry_sendIMUData (env_at 5) d5 s1 = Returns (false, s2) /\
       Telemetry.telemetry_sendIMUData (env_at 25) d25 s2 = Returns (true, s3) /\
       Telemetry.trace s2 = [] /\
       Telemetry.trace s3
       = [Telemetry.Malloc Builder.MALLOC_SIZE (Builder.ptr m);
          Telemetry.MessagePut Telemetry.M2 m datagram 10 true]).
Proof.
  intros Hsizes. split.
  - intros c env st.
    destruct (Z.lt_ge_cases (min_interval c) (elapsed c env st)) as [Hdue|Hwait].
    + destruct (on_data_sends c env st Hsizes Hdue)
        as (m & st' & b' & Hrun & _ & _ & _ & _ & Htrace & _).
      exists true, st'. split; [exact Hrun|]. split; [tauto|].
      split; [|discriminate]. intros _. eauto.
    + exists false, (cache_sample c st).
      split; [apply on_data_waits; lia|].
      split; [split; [discriminate | lia]|].
      split; [discriminate | reflexivity].
  - intros d0 d5 d25.
    set (s1 := cache_sample (IMU d0) Telemetry.initial).
    set (s2 := cache_sample (IMU d5) s1).
    destruct (on_data_sends (IMU d25) (env_at 25) s2 Hsizes)
      as (m & s3 & b' & Hrun & _ & _ & _ & _ & Htrace & _).
    { vm_compute. reflexivity. }
    change (Telemetry.trace s2) with (@nil Telemetry.event) in Htrace.
    change (Telemetry.osMessagePut_ok (env_at 25)) with true in Htrace.
    cbn [app slot_of] in Htrace. rewrite on_data_IMU in Hrun.
    exists s1, s2, s3, m. eexists.
    split; [rewrite <- on_data_IMU; apply on_data_waits; vm_compute;
            discriminate|].
    split; [rewrite <- on_data_IMU; apply on_data_waits; vm_compute;
            discriminate|].
    split; [exact Hrun|]. split; [reflexivity|]. exact Htrace.
Qed.

Lemma on_data_rate_limit_witness :
  @sizes_indexable example_protocol /\
  exists s3,
    @Telemetry.telemetry_sendIMUData crc16_xmodem BigEndian example_protocol
      (env_at 25) (Telemetry.imu Telemetry.initial) Telemetry.initial
    = Returns (true, s3).
Proof.
  split; [exact example_sizes_indexable|].
  destruct (@on_data_rate_limit crc16_xmodem BigEndian example_protocol
              example_sizes_indexable) as [Hgeneral _].
  destruct (Hgeneral (IMU (Telemetry.imu Telemetry.initial)) (env_at 25)
                     Telemetry.initial)
    as (handled & st' & Hrun & Hiff & _).
  rewrite on_data_IMU in Hrun.
  exists st'. rewrite <- (proj2 Hiff); [exact Hrun|].
  vm_compute. reflexivity.
Defined.

(** C4, as stated, fails where it speaks of a sequence number of the
    category: the entry points share the one global [telemetrySeqNumber].
    From the initial state, where it is 0, a send of the inertial
    category leaves it at 1, and the first send of the GPS category,
    which finds 1, leaves it at 2. *)
Lemma shared_sequence_number_counterexample :
  match @on_data crc16_xmodem BigEndian example_protocol
          (IMU (Telemetry.imu Telemetry.initial)) (env_at 1000)
          Telemetry.initial with
  | Returns (handled, st1) =>
      handled = true /\
      Telemetry.telemetrySeqNumber Telemetry.initial = 0 /\
      Telemetry.telemetrySeqNumber st1 = 1 /\
      match @on_data crc16_xmodem BigEndian example_protocol
              (GPS (Telemetry.mkGPS 7 1 2 3 4)) (env_at 1000) st1 with
      | Returns (handled', st2) =>
          handled' = true /\ Telemetry.telemetrySeqNumber st2 = 2
      | Hangs => False
      end
  | Hangs => False
  end.
Proof. vm_compute. auto. Qed.

(** C4, amended: an entry point that finds its interval elapsed returns
    true after one allocation, one build and one put with a wait of 10
    ticks.  The message put is the one [finalizeDatagram] returns for a
    builder of the category's size and type that was handed the
    category's fields, and the bytes behind it at the put are the first
    [size] bytes of that builder's block (none when the allocation
    failed).  The buffer is freed once when the queue does not take the
    message and not at all when it does.  Whatever the queue answers, the
    tick of the last attempt is the current tick and the sequence number
    has advanced by one; the sequence number is the global
    [telemetrySeqNumber], which every category hands to its builder. *)
Theorem on_data_submits {crc : SimpleCRC} {byte_order : endianness}
    {protocol : TelemetryProtocol}
    (c : category) (env : Telemetry.Env) (st : Telemetry.State) :
  sizes_indexable ->
  min_interval c < elapsed c env st ->
  let ok := Telemetry.osMessagePut_ok env in
  let allocation :=
    if Telemetry.pvPortMalloc_ok env
    then Some (Telemetry.next_block st) else None in
  exists m st' b',
    on_data c env st = Returns (true, st') /\
    build allocation (declared_payload_size c) (type_tag c)
          (Telemetry.telemetrySeqNumber st)
          (fields_of c env
             (Telemetry.set_telemetrySeqNumber
                (uint32 (Telemetry.telemetrySeqNumber st + 1))
                (cache_sample c st)))
    = Returns (m, b') /\
    message_of c st' = m /\
    Builder.size m = declared_size c /\
    Builder.ptr m = allocation /\
    Telemetry.trace st'
    = Telemetry.trace st
        ++ [Telemetry.Malloc Builder.MALLOC_SIZE allocation;
            Telemetry.MessagePut
              (slot_of c) m
              (match allocation with
               | Some _ => take (Z.to_nat (Builder.size m)) (Builder.memory b')
               | None => []
               end) 10 ok]
        ++ (if ok then [] else [Telemetry.Free allocation]) /\
    (forall block,
       allocation = Some block ->
       if ok then is_Some (Telemetry.heap st' !! block)
       else Telemetry.heap st' !! block = None) /\
    last_sent c st' = Telemetry.HAL_GetTick env /\
    Telemetry.telemetrySeqNumber st'
    = uint32 (Telemetry.telemetrySeqNumber st + 1).
Proof.
  intros Hsizes Hdue ok allocation.
  destruct (on_data_sends c env st Hsizes Hdue)
    as (m & st' & b' & Hrun & Hbuild & Hm & Hsize & Hptr & Htrace & Hheap
        & Hlast & Hseq).
  fold allocation in Hbuild, Hptr, Htrace. fold ok in Htrace, Hheap.
  rewrite Hptr in Htrace, Hheap.
  exists m, st', b'.
  split; [exact Hrun|]. split; [exact Hbuild|]. split; [exact Hm|].
  split; [exact Hsize|]. split; [exact Hptr|]. split; [exact Htrace|].
  split; [exact Hheap|]. split; [exact Hlast|exact Hseq].
Qed.

Lemma on_data_submits_witness :
  @sizes_indexable example_protocol /\
  min_interval Airbrakes
  < elapsed Airbrakes (Telemetry.mkEnv 101 101 true false 0 0 0)
            Telemetry.initial /\
  exists m st' b',
    @on_data crc16_xmodem BigEndian example_protocol Airbrakes
             (Telemetry.mkEnv 101 101 true false 0 0 0) Telemetry.initial
    = Returns (true, st') /\
    Telemetry.trace st'
    = [Telemetry.Malloc Builder.MALLOC_SIZE (Some 0%N);
       Telemetry.MessagePut
         Telemetry.M6 m
         (take (Z.to_nat (Builder.size m)) (Builder.memory b')) 10 false;
       Telemetry.Free (Some 0%N)].
Proof.
  split; [exact example_sizes_indexable|].
  split; [vm_compute; reflexivity|].
  destruct (@on_data_submits crc16_xmodem BigEndian example_protocol Airbrakes
              (Telemetry.mkEnv 101 101 true false 0 0 0) Telemetry.initial
              example_sizes_indexable)
    as (m & st' & b' & Hrun & _ & _ & _ & _ & Htrace & _).
  - vm_compute. reflexivity.
  - exists m, st', b'. split; [exact Hrun | exact Htrace].
Defined.

(** C10: whenever [telemetry_sendMotorPressureData] builds a datagram on an
    allocated block, the datagram it submits has the bytes of its
    [pressure] argument in the first 4-byte payload field (offsets 5 to 8,
    the time stamp's place) and the bytes of the current tick, converted to
    [float32_t], in the third (offsets 13 to 16, the pressure's place);
    every other category has a reading of the tick counter in the first
    payload field. *)
Theorem motor_pressure_arguments_swapped {crc : SimpleCRC}
    {byte_order : endianness} {protocol : TelemetryProtocol}
    (c : category) (env : Telemetry.Env) (st : Telemetry.State) :
  sizes_indexable -> fields_fit ->
  Telemetry.pvPortMalloc_ok env = true ->
  min_interval c < elapsed c env st ->
  exists m st' datagram,
    on_data c env st = Returns (true, st') /\
    Telemetry.MessagePut (slot_of c) m datagram 10 (Telemetry.osMessagePut_ok env)
      ∈ Telemetry.trace st' /\
    let now := Telemetry.HAL_GetTick env in
    let first := take 4 (drop 5 datagram) in
    let third := take 4 (drop 13 datagram) in
    match c with
    | MotorPressure pressure =>
        first = Some <$> Builder.field_bytes 4 pressure /\
        third = Some <$> Builder.field_bytes 4 (float32_of_uint32 now)
    | GPS _ =>
        first = Some <$> Builder.field_bytes 4 (Telemetry.HAL_GetTick_build env)
    | _ => first = Some <$> Builder.field_bytes 4 now
    end.
Proof.
  intros Hsizes Hfit Halloc Hdue.
  destruct (on_data_sends c env st Hsizes Hdue)
    as (m & st' & b' & Hrun & Hbuild & _ & Hsize & _ & Htrace & _).
  rewrite Halloc in Hbuild, Htrace.
  set (st0 := Telemetry.set_telemetrySeqNumber _ (cache_sample c st)) in *.
  set (fs := fields_of c env st0) in *.
  pose proof (Hfit c env st0) as Hfits. fold fs in Hfits.
  unfold declared_size in Hfits, Hsize.
  assert (Hroom : payload_size fs <= 57)
    by (unfold fs; destruct c;
        cbv beta iota zeta delta [payload_size fields_of foldr field_size]; lia).
  destruct (build_written (Telemetry.next_block st) (declared_payload_size c)
              (type_tag c) (Telemetry.telemetrySeqNumber st) fs Hfits Hroom)
    as (b'' & tail & Hbuild' & Hw).
  rewrite Hbuild in Hbuild'. injection Hbuild' as Hm <-.
  set (datagram := take (Z.to_nat (Builder.size m)) (Builder.memory b')) in *.
  assert (Hprefix :
            take (length (header (type_tag c) ++ payload_image fs)) datagram
            = Some <$> (header (type_tag c) ++ payload_image fs)).
  { apply (written_prefix b' _ tail); [exact Hw|].
    rewrite length_app. pose proof (length_payload_image fs).
    unfold Builder.HEADER_SIZE in Hfits. simpl length. lia. }
  exists m, st', datagram. split; [exact Hrun|]. split.
  { rewrite Htrace. apply elem_of_app. right.
    apply elem_of_app. left. apply elem_of_cons. right.
    apply elem_of_cons. now left. }
  unfold fs in Hprefix. cbv zeta.
  destruct c as [data|data|data|pressure|id value av_state|];
    cbv beta iota zeta delta [fields_of] in Hprefix;
    try (eapply (field_at datagram _ (header _) (Builder.field_bytes 4 _));
         [exact Hprefix | reflexivity | reflexivity | apply length_field_bytes]).
  split.
  - eapply (field_at datagram _ (header _) (Builder.field_bytes 4 _));
      [exact Hprefix | reflexivity | reflexivity | apply length_field_bytes].
  - eapply (field_at datagram _
              (header MOTOR_PACKET ++ Builder.field_bytes 4 pressure
               ++ Builder.field_bytes 4 (Telemetry.Packet_Number st0))
              (Builder.field_bytes 4 _) []);
      [exact Hprefix | | | apply length_field_bytes].
    + unfold payload_image. simpl concat. rewrite <- !app_assoc. reflexivity.
    + rewrite !length_app, !length_field_bytes. reflexivity.
Qed.

Lemma motor_pressure_arguments_swapped_witness :
  @sizes_indexable example_protocol /\
  @fields_fit example_protocol /\
  exists m st' datagram,
    @on_data crc16_xmodem BigEndian example_protocol (MotorPressure 3)
             (env_at 1000) Telemetry.initial
    = Returns (true, st') /\
    Telemetry.MessagePut Telemetry.M4 m datagram 10 true ∈ Telemetry.trace st' /\
    take 4 (drop 5 datagram) = [Some 0; Some 0; Some 0; Some 3] /\
    take 4 (drop 13 datagram) = [Some 68; Some 122; Some 0; Some 0].
Proof.
  split; [exact example_sizes_indexable|].
  split; [exact example_fields_fit|].
  destruct (@motor_pressure_arguments_swapped crc16_xmodem BigEndian
              example_protocol (MotorPressure 3) (env_at 1000) Telemetry.initial
              example_sizes_indexable example_fields_fit)
    as (m & st' & datagram & Hrun & Hput & Hfirst & Hthird).
  - reflexivity.
  - vm_compute. reflexivity.
  - exists m, st', datagram.
    split; [exact Hrun|]. split; [exact Hput|].
    split; [exact Hfirst | exact Hthird].
Defined.

(** * Further properties *)

(** ** The message bus *)

Section BusDispatch.
Context {Handler : Type}.
Implicit Types (bus : Bus.MessageBus Handler) (tbl : list (Z * Handler)).

Lemma handlers_find_absent tbl (key : Z) :
  (forall h, (key, h) ∉ tbl) -> Bus.handlers_find key tbl = [].
Proof.
  induction tbl as [|[k h] rest IH]; intros Habsent; [reflexivity|].
  simpl. destruct (Z.eqb_spec k key) as [->|_].
  - exfalso. apply (Habsent h). apply elem_of_cons. now left.
  - apply IH. intros h' Hin. apply (Habsent h'). apply elem_of_cons. now right.
Qed.

Lemma handlers_find_keeps_key tbl (key : Z) :
  filter (fun it : Z * Handler => it.1 = key) (Bus.handlers_find key tbl)
  = filter (fun it : Z * Handler => it.1 = key) tbl.
Proof.
  induction tbl as [|[k h] rest IH]; [reflexivity|].
  simpl Bus.handlers_find. destruct (Z.eqb_spec k key) as [->|Hne];
    [reflexivity|].
  rewrite IH, (filter_cons_False _ (k, h)); [reflexivity | exact Hne].
Qed.
End BusDispatch.

(** X1: a frame whose identifier has no handler in the table leads to no
    call, whatever its length and whatever else is registered. *)
Theorem receive_without_handler {Handler : Type}
    (bus : Bus.MessageBus Handler) (pointer : list Z) (length : Z) :
  (forall h, (hd 0 pointer, h) ∉ Bus.handlers bus) ->
  Bus.receive pointer length bus = [].
Proof.
  intros Habsent. unfold Bus.receive.
  destruct (0 <? length); [|reflexivity].
  destruct (negb _); [reflexivity|].
  now rewrite handlers_find_absent.
Qed.

Lemma receive_without_handler_witness :
  (forall h, (hd 0 [9; 1; 2], h) ∉ Bus.handlers two_kind_bus) /\
  Bus.receive [9; 1; 2] 3 two_kind_bus = [].
Proof.
  assert (H : forall h, (hd 0 [9; 1; 2], h) ∉ Bus.handlers two_kind_bus).
  { intros h Hin. vm_compute in Hin.
    repeat (apply elem_of_cons in Hin as [Hin|Hin]; [discriminate|]).
    inversion Hin. }
  split; [exact H|]. exact (receive_without_handler two_kind_bus [9; 1; 2] 3 H).
Defined.

(** X2: a frame of the registered length calls every handler registered
    for its identifier, each as often as it is registered and in the order
    of the handler table, with the bytes after the identifier. *)
Theorem receive_calls_registered {Handler : Type}
    (bus : Bus.MessageBus Handler) (identifier : Z) (payload : list Z)
    (length : Z) :
  0 < length ->
  length - 1 = Bus.expected_length bus identifier ->
  ((fun it : Z * Handler => (it.2, payload))
     <$> filter (fun it : Z * Handler => it.1 = identifier) (Bus.handlers bus))
  `sublist_of` Bus.receive (identifier :: payload) length bus.
Proof.
  intros Hpos Hlen. rewrite receive_accepted by assumption.
  unfold dispatched. simpl hd. simpl tl.
  rewrite <- handlers_find_keeps_key.
  apply fmap_sublist, sublist_filter.
Qed.

Lemma receive_calls_registered_witness :
  0 < 3 /\ 3 - 1 = Bus.expected_length two_kind_bus 5 /\
  [("H1", [17; 34]); ("H2", [17; 34])]
  `sublist_of` Bus.receive [5; 17; 34] 3 two_kind_bus.
Proof.
  split; [lia|]. split; [reflexivity|].
  exact (receive_calls_registered two_kind_bus 5 [17; 34] 3 ltac:(lia) eq_refl).
Defined.

Section BusTable.
Context {Handler : Type}.
Implicit Types (bus : Bus.MessageBus Handler).

Lemma expected_length_register_object (T : Bus.Kind) j bus identifier :
  length (Bus.safe_cast_reference bus) = 256%nat ->
  0 <= j < 256 -> 0 <= identifier < 256 ->
  Bus.expected_length (Bus.register_object T j bus) identifier
  = if negb (256 <? Bus.sizeof T) && (j =? identifier)
    then uint8 (Bus.sizeof T) else Bus.expected_length bus identifier.
Proof.
  intros Hlen Hj Hid. unfold Bus.register_object, Bus.expected_length.
  destruct (256 <? Bus.sizeof T); [reflexivity|]. simpl.
  destruct (Z.eqb_spec j identifier) as [->|Hne].
  - apply list_lookup_total_insert_eq. lia.
  - apply list_lookup_total_insert_ne. lia.
Qed.

(** Registrations under other identifiers leave a table entry alone. *)
Lemma expected_length_other_identifiers (calls : list (Bus.Kind * Z)) :
  forall bus identifier,
    length (Bus.safe_cast_reference bus) = 256%nat ->
    0 <= identifier < 256 ->
    Forall (fun call : Bus.Kind * Z =>
              0 <= call.2 < 256 /\ call.2 <> identifier) calls ->
    Bus.expected_length (register_objects calls bus) identifier
    = Bus.expected_length bus identifier.
Proof.
  induction calls as [|call calls IH]; intros bus identifier Hlen Hid Hcalls;
    [reflexivity|].
  apply Forall_cons in Hcalls as [[Hrange Hother] Hcalls].
  change (register_objects (call :: calls) bus)
    with (register_objects calls (Bus.register_object call.1 call.2 bus)).
  rewrite IH by (rewrite ?register_object_length; assumption).
  rewrite expected_length_register_object by assumption.
  destruct (Z.eqb_spec call.2 identifier); [contradiction|].
  rewrite andb_false_r. reflexivity.
Qed.

(** [register_handler] touches the handler table only. *)
Lemma register_handlers_registry (calls : list (Bus.Kind * Handler)) :
  forall bus,
    Bus.identifiers (register_handlers calls bus) = Bus.identifiers bus /\
    Bus.safe_cast_reference (register_handlers calls bus)
    = Bus.safe_cast_reference bus.
Proof.
  induction calls as [|call calls IH]; intros bus; [split; reflexivity|].
  change (register_handlers (call :: calls) bus)
    with (register_handlers calls (Bus.register_handler call.1 call.2 bus)).
  destruct (IH (Bus.register_handler call.1 call.2 bus)) as [-> ->].
  unfold Bus.register_handler.
  destruct (Bus.identifiers bus !! Bus.hash_code call.1);
    split; reflexivity.
Qed.

(** A kind registered for the first time is bound to the identifier of
    the call. *)
Lemma register_object_binds (T : Bus.Kind) identifier bus :
  Bus.sizeof T <= 256 ->
  Bus.identifiers bus !! Bus.hash_code T = None ->
  Bus.identifiers (Bus.register_object T identifier bus) !! Bus.hash_code T
  = Some identifier.
Proof.
  intros Hsize Hnew. unfold Bus.register_object.
  destruct (Z.ltb_spec 256 (Bus.sizeof T)); [lia|]. simpl.
  unfold Bus.identifiers_insert. rewrite Hnew.
  apply lookup_insert_eq.
Qed.
End BusTable.

(** X3: round trip of [send] and [receive].  Take a kind of at most 254
    bytes that is registered for the first time, on an identifier that no
    later [register_object] call names, and any [register_handler] calls
    after that.  Then [send] hands the transport the identifier and the
    bytes of the message, and these bytes, given to [receive] as one
    buffer, pass the length check and reach the handlers with the message
    as payload. *)
Theorem send_receive_round_trip {Handler : Type}
    (bus : Bus.MessageBus Handler) (T : Bus.Kind) (identifier : Z)
    (later : list (Bus.Kind * Z)) (callbacks : list (Bus.Kind * Handler))
    (message : list Z) :
  length (Bus.safe_cast_reference bus) = 256%nat ->
  Bus.identifiers bus !! Bus.hash_code T = None ->
  0 <= identifier < 256 ->
  Forall (fun call : Bus.Kind * Z =>
            0 <= call.2 < 256 /\ call.2 <> identifier) later ->
  Z.of_nat (length message) = Bus.sizeof T ->
  Bus.sizeof T + 1 < 256 ->
  let bus' :=
    register_handlers callbacks
      (register_objects later (Bus.register_object T identifier bus)) in
  concat (Bus.send T message bus') = identifier :: message /\
  Bus.receive (concat (Bus.send T message bus')) (Bus.sizeof T + 1) bus'
  = dispatched identifier message bus'.
Proof.
  intros Htable Hnew Hid Hlater Hlen Hsize bus'. subst bus'.
  set (bus1 := Bus.register_object T identifier bus).
  set (bus' := register_handlers callbacks (register_objects later bus1)).
  destruct (register_handlers_registry callbacks (register_objects later bus1))
    as [Hids Hlens].
  assert (Hbound : Bus.identifiers bus' !! Bus.hash_code T = Some identifier).
  { unfold bus'. rewrite Hids. apply register_objects_kept.
    apply register_object_binds; [lia | exact Hnew]. }
  assert (Hexp : Bus.expected_length bus' identifier = Bus.sizeof T).
  { unfold Bus.expected_length, bus'. rewrite Hlens.
    change (Bus.expected_length (register_objects later bus1) identifier
            = Bus.sizeof T).
    rewrite expected_length_other_identifiers
      by (unfold bus1; rewrite ?register_object_length; assumption).
    apply register_object_expected_length; [exact Htable | exact Hid | lia]. }
  unfold Bus.send. rewrite Hbound.
  assert (Hcat : concat [[identifier]; take (Z.to_nat (Bus.sizeof T)) message]
                 = identifier :: message).
  { simpl. rewrite app_nil_r, take_ge by lia. reflexivity. }
  rewrite Hcat. split; [reflexivity|].
  rewrite receive_accepted; simpl hd; [reflexivity | lia | lia].
Qed.

Lemma send_receive_round_trip_witness :
  Bus.receive
    (concat
       (Bus.send KindA [17; 34]
          (register_handlers [(KindA, "H1"); (KindB, "H3")]
             (register_objects [(KindB, 6)]
                (Bus.register_object KindA 5 (Bus.fresh (replicate 256 0)))))))
    (Bus.sizeof KindA + 1)
    (register_handlers [(KindA, "H1"); (KindB, "H3")]
       (register_objects [(KindB, 6)]
          (Bus.register_object KindA 5 (Bus.fresh (replicate 256 0)))))
  = dispatched 5 [17; 34]
      (register_handlers [(KindA, "H1"); (KindB, "H3")]
         (register_objects [(KindB, 6)]
            (Bus.register_object KindA 5 (Bus.fresh (replicate 256 0))))).
Proof.
  refine (proj2 (send_receive_round_trip
                   (Bus.fresh (replicate 256 0)) KindA 5 [(KindB, 6)]
                   [(KindA, "H1"); (KindB, "H3")] [17; 34] _ _ _ _ _ _)).
  - reflexivity.
  - reflexivity.
  - lia.
  - repeat constructor; simpl; lia.
  - reflexivity.
  - reflexivity.
Defined.

(** X4: after any run of [register_object] calls, the expected payload
    length of an identifier is the size, cut to eight bits, of the last
    call that passed the size test and named that identifier, whichever
    kind it was for; calls for other identifiers leave the entry alone. *)
Theorem expected_length_last_registration {Handler : Type}
    (calls : list (Bus.Kind * Z)) (bus : Bus.MessageBus Handler)
    (identifier : Z) :
  length (Bus.safe_cast_reference bus) = 256%nat ->
  Forall (fun call : Bus.Kind * Z => 0 <= call.2 < 256) calls ->
  0 <= identifier < 256 ->
  Bus.expected_length (register_objects calls bus) identifier
  = registered_length calls identifier (Bus.expected_length bus identifier).
Proof.
  intros Hlen Hcalls Hid. revert bus Hlen.
  induction Hcalls as [|call calls Hcall _ IH]; intros bus Hlen;
    [reflexivity|].
  simpl. rewrite IH by (now rewrite register_object_length).
  now rewrite expected_length_register_object.
Qed.

Lemma expected_length_last_registration_witness :
  Bus.expected_length
    (register_objects [(KindA, 5); (Kind256, 6); (KindB, 5)]
                      (@Bus.fresh string (replicate 256 9))) 5
  = 2 /\
  Bus.expected_length
    (register_objects [(KindA, 5); (Kind256, 6); (KindB, 5)]
                      (@Bus.fresh string (replicate 256 9))) 7
  = 9.
Proof.
  split.
  - rewrite (@expected_length_last_registration string
               [(KindA, 5); (Kind256, 6); (KindB, 5)]
               (Bus.fresh (replicate 256 9)) 5);
      [reflexivity | reflexivity | repeat constructor; simpl; lia | lia].
  - rewrite (@expected_length_last_registration string
               [(KindA, 5); (Kind256, 6); (KindB, 5)]
               (Bus.fresh (replicate 256 9)) 7);
      [reflexivity | reflexivity | repeat constructor; simpl; lia | lia].
Defined.

(** ** Received packet handling *)

Lemma int32_small z : - 2 ^ 31 <= z < 2 ^ 31 -> Commands.int32 z = z.
Proof. intros H. unfold Commands.int32. rewrite Z.mod_small; lia. Qed.

Lemma int32_high z :
  2 ^ 31 <= z < 2 ^ 32 -> Commands.int32 z = z - 2 ^ 32.
Proof.
  intros H. unfold Commands.int32.
  replace (z + 2 ^ 31) with (z - 2 ^ 31 + 1 * 2 ^ 32) by lia.
  rewrite Z_mod_plus_full, Z.mod_small; lia.
Qed.

(** Or-ing a value below [2 ^ k] with a multiple of [2 ^ k] adds them. *)
Lemma lor_low_high a x k :
  0 <= k -> 0 <= a < 2 ^ k -> Z.lor a (x * 2 ^ k) = a + x * 2 ^ k.
Proof.
  intros Hk Ha.
  assert (Hland : Z.land a (x * 2 ^ k) = 0).
  { apply Z.bits_inj'. intros n Hn.
    rewrite Z.land_spec, Z.bits_0.
    destruct (Z.lt_ge_cases n k) as [Hlt|Hge].
    - rewrite Z.mul_pow2_bits_low by lia. apply andb_false_r.
    - destruct (Z.eq_dec a 0) as [->|Hnz]; [now rewrite Z.bits_0|].
      rewrite (Z.bits_above_log2 a n); [reflexivity | lia |].
      apply Z.log2_lt_pow2; [lia|].
      apply Z.lt_le_trans with (2 ^ k); [lia|].
      apply Z.pow_le_mono_r; lia. }
  rewrite <- Z.lxor_lor by exact Hland.
  symmetry. apply Z.add_nocarry_lxor. exact Hland.
Qed.

(** Four bytes are read as one number, the first byte the most
    significant. *)
Lemma read_uint32_value (p : list Z) (i : nat) (b0 b1 b2 b3 : Z) :
  p !! i = Some b0 -> p !! (i + 1)%nat = Some b1 ->
  p !! (i + 2)%nat = Some b2 -> p !! (i + 3)%nat = Some b3 ->
  0 <= b0 < 256 -> 0 <= b1 < 256 -> 0 <= b2 < 256 -> 0 <= b3 < 256 ->
  Commands.read_uint32 p i = b0 * 2 ^ 24 + b1 * 2 ^ 16 + b2 * 2 ^ 8 + b3 /\
  0 <= Commands.read_uint32 p i < 2 ^ 32.
Proof.
  intros H0 H1 H2 H3 R0 R1 R2 R3.
  assert (Hvalue : Commands.read_uint32 p i
                   = b0 * 2 ^ 24 + b1 * 2 ^ 16 + b2 * 2 ^ 8 + b3).
  { unfold Commands.read_uint32, Commands.at_index.
    rewrite H0, H1, H2, H3. simpl default.
    rewrite !Z.shiftl_mul_pow2 by lia.
    rewrite (int32_small (b2 * 2 ^ 8)), (int32_small (b1 * 2 ^ 16)) by lia.
    rewrite (lor_low_high b3 b2 8) by lia.
    rewrite (lor_low_high (b3 + b2 * 2 ^ 8) b1 16) by lia.
    destruct (Z.lt_ge_cases b0 128) as [Hlow|Hhigh].
    - rewrite (int32_small (b0 * 2 ^ 24)) by lia.
      rewrite (lor_low_high _ b0 24) by lia.
      rewrite uint32_small; lia.
    - rewrite (int32_high (b0 * 2 ^ 24)) by lia.
      replace (b0 * 2 ^ 24 - 2 ^ 32) with ((b0 - 256) * 2 ^ 24) by lia.
      rewrite (lor_low_high _ (b0 - 256) 24) by lia.
      unfold uint32.
      replace (b3 + b2 * 2 ^ 8 + b1 * 2 ^ 16 + (b0 - 256) * 2 ^ 24)
        with (b0 * 2 ^ 24 + b1 * 2 ^ 16 + b2 * 2 ^ 8 + b3 + -1 * 2 ^ 32)
        by lia.
      rewrite Z_mod_plus_full. apply Z.mod_small. lia. }
  split; [exact Hvalue|]. rewrite Hvalue. lia.
Qed.

(** X5: [telemetry_receiveIgnitionPacket] reads four bytes as one number
    with the first byte the most significant.  The shifts are done in
    [int], where the first byte's wraps to a negative value from 128 on;
    the conversion to [uint32_t] restores the value, which is a 32-bit
    unsigned number. *)
Theorem read_uint32_big_endian (p : list Z) (i : nat) (b0 b1 b2 b3 : Z) :
  p !! i = Some b0 -> p !! (i + 1)%nat = Some b1 ->
  p !! (i + 2)%nat = Some b2 -> p !! (i + 3)%nat = Some b3 ->
  0 <= b0 < 256 -> 0 <= b1 < 256 -> 0 <= b2 < 256 -> 0 <= b3 < 256 ->
  Commands.read_uint32 p i = b0 * 2 ^ 24 + b1 * 2 ^ 16 + b2 * 2 ^ 8 + b3 /\
  0 <= Commands.read_uint32 p i < 2 ^ 32.
Proof. apply read_uint32_value. Qed.

Lemma read_uint32_big_endian_witness :
  Commands.read_uint32 [9; 222; 173; 190; 239] 1 = 3735928559.
Proof.
  rewrite (proj1 (read_uint32_big_endian [9; 222; 173; 190; 239] 1
                    222 173 190 239 eq_refl eq_refl eq_refl eq_refl
                    ltac:(lia) ltac:(lia) ltac:(lia) ltac:(lia))).
  reflexivity.
Defined.

Lemma big_endian_bytes val :
  @Builder.field_bytes BigEndian 4 val
  = [val / 256 / 256 / 256 mod 256; val / 256 / 256 mod 256;
     val / 256 mod 256; val mod 256].
Proof. reflexivity. Qed.

(** The reader inverts the four-byte big-endian image of a 32-bit value. *)
Lemma read_uint32_field_bytes (val : Z) (before after : list Z) :
  0 <= val < 2 ^ 32 ->
  Commands.read_uint32
    (before ++ @Builder.field_bytes BigEndian 4 val ++ after) (length before)
  = val.
Proof.
  intros Hval. rewrite big_endian_bytes.
  set (b0 := val / 256 / 256 / 256 mod 256).
  set (b1 := val / 256 / 256 mod 256).
  set (b2 := val / 256 mod 256).
  set (b3 := val mod 256).
  destruct (read_uint32_value
              (before ++ [b0; b1; b2; b3] ++ after) (length before) b0 b1 b2 b3)
    as [-> _].
  - now rewrite lookup_app_r, Nat.sub_diag by lia.
  - rewrite lookup_app_r by lia.
    now replace (length before + 1 - length before)%nat with 1%nat by lia.
  - rewrite lookup_app_r by lia.
    now replace (length before + 2 - length before)%nat with 2%nat by lia.
  - rewrite lookup_app_r by lia.
    now replace (length before + 3 - length before)%nat with 3%nat by lia.
  - apply Z.mod_pos_bound. lia.
  - apply Z.mod_pos_bound. lia.
  - apply Z.mod_pos_bound. lia.
  - apply Z.mod_pos_bound. lia.
  - unfold b0, b1, b2, b3. change (2 ^ 32) with 4294967296 in Hval.
    change (2 ^ 24) with 16777216. change (2 ^ 16) with 65536.
    change (2 ^ 8) with 256.
    Z.div_mod_to_equations. lia.
Qed.

(** X6: on a packet made of a time stamp and a packet number in big-endian
    order and a command byte, [telemetry_receiveIgnitionPacket] makes one
    [can_setFrame] call with 0x22, the ignition identifier and the time
    stamp when the command byte is 0x22 and no call otherwise; it returns
    false in both cases. *)
Theorem ignition_packet_handled (DATA_ID_IGNITION ts packet_nbr command : Z) :
  0 <= ts < 2 ^ 32 -> 0 <= packet_nbr < 2 ^ 32 ->
  Commands.telemetry_receiveIgnitionPacket
    DATA_ID_IGNITION (ignition_packet ts packet_nbr command)
  = (false,
     if command =? 34
     then [Commands.mkFrame 34 DATA_ID_IGNITION ts] else []).
Proof.
  intros Hts Hnbr. unfold Commands.telemetry_receiveIgnitionPacket.
  assert (Hread : Commands.read_uint32 (ignition_packet ts packet_nbr command) 0
                  = ts).
  { apply (read_uint32_field_bytes ts [] _ Hts). }
  rewrite Hread. reflexivity.
Qed.

Lemma ignition_packet_handled_witness :
  Commands.telemetry_receiveIgnitionPacket 7 (ignition_packet 1000 3 34)
  = (false, [Commands.mkFrame 34 7 1000]).
Proof.
  exact (ignition_packet_handled 7 1000 3 34 ltac:(lia) ltac:(lia)).
Defined.

(** ** The datagram builder *)

Section BuilderSafety.
Context {crc : SimpleCRC} {byte_order : endianness}.
Import Builder.
Implicit Types (b : DatagramBuilder) (bytes : list Z) (f : field).

(** A run of write calls on a builder that holds [bytes] adds the bytes
    of the calls that fit what is left of the declared size, in order,
    and nothing of the others. *)
Lemma write_fields_written_kept fs : forall b bytes,
  written b bytes ->
  Z.of_nat (length bytes) <= datagramSize b <= MALLOC_SIZE ->
  written (write_fields fs b)
          (bytes ++ payload_image
                      (kept (datagramSize b - Z.of_nat (length bytes)) fs)) /\
  Z.of_nat (length bytes)
  + payload_size (kept (datagramSize b - Z.of_nat (length bytes)) fs)
  <= datagramSize b /\
  datagramSize (write_fields fs b) = datagramSize b /\
  datagramPtr (write_fields fs b) = datagramPtr b /\
  datagramCrc (write_fields fs b) = datagramCrc b.
Proof.
  unfold MALLOC_SIZE.
  induction fs as [|f fs IH]; intros b bytes Hw Hsize.
  - simpl. unfold payload_image. simpl. rewrite app_nil_r.
    split; [exact Hw|]. split; [lia|]. auto.
  - change (write_fields (f :: fs) b) with (write_fields fs (write_field f b)).
    pose proof Hw as (_ & _ & Hcur & _).
    simpl kept.
    destruct (Z.leb_spec (field_size f)
                         (datagramSize b - Z.of_nat (length bytes)))
      as [Hfit|Hno].
    + assert (Hkept : write_field f b = append (field_image f) b)
        by (apply write_field_kept; lia).
      assert (Hw' : written (write_field f b) (bytes ++ field_image f))
        by (apply write_field_written; [exact Hw | lia | lia]).
      destruct (append_members (field_image f) b) as (Hp & Hs & Hc).
      rewrite <- Hkept in Hp, Hs, Hc.
      assert (Hlen : Z.of_nat (length (bytes ++ field_image f))
                     = Z.of_nat (length bytes) + field_size f)
        by (rewrite length_app, Nat2Z.inj_add, length_field_image; lia).
      destruct (IH (write_field f b) (bytes ++ field_image f) Hw')
        as (Hw'' & Hlen' & Hs' & Hp' & Hc'); [rewrite Hs; lia|].
      rewrite Hs, Hlen in Hw'', Hlen'.
      replace (datagramSize b - (Z.of_nat (length bytes) + field_size f))
        with (datagramSize b - Z.of_nat (length bytes) - field_size f)
        in Hw'', Hlen' by lia.
      rewrite Hs', Hp', Hc', Hs, Hp, Hc.
      unfold payload_image. rewrite fmap_cons. simpl concat.
      rewrite app_assoc.
      split; [exact Hw''|].
      change (payload_size (f :: ?l)) with (field_size f + payload_size l).
      split; [|auto].
      change (payload_size
                (f :: kept (datagramSize b - Z.of_nat (length bytes)
                            - field_size f) fs))
        with (field_size f
              + payload_size
                  (kept (datagramSize b - Z.of_nat (length bytes)
                         - field_size f) fs)).
      lia.
    + rewrite write_field_dropped by lia. exact (IH b bytes Hw Hsize).
Qed.

Lemma finalizeDatagram_written_within b bytes c :
  written b bytes -> datagramCrc b = Some c ->
  Z.of_nat (length bytes) <= datagramSize b <= MALLOC_SIZE ->
  exists b',
    finalizeDatagram b
    = Returns (mkMessage (datagramPtr b) (datagramSize b), b') /\
    datagramSize b' = datagramSize b /\
    written b'
      (bytes ++
       if Z.of_nat (length bytes) + 2 <=? datagramSize b
       then field_bytes 2 (FinalizeCRC (foldl crc_update c (drop 5 bytes)))
       else []).
Proof.
  unfold MALLOC_SIZE. intros Hw Hc Hsize.
  pose proof Hw as (_ & _ & Hcur & Hlen64 & _). rewrite <- Hcur.
  destruct (Z.le_gt_cases (currentIdx b + 2) (datagramSize b)) as [Hfit|Hno].
  - apply (finalizeDatagram_written b bytes c Hw Hc). lia.
  - unfold finalizeDatagram.
    destruct (Z.ltb_spec 32767 (currentIdx b)); [lia|].
    assert (Hloop : crc_loop (Z.to_nat (currentIdx b - HEADER_SIZE)) HEADER_SIZE b
                    = set_datagramCrc (foldl crc_update c (drop 5 bytes)) b).
    { unfold HEADER_SIZE. rewrite Hcur.
      destruct (Nat.le_gt_cases 5 (length bytes)) as [Hge|Hlt].
      - change 5 with (Z.of_nat 5) at 2.
        rewrite (crc_loop_written _ 5 b bytes c Hw Hc) by lia.
        rewrite take_ge; [reflexivity|]. rewrite length_drop. lia.
      - replace (Z.to_nat (Z.of_nat (length bytes) - 5)) with 0%nat by lia.
        rewrite drop_ge by lia. simpl. symmetry.
        now apply set_datagramCrc_same. }
    rewrite Hloop. simpl. unfold write16. simpl.
    destruct (Z.leb_spec (currentIdx b + 2) (datagramSize b)); [lia|].
    eexists. rewrite app_nil_r.
    split; [reflexivity|]. split; [reflexivity|]. exact Hw.
Qed.

(** The frame of a builder that holds [bytes]: the bytes, then what is
    left of the declared size, never written. *)
Lemma written_frame_within b bytes :
  written b bytes ->
  Z.of_nat (length bytes) <= datagramSize b <= MALLOC_SIZE ->
  frame b
  = (Some <$> bytes)
      ++ replicate (Z.to_nat (datagramSize b) - length bytes) None.
Proof.
  unfold MALLOC_SIZE. intros (_ & Hmem & _) Hsize. unfold frame.
  rewrite Hmem, take_app, length_fmap, take_ge by (rewrite length_fmap; lia).
  rewrite take_replicate. do 2 f_equal. lia.
Qed.

(** On a builder without a block the loop reads through the null pointer
    once per iteration. *)
Lemma crc_loop_null n : forall i b c,
  datagramPtr b = None -> datagramCrc b = Some c ->
  exists c',
    crc_loop n i b
    = mkBuilder None (memory b) (datagramSize b) (currentIdx b) (Some c')
                (faults b ++ (NullLoad <$> seqZ i (Z.of_nat n))).
Proof.
  induction n as [|n IH]; intros i b c Hptr Hc.
  - exists c. simpl. rewrite app_nil_r. destruct b. simpl in *. now subst.
  - simpl crc_loop. unfold load. rewrite Hptr.
    unfold read_datagramCrc. simpl. rewrite Hc.
    destruct (IH (i + 1)
                 (set_datagramCrc (CalculateRemainderFromTable 0 c)
                                  (raise (NullLoad i) b))
                 (CalculateRemainderFromTable 0 c)) as (c' & ->);
      [exact Hptr | reflexivity|].
    exists c'. simpl. rewrite <- app_assoc.
    rewrite (seqZ_cons i (Z.of_nat (S n))) by lia.
    replace (Z.pred (Z.of_nat (S n))) with (Z.of_nat n) by lia.
    reflexivity.
Qed.

(** *** The checksum loop of [finalizeDatagram] and its 16-bit index *)

Lemma int16_range z : - 32768 <= int16 z <= 32767.
Proof.
  unfold int16. pose proof (Z.mod_pos_bound (z + 2 ^ 15) (2 ^ 16)). lia.
Qed.

Lemma int16_small z : - 32768 <= z <= 32767 -> int16 z = z.
Proof. intros H. unfold int16. rewrite Z.mod_small; lia. Qed.

Lemma loop_body_cursor i b :
  currentIdx (set_datagramCrc
                (CalculateRemainderFromTable
                   (load i b).1 (read_datagramCrc (load i b).2).1)
                (read_datagramCrc (load i b).2).2)
  = currentIdx b.
Proof.
  unfold load, read_datagramCrc, raise.
  destruct (datagramPtr b);
    [destruct (in_block i); [destruct (memory b !! Z.to_nat i) as [[?|]|]|]|];
    simpl; destruct (datagramCrc b); reflexivity.
Qed.

Lemma finalize_loop_step fuel i b :
  finalize_loop (S fuel) i b
  = if i <? currentIdx b
    then finalize_loop
           fuel (int16 (i + 1))
           (set_datagramCrc
              (CalculateRemainderFromTable
                 (load i b).1 (read_datagramCrc (load i b).2).1)
              (read_datagramCrc (load i b).2).2)
    else Some b.
Proof.
  simpl. destruct (load i b) as [byte b1]. simpl.
  destruct (read_datagramCrc b1) as [current b2]. reflexivity.
Qed.

Lemma crc_loop_step n i b :
  crc_loop (S n) i b
  = crc_loop n (i + 1)
      (set_datagramCrc
         (CalculateRemainderFromTable
            (load i b).1 (read_datagramCrc (load i b).2).1)
         (read_datagramCrc (load i b).2).2).
Proof.
  simpl. destruct (load i b) as [byte b1]. simpl.
  destruct (read_datagramCrc b1) as [current b2]. reflexivity.
Qed.

(** With the cursor within reach of the index the loop ends, having done
    what [finalizeDatagram] does: one step per offset from the start to
    the cursor. *)
Lemma finalize_loop_exits fuel : forall i b,
  currentIdx b <= 32767 -> - 32768 <= i ->
  (Z.to_nat (currentIdx b - i) < fuel)%nat ->
  finalize_loop fuel i b
  = Some (crc_loop (Z.to_nat (currentIdx b - i)) i b).
Proof.
  induction fuel as [|fuel IH]; intros i b Hcur Hi Hfuel; [lia|].
  rewrite finalize_loop_step.
  destruct (Z.ltb_spec i (currentIdx b)) as [Hlt|Hge].
  - replace (Z.to_nat (currentIdx b - i))
      with (S (Z.to_nat (currentIdx b - (i + 1)))) in * by lia.
    rewrite crc_loop_step, int16_small by lia.
    pose proof (loop_body_cursor i b) as Hsame.
    rewrite <- Hsame.
    apply IH; rewrite ?Hsame; lia.
  - replace (Z.to_nat (currentIdx b - i)) with 0%nat by lia. reflexivity.
Qed.

(** With the cursor above 32767 the test [i < currentIdx] holds for every
    value the index can take: the loop is still running after any number
    of steps. *)
Lemma finalize_loop_runs_on fuel : forall i b,
  32767 < currentIdx b -> - 32768 <= i <= 32767 ->
  finalize_loop fuel i b = None.
Proof.
  induction fuel as [|fuel IH]; intros i b Hcur Hi; [reflexivity|].
  rewrite finalize_loop_step.
  destruct (Z.ltb_spec i (currentIdx b)); [|lia].
  apply IH; [rewrite loop_body_cursor; exact Hcur | apply int16_range].
Qed.

(** [finalizeDatagram] is embedded as a call that never returns exactly
    when its loop never ends. *)
Lemma finalizeDatagram_hangs_iff b :
  finalizeDatagram b = Hangs <->
  forall fuel, finalize_loop fuel HEADER_SIZE b = None.
Proof.
  unfold HEADER_SIZE. split.
  - intros Hhangs fuel.
    destruct (Z.le_gt_cases (currentIdx b) 32767) as [Hle|Hgt].
    + destruct (finalizeDatagram_returns b Hle) as (b' & Hret & _).
      rewrite Hret in Hhangs. discriminate.
    + apply finalize_loop_runs_on; lia.
  - intros Hloop.
    destruct (Z.le_gt_cases (currentIdx b) 32767) as [Hle|Hgt].
    + specialize (Hloop (S (Z.to_nat (currentIdx b - 5)))).
      rewrite finalize_loop_exits in Hloop by lia. discriminate.
    + apply finalizeDatagram_hangs. lia.
Qed.
End BuilderSafety.

(** X7: with a block and a declared size of 5 to 64 bytes, constructor,
    any run of write calls and [finalizeDatagram] make no access outside
    the block and read no byte that was not written before, and the call
    returns the block with the declared size.  The frame is the header;
    then the bytes of the write calls that were kept, which are those that
    fit what was left of the declared size when they were made; then the
    two bytes of the checksum of all that, if two bytes are left for them;
    then bytes of the block that were never written, one for each byte
    still missing to the declared size. *)
Theorem build_memory_safe {crc : SimpleCRC} {byte_order : endianness}
    (block : N) (datagramPayloadSize datagramType seq : Z) (fs : list field) :
  let size := uint16 (datagramPayloadSize + Builder.TOTAL_DATAGRAM_OVERHEAD) in
  Builder.HEADER_SIZE <= size <= Builder.MALLOC_SIZE ->
  let bytes :=
    header datagramType
      ++ payload_image (kept (size - Builder.HEADER_SIZE) fs) in
  let trailer :=
    if Z.of_nat (length bytes) + 2 <=? size
    then Builder.field_bytes 2 (crc16 bytes) else [] in
  exists b',
    build (Some block) datagramPayloadSize datagramType seq fs
    = Returns (Builder.mkMessage (Some block) size, b') /\
    Builder.faults b' = [] /\
    Builder.currentIdx b' = Z.of_nat (length (bytes ++ trailer)) /\
    Builder.currentIdx b' <= size /\
    Builder.frame b'
    = (Some <$> (bytes ++ trailer))
        ++ replicate (Z.to_nat (size - Builder.currentIdx b')) None.
Proof.
  intros size Hsize bytes trailer.
  unfold Builder.HEADER_SIZE, Builder.MALLOC_SIZE in Hsize.
  destruct (ctor_written block datagramPayloadSize datagramType seq)
    as (Hw0 & Hc0 & Hs0 & Hp0); [fold size; lia|].
  set (b0 := Builder.DatagramBuilder_ctor _ _ _ _) in *. fold size in Hs0.
  destruct (write_fields_written_kept fs b0 (header datagramType) Hw0)
    as (Hw1 & Hlen1 & Hs1 & Hp1 & Hc1).
  { rewrite Hs0. unfold Builder.MALLOC_SIZE. simpl length. lia. }
  rewrite Hs0 in Hw1, Hlen1.
  change (Z.of_nat (length (header datagramType))) with Builder.HEADER_SIZE
    in Hw1, Hlen1.
  fold bytes in Hw1.
  assert (Hbytes : Z.of_nat (length bytes) <= size).
  { unfold bytes. rewrite length_app, Nat2Z.inj_add, length_payload_image.
    exact Hlen1. }
  destruct (finalizeDatagram_written_within (write_fields fs b0) bytes _ Hw1
              (eq_trans Hc1 Hc0)) as (b' & Hfin & Hs' & Hw').
  { rewrite Hs1, Hs0. unfold Builder.MALLOC_SIZE. lia. }
  rewrite Hs1, Hs0, Hp1, Hp0 in Hfin. rewrite Hs1, Hs0 in Hs', Hw'.
  assert (Hcrc : FinalizeCRC
                   (foldl crc_update
                      (foldl crc_update initialValue (header datagramType))
                      (drop 5 bytes))
                 = crc16 bytes).
  { unfold crc16, bytes. rewrite foldl_app.
    change 5%nat with (length (header datagramType)).
    rewrite drop_app_length. reflexivity. }
  rewrite Hcrc in Hw'. fold trailer in Hw'.
  pose proof Hw' as (_ & _ & Hcur' & _ & Hfaults').
  assert (Hfull : Z.of_nat (length (bytes ++ trailer)) <= size).
  { rewrite length_app, Nat2Z.inj_add. unfold trailer.
    destruct (Z.leb_spec (Z.of_nat (length bytes) + 2) size);
      [rewrite length_field_bytes | change (length (@nil Z)) with 0%nat];
      lia. }
  exists b'.
  split; [exact Hfin|]. split; [exact Hfaults'|].
  split; [exact Hcur'|]. split; [rewrite Hcur'; exact Hfull|].
  rewrite (written_frame_within b' _ Hw')
    by (rewrite Hs'; unfold Builder.MALLOC_SIZE; lia).
  rewrite Hs', Hcur'. do 2 f_equal. lia.
Qed.

Lemma build_memory_safe_witness :
  Builder.HEADER_SIZE <= uint16 (8 + Builder.TOTAL_DATAGRAM_OVERHEAD)
  <= Builder.MALLOC_SIZE /\
  exists b',
    @build crc16_xmodem BigEndian (Some 0%N) 8 4 0 [U32 1; U32 2; U32 3; U8 9]
    = Returns (Builder.mkMessage (Some 0%N) 15, b') /\
    Builder.faults b' = [] /\
    Builder.currentIdx b' = 14 /\
    take 14 (Builder.frame b')
    = Some <$> [4; 69; 80; 70; 76; 0; 0; 0; 1; 0; 0; 0; 2; 9].
Proof.
  assert (H : Builder.HEADER_SIZE <= uint16 (8 + Builder.TOTAL_DATAGRAM_OVERHEAD)
              <= Builder.MALLOC_SIZE) by (vm_compute; split; discriminate).
  split; [exact H|].
  destruct (@build_memory_safe crc16_xmodem BigEndian 0%N 8 4 0
              [U32 1; U32 2; U32 3; U8 9] H)
    as (b' & Hrun & Hfaults & Hcur & _ & Hframe).
  exists b'. split; [exact Hrun|]. split; [exact Hfaults|].
  split; [exact Hcur|]. rewrite Hframe, Hcur. reflexivity.
Defined.

(** X8: when the 16-bit sum of payload size and overhead wraps around to
    less than the five header bytes, the header writes beyond the declared
    size are dropped and the checksum loop of the constructor, which
    starts five bytes below the cursor, reads before the start of the
    block. *)
Theorem constructor_size_wraps {crc : SimpleCRC}
    (block : N) (datagramPayloadSize datagramType seq : Z) :
  65529 <= datagramPayloadSize <= 65533 ->
  let b := Builder.DatagramBuilder_ctor (Some block) datagramPayloadSize
                                        datagramType seq in
  Builder.datagramSize b = datagramPayloadSize - 65529 /\
  Builder.currentIdx b = datagramPayloadSize - 65529 /\
  Builder.faults b
  = Builder.LoadOutside
      <$> seqZ (datagramPayloadSize - 65534) (65534 - datagramPayloadSize).
Proof.
  intros Hrange.
  assert (Hcases : datagramPayloadSize = 65529 \/ datagramPayloadSize = 65530
                   \/ datagramPayloadSize = 65531 \/ datagramPayloadSize = 65532
                   \/ datagramPayloadSize = 65533) by lia.
  destruct Hcases as [->|[->|[->|[->| ->]]]]; vm_compute; auto.
Qed.

Lemma constructor_size_wraps_witness :
  65529 <= 65530 <= 65533 /\
  Builder.faults (@Builder.DatagramBuilder_ctor crc16_xmodem (Some 0%N) 65530 4 0)
  = Builder.LoadOutside <$> [-4; -3; -2; -1].
Proof.
  split; [lia|].
  exact (proj2 (proj2 (@constructor_size_wraps crc16_xmodem 0%N 65530 4 0
                         ltac:(lia)))).
Defined.

(** X9: after a failed allocation, [finalizeDatagram] on a builder declared
    for 6 to 32767 bytes returns a null message of the declared size after
    reading every offset from 5 to the declared size through the null
    pointer, the first time together with the checksum member that was
    never set; no write call in between changes this. *)
Theorem failed_allocation_null_reads {crc : SimpleCRC} {byte_order : endianness}
    (datagramPayloadSize datagramType seq : Z) (fs : list field) :
  let size := uint16 (datagramPayloadSize + Builder.TOTAL_DATAGRAM_OVERHEAD) in
  6 <= size <= 32767 ->
  exists b',
    build None datagramPayloadSize datagramType seq fs
    = Returns (Builder.mkMessage None size, b') /\
    Builder.memory b' = [] /\
    Builder.faults b'
    = Builder.NullLoad 5 :: Builder.CrcUninitialised
        :: (Builder.NullLoad <$> seqZ 6 (size - 6)).
Proof.
  intros size Hsize. unfold build.
  rewrite failed_allocation_writes_dropped.
  change (Builder.DatagramBuilder_ctor None datagramPayloadSize datagramType seq)
    with (Builder.mkBuilder None [] size size None []).
  unfold Builder.finalizeDatagram. simpl Builder.currentIdx.
  destruct (Z.ltb_spec 32767 size); [lia|].
  unfold Builder.HEADER_SIZE.
  replace (Z.to_nat (size - 5)) with (S (Z.to_nat (size - 6))) by lia.
  simpl Builder.crc_loop.
  destruct (crc_loop_null (Z.to_nat (size - 6)) (5 + 1)
              (Builder.set_datagramCrc (CalculateRemainderFromTable 0 0)
                 (Builder.raise Builder.CrcUninitialised
                    (Builder.raise (Builder.NullLoad 5)
                       (Builder.mkBuilder None [] size size None []))))
              (CalculateRemainderFromTable 0 0) eq_refl eq_refl) as (c' & Hloop).
  unfold Builder.load, Builder.read_datagramCrc at 1. simpl Builder.datagramPtr.
  cbv iota. simpl Builder.datagramCrc. cbv iota.
  rewrite Hloop. simpl. unfold Builder.write16. simpl.
  destruct (Z.leb_spec (size + 2) size); [lia|].
  eexists. split; [reflexivity|]. split; [reflexivity|].
  simpl. rewrite Z2Nat.id by lia. reflexivity.
Qed.

Lemma failed_allocation_null_reads_witness :
  6 <= uint16 (12 + Builder.TOTAL_DATAGRAM_OVERHEAD) <= 32767 /\
  exists b',
    @build crc16_xmodem BigEndian None 12 4 0 [U32 1; U8 2]
    = Returns (Builder.mkMessage None 19, b') /\
    length (Builder.faults b') = 15%nat.
Proof.
  assert (H : 6 <= uint16 (12 + Builder.TOTAL_DATAGRAM_OVERHEAD) <= 32767)
    by (vm_compute; split; discriminate).
  split; [exact H|].
  destruct (@failed_allocation_null_reads crc16_xmodem BigEndian 12 4 0
              [U32 1; U8 2] H) as (b' & Hrun & _ & Hfaults).
  exists b'. split; [exact Hrun|]. rewrite Hfaults. reflexivity.
Defined.

(** X10: after a failed allocation, [finalizeDatagram] on a builder declared
    for more than 32767 bytes never returns.  The constructor leaves the
    cursor at the declared size and no write call moves it; the loop index
    of [finalizeDatagram] is an [int16_t], which wraps from 32767 to
    -32768, so the test [i < currentIdx] holds at every step and the loop
    is still running after any number of them. *)
Theorem failed_allocation_hangs {crc : SimpleCRC} {byte_order : endianness}
    (datagramPayloadSize datagramType seq : Z) (fs : list field) :
  32767 < uint16 (datagramPayloadSize + Builder.TOTAL_DATAGRAM_OVERHEAD) ->
  (forall fuel,
     finalize_loop
       fuel Builder.HEADER_SIZE
       (write_fields fs
          (Builder.DatagramBuilder_ctor None datagramPayloadSize datagramType
                                        seq))
     = None) /\
  build None datagramPayloadSize datagramType seq fs = Hangs.
Proof.
  intros Hsize.
  assert (Hloop : forall fuel,
             finalize_loop
               fuel Builder.HEADER_SIZE
               (write_fields fs
                  (Builder.DatagramBuilder_ctor None datagramPayloadSize
                                                datagramType seq))
             = None).
  { intros fuel. rewrite failed_allocation_writes_dropped.
    apply finalize_loop_runs_on;
      [exact Hsize | unfold Builder.HEADER_SIZE; lia]. }
  split; [exact Hloop|].
  unfold build. apply finalizeDatagram_hangs_iff. exact Hloop.
Qed.

Lemma failed_allocation_hangs_witness :
  32767 < uint16 (40000 + Builder.TOTAL_DATAGRAM_OVERHEAD) /\
  @finalize_loop
    crc16_xmodem 100 Builder.HEADER_SIZE
    (@write_fields BigEndian [U32 1]
       (@Builder.DatagramBuilder_ctor crc16_xmodem None 40000 4 0))
  = None /\
  @build crc16_xmodem BigEndian None 40000 4 0 [U32 1] = Hangs.
Proof.
  assert (H : 32767 < uint16 (40000 + Builder.TOTAL_DATAGRAM_OVERHEAD))
    by reflexivity.
  split; [exact H|].
  destruct (@failed_allocation_hangs crc16_xmodem BigEndian 40000 4 0 [U32 1] H)
    as [Hloop Hbuild].
  split; [exact (Hloop 100%nat) | exact Hbuild].
Defined.

(** ** The telemetry scheduler *)

Section SchedulerFrame.
Context {crc : SimpleCRC} {byte_order : endianness}
        {protocol : TelemetryProtocol}.
Implicit Types (c : category) (env : Telemetry.Env) (st : Telemetry.State)
         (m : Builder.Telemetry_Message).

Lemma finalizeDatagram_result (b b' : Builder.DatagramBuilder) m :
  Builder.finalizeDatagram b = Returns (m, b') ->
  m = Builder.mkMessage (Builder.datagramPtr b) (Builder.datagramSize b) /\
  Builder.datagramPtr b' = Builder.datagramPtr b.
Proof.
  intros Hfin.
  destruct (Z.le_gt_cases (Builder.currentIdx b) 32767) as [Hle|Hgt].
  - destruct (finalizeDatagram_returns b Hle) as (b'' & Hret & Hptr).
    rewrite Hret in Hfin. injection Hfin as <- <-. auto.
  - rewrite finalizeDatagram_hangs in Hfin by lia. discriminate.
Qed.

(** What [create] leaves alone and what it changes. *)
Lemma create_effects env P ty seq fs st m st1 :
  create env P ty seq fs st = Returns (m, st1) ->
  let allocation :=
    if Telemetry.pvPortMalloc_ok env
    then Some (Telemetry.next_block st) else None in
  Builder.ptr m = allocation /\
  Telemetry.Packet_Number st1 = uint32 (Telemetry.Packet_Number st + 1) /\
  Telemetry.telemetrySeqNumber st1 = Telemetry.telemetrySeqNumber st /\
  Telemetry.imu st1 = Telemetry.imu st /\
  Telemetry.baro st1 = Telemetry.baro st /\
  (forall c, last_sent c st1 = last_sent c st) /\
  (forall c, message_of c st1 = message_of c st) /\
  (forall block,
     Some block <> allocation ->
     Telemetry.heap st1 !! block = Telemetry.heap st !! block) /\
  (allocation = None -> Telemetry.heap st1 = Telemetry.heap st).
Proof.
  intros Hcreate allocation.
  pose proof (ctor_bounds allocation P ty seq) as (Hc0 & Hs0 & Hp0).
  destruct (write_fields_bounds fs
              (Builder.DatagramBuilder_ctor allocation P ty seq))
    as (_ & _ & Hp & _); [lia | |].
  { rewrite Hs0.
    pose proof (uint16_range (P + Builder.TOTAL_DATAGRAM_OVERHEAD)). lia. }
  rewrite Hp0 in Hp.
  unfold create, Telemetry.DatagramBuilder_new, Telemetry.pvPortMalloc,
    Telemetry.next_Packet_Number, Telemetry.finalize, allocation in *.
  destruct (Telemetry.pvPortMalloc_ok env);
    destruct (Builder.finalizeDatagram _) as [[m' b']|] eqn:Hfin;
    cbn [outcome_bind] in Hcreate; try discriminate;
    apply finalizeDatagram_result in Hfin as [Hm Hptr];
    rewrite Hp in Hm, Hptr; rewrite Hptr in Hcreate;
    injection Hcreate as <- <-; subst m';
    (split; [reflexivity|]); (split; [reflexivity|]);
    (split; [reflexivity|]); (split; [reflexivity|]);
    (split; [reflexivity|]);
    (split; [intros c; destruct c; reflexivity|]);
    (split; [intros c; destruct c; reflexivity|]).
  - split; [|discriminate]. intros block Hblock. simpl.
    rewrite !lookup_insert_ne by congruence. reflexivity.
  - split; [|reflexivity]. intros block _. reflexivity.
Qed.

(** What the submission leaves alone. *)
Lemma submit_frame c env m st :
  let st' := submit c env m st in
  Telemetry.Packet_Number st' = Telemetry.Packet_Number st /\
  Telemetry.imu st' = Telemetry.imu st /\
  Telemetry.baro st' = Telemetry.baro st /\
  (forall c', timer_of c' <> timer_of c -> last_sent c' st' = last_sent c' st) /\
  (forall c', timer_of c' = timer_of c ->
              last_sent c' st' = Telemetry.HAL_GetTick env) /\
  (forall c', slot_of c' <> slot_of c -> message_of c' st' = message_of c' st) /\
  (forall block,
     Some block <> Builder.ptr m ->
     Telemetry.heap st' !! block = Telemetry.heap st !! block).
Proof.
  unfold submit, Telemetry.osMessagePut, Telemetry.vPortFree, Telemetry.log.
  destruct c, (Telemetry.osMessagePut_ok env); cbn [negb];
    destruct (Builder.ptr m) as [own|] eqn:E; simpl; rewrite ?E;
    (split; [reflexivity|]); (split; [reflexivity|]);
    (split; [reflexivity|]);
    (split; [intros c' Hc'; destruct c'; simpl in Hc' |- *; congruence|]);
    (split; [intros c' Hc'; destruct c'; simpl in Hc' |- *; congruence|]);
    (split; [intros c' Hc'; destruct c'; simpl in Hc' |- *; congruence|]);
    intros block Hblock; simpl;
    rewrite ?lookup_delete_ne by congruence; reflexivity.
Qed.

(** The state a sending entry point ends in, field by field. *)
Lemma on_data_sends_frame c env st :
  sizes_indexable ->
  min_interval c < elapsed c env st ->
  let allocation :=
    if Telemetry.pvPortMalloc_ok env
    then Some (Telemetry.next_block st) else None in
  exists st',
    on_data c env st = Returns (true, st') /\
    Telemetry.Packet_Number st' = uint32 (Telemetry.Packet_Number st + 1) /\
    Telemetry.imu st' = Telemetry.imu (cache_sample c st) /\
    Telemetry.baro st' = Telemetry.baro (cache_sample c st) /\
    (forall c', timer_of c' <> timer_of c -> last_sent c' st' = last_sent c' st) /\
    (forall c', timer_of c' = timer_of c ->
                last_sent c' st' = Telemetry.HAL_GetTick env) /\
    (forall c', slot_of c' <> slot_of c -> message_of c' st' = message_of c' st) /\
    (forall block,
       Some block <> allocation ->
       Telemetry.heap st' !! block = Telemetry.heap st !! block).
Proof.
  intros Hsizes Hdue allocation.
  destruct (on_data_sends c env st Hsizes Hdue)
    as (m & st' & b' & Hrun & _ & _ & _ & Hptr & _).
  exists st'. split; [exact Hrun|].
  rewrite on_data_schedule in Hrun. unfold schedule in Hrun.
  rewrite elapsed_cache_sample in Hrun.
  destruct (Z.ltb_spec (min_interval c) (elapsed c env st)); [|lia].
  unfold Telemetry.next_telemetrySeqNumber in Hrun.
  set (st0 := Telemetry.set_telemetrySeqNumber _ (cache_sample c st)) in Hrun.
  destruct (create env (declared_payload_size c) (type_tag c) _ _ st0)
    as [[m1 st1]|] eqn:Hcreate; cbn [outcome_bind] in Hrun; [|discriminate].
  injection Hrun as <-.
  apply create_effects in Hcreate
    as (Hptr1 & Hpn & _ & Himu & Hbaro & Hlast & Hmsg & Hheap & _).
  destruct (submit_frame c env m1 st1)
    as (Hpn' & Himu' & Hbaro' & Hother & Hsame & Hslot & Hheap').
  assert (Hst0 : Telemetry.Packet_Number st0 = Telemetry.Packet_Number st /\
                 Telemetry.next_block st0 = Telemetry.next_block st /\
                 Telemetry.heap st0 = Telemetry.heap st /\
                 (forall c', last_sent c' st0 = last_sent c' st) /\
                 (forall c', message_of c' st0 = message_of c' st))
    by (unfold st0; destruct c; repeat split; intros c'; destruct c';
        reflexivity).
  destruct Hst0 as (Hpn0 & Hnext0 & Hheap0 & Hlast0 & Hmsg0).
  rewrite Hnext0 in Hptr1, Hheap. fold allocation in Hptr1, Hheap.
  split; [rewrite Hpn', Hpn, Hpn0; reflexivity|].
  split; [rewrite Himu', Himu; reflexivity|].
  split; [rewrite Hbaro', Hbaro; reflexivity|].
  split; [intros c' Hc'; rewrite Hother, Hlast, Hlast0 by exact Hc';
          reflexivity|].
  split; [exact Hsame|].
  split; [intros c' Hc'; rewrite Hslot, Hmsg, Hmsg0 by exact Hc'; reflexivity|].
  intros block Hblock.
  rewrite Hheap' by (rewrite Hptr1; exact Hblock).
  rewrite Hheap, Hheap0 by exact Hblock. reflexivity.
Qed.
End SchedulerFrame.

Section SchedulerCoverage.
Context {crc : SimpleCRC} {byte_order : endianness}
        {protocol : TelemetryProtocol}.
Implicit Types (c : category) (env : Telemetry.Env) (st : Telemetry.State)
         (m : Builder.Telemetry_Message).

(** The datagram a sending entry point puts on the queue starts with the
    header and the category's fields. *)
Lemma on_data_datagram c env st :
  sizes_indexable -> fields_fit ->
  Telemetry.pvPortMalloc_ok env = true ->
  min_interval c < elapsed c env st ->
  exists m st' datagram,
    on_data c env st = Returns (true, st') /\
    Telemetry.MessagePut (slot_of c) m datagram 10
                         (Telemetry.osMessagePut_ok env)
      ∈ Telemetry.trace st' /\
    take (length (header (type_tag c)
                  ++ payload_image
                       (fields_of c env
                          (Telemetry.set_telemetrySeqNumber
                             (uint32 (Telemetry.telemetrySeqNumber st + 1))
                             (cache_sample c st)))))
         datagram
    = Some <$> (header (type_tag c)
                ++ payload_image
                     (fields_of c env
                        (Telemetry.set_telemetrySeqNumber
                           (uint32 (Telemetry.telemetrySeqNumber st + 1))
                           (cache_sample c st)))).
Proof.
  intros Hsizes Hfit Halloc Hdue.
  destruct (on_data_sends c env st Hsizes Hdue)
    as (m & st' & b' & Hrun & Hbuild & _ & Hsize & _ & Htrace & _).
  rewrite Halloc in Hbuild, Htrace.
  set (st0 := Telemetry.set_telemetrySeqNumber _ (cache_sample c st)) in *.
  set (fs := fields_of c env st0) in *.
  pose proof (Hfit c env st0) as Hfits. fold fs in Hfits.
  unfold declared_size in Hfits, Hsize.
  assert (Hroom : payload_size fs <= 57)
    by (unfold fs; destruct c;
        cbv beta iota zeta delta [payload_size fields_of foldr field_size]; lia).
  destruct (build_written (Telemetry.next_block st) (declared_payload_size c)
              (type_tag c) (Telemetry.telemetrySeqNumber st) fs Hfits Hroom)
    as (b'' & tail & Hbuild' & Hw).
  rewrite Hbuild in Hbuild'. injection Hbuild' as Hm <-.
  exists m, st', (take (Z.to_nat (Builder.size m)) (Builder.memory b')).
  split; [exact Hrun|]. split.
  { rewrite Htrace. apply elem_of_app. right.
    apply elem_of_app. left. apply elem_of_cons. right.
    apply elem_of_cons. now left. }
  apply (written_prefix b' _ tail); [exact Hw|].
  rewrite length_app. pose proof (length_payload_image fs).
  unfold Builder.HEADER_SIZE in Hfits. simpl length. lia.
Qed.

(** Every category writes the packet number second. *)
Lemma fields_of_number c env st :
  exists first rest,
    fields_of c env st
    = U32 first :: U32 (Telemetry.Packet_Number st) :: rest.
Proof. destruct c; eexists; eexists; reflexivity. Qed.

Lemma Packet_Number_cache_sample c st seq :
  Telemetry.Packet_Number
    (Telemetry.set_telemetrySeqNumber seq (cache_sample c st))
  = Telemetry.Packet_Number st.
Proof. destruct c; reflexivity. Qed.

(** X11: whatever the allocator and the queue answer, the global
    [Packet_Number] is one more (modulo 2^32) after an entry point that
    returned true, and unchanged after one that returned false: a datagram
    that could not be allocated or queued still uses up a packet number. *)
Theorem packet_number_counts_attempts c env st :
  sizes_indexable ->
  exists handled st',
    on_data c env st = Returns (handled, st') /\
    Telemetry.Packet_Number st'
    = if handled then uint32 (Telemetry.Packet_Number st + 1)
      else Telemetry.Packet_Number st.
Proof.
  intros Hsizes.
  destruct (Z.lt_ge_cases (min_interval c) (elapsed c env st)) as [Hdue|Hwait].
  - destruct (on_data_sends_frame c env st Hsizes Hdue)
      as (st' & Hrun & Hnumber & _).
    exists true, st'. split; [exact Hrun | exact Hnumber].
  - exists false, (cache_sample c st).
    split; [apply on_data_waits; exact Hwait|].
    destruct c; reflexivity.
Qed.

(** X12: the datagram a sending entry point builds on an allocated block
    carries the value [Packet_Number] had before the call in its second
    payload field (offsets 9 to 12), whatever the category, and the
    global is one more (modulo 2^32) afterwards. *)
Theorem packet_number_in_datagram c env st :
  sizes_indexable -> fields_fit ->
  Telemetry.pvPortMalloc_ok env = true ->
  min_interval c < elapsed c env st ->
  exists m st' datagram,
    on_data c env st = Returns (true, st') /\
    Telemetry.MessagePut (slot_of c) m datagram 10
                         (Telemetry.osMessagePut_ok env)
      ∈ Telemetry.trace st' /\
    take 4 (drop 9 datagram)
    = Some <$> Builder.field_bytes 4 (Telemetry.Packet_Number st) /\
    Telemetry.Packet_Number st' = uint32 (Telemetry.Packet_Number st + 1).
Proof.
  intros Hsizes Hfit Halloc Hdue.
  destruct (on_data_datagram c env st Hsizes Hfit Halloc Hdue)
    as (m & st' & datagram & Hrun & Hput & Hprefix).
  destruct (on_data_sends_frame c env st Hsizes Hdue)
    as (st2 & Hrun2 & Hnumber & _).
  rewrite Hrun in Hrun2. injection Hrun2 as <-.
  exists m, st', datagram.
  split; [exact Hrun|]. split; [exact Hput|]. split; [|exact Hnumber].
  destruct (fields_of_number c env
              (Telemetry.set_telemetrySeqNumber
                 (uint32 (Telemetry.telemetrySeqNumber st + 1))
                 (cache_sample c st))) as (first & rest & Hfields).
  rewrite Hfields, Packet_Number_cache_sample in Hprefix.
  eapply (field_at datagram _
            (header (type_tag c) ++ Builder.field_bytes 4 first)
            (Builder.field_bytes 4 _) (payload_image rest));
    [exact Hprefix | | | apply length_field_bytes].
  - unfold payload_image. rewrite !fmap_cons. simpl concat.
    rewrite <- !app_assoc. reflexivity.
  - rewrite length_app, length_field_bytes. reflexivity.
Qed.

(** X13: [telemetry_sendIMUData] and [telemetry_sendBaroData] share
    [last_sensor_update], and every entry point measures from its own
    last send: after a call that returned true at tick t, a call at tick
    t' of a category with the same timer returns true exactly when
    t' - t, in 32-bit unsigned arithmetic, is above the category's
    interval. *)
Theorem timer_shared_by_categories c c' env env' st :
  sizes_indexable ->
  min_interval c < elapsed c env st ->
  timer_of c' = timer_of c ->
  exists st' handled st'',
    on_data c env st = Returns (true, st') /\
    on_data c' env' st' = Returns (handled, st'') /\
    (handled = true <->
     min_interval c'
     < uint32 (Telemetry.HAL_GetTick env' - Telemetry.HAL_GetTick env)).
Proof.
  intros Hsizes Hdue Htimer.
  destruct (on_data_sends_frame c env st Hsizes Hdue)
    as (st' & Hrun & _ & _ & _ & _ & Hsame & _).
  assert (Helapsed : elapsed c' env' st'
                     = uint32 (Telemetry.HAL_GetTick env'
                               - Telemetry.HAL_GetTick env))
    by (unfold elapsed; rewrite (Hsame c' Htimer); reflexivity).
  rewrite <- Helapsed.
  destruct (Z.lt_ge_cases (min_interval c') (elapsed c' env' st'))
    as [Hdue'|Hwait'].
  - destruct (on_data_sends c' env' st' Hsizes Hdue')
      as (m & st'' & b' & Hrun' & _).
    exists st', true, st''. split; [exact Hrun|]. split; [exact Hrun'|].
    split; auto.
  - exists st', false, (cache_sample c' st').
    split; [exact Hrun|]. split; [apply on_data_waits; exact Hwait'|].
    split; [discriminate | lia].
Qed.

(** X14: an entry point leaves the other categories alone: the tick of
    the last attempt of every category with another timer, the message
    global of every other category, and every block of the allocator but
    the one it allocates are as they were. *)
Theorem other_categories_untouched c env st :
  sizes_indexable ->
  exists handled st',
    on_data c env st = Returns (handled, st') /\
    (forall c', timer_of c' <> timer_of c ->
                last_sent c' st' = last_sent c' st) /\
    (forall c', slot_of c' <> slot_of c ->
                message_of c' st' = message_of c' st) /\
    (forall block,
       block <> Telemetry.next_block st ->
       Telemetry.heap st' !! block = Telemetry.heap st !! block).
Proof.
  intros Hsizes.
  destruct (Z.lt_ge_cases (min_interval c) (elapsed c env st)) as [Hdue|Hwait].
  - destruct (on_data_sends_frame c env st Hsizes Hdue)
      as (st' & Hrun & _ & _ & _ & Hother & _ & Hslot & Hheap).
    exists true, st'. split; [exact Hrun|]. split; [exact Hother|].
    split; [exact Hslot|].
    intros block Hblock. apply Hheap.
    destruct (Telemetry.pvPortMalloc_ok env); congruence.
  - exists false, (cache_sample c st).
    split; [apply on_data_waits; exact Hwait|].
    split; [intros c' _; destruct c, c'; reflexivity|].
    split; [intros c' _; destruct c, c'; reflexivity|].
    intros block _. destruct c; reflexivity.
Qed.

(** X15: no entry point looks at what [pvPortMalloc] returned.  When the
    allocation fails, the call still returns true, the category's global
    holds the null pointer with the declared size, its address is still
    put on the queue, [vPortFree] is called on the null pointer if the
    queue refuses, and no block of the allocator changes. *)
Theorem allocation_failure_still_queued c env st :
  sizes_indexable ->
  Telemetry.pvPortMalloc_ok env = false ->
  min_interval c < elapsed c env st ->
  exists st',
    on_data c env st = Returns (true, st') /\
    message_of c st' = Builder.mkMessage None (declared_size c) /\
    Telemetry.trace st'
    = Telemetry.trace st
        ++ [Telemetry.Malloc Builder.MALLOC_SIZE None;
            Telemetry.MessagePut
              (slot_of c) (Builder.mkMessage None (declared_size c)) [] 10
              (Telemetry.osMessagePut_ok env)]
        ++ (if Telemetry.osMessagePut_ok env then []
            else [Telemetry.Free None]) /\
    Telemetry.heap st' = Telemetry.heap st.
Proof.
  intros Hsizes Halloc Hdue.
  destruct (on_data_sends c env st Hsizes Hdue)
    as (m & st' & b' & Hrun & _ & Hm & Hsize & Hptr & Htrace & _).
  destruct (on_data_sends_frame c env st Hsizes Hdue)
    as (st2 & Hrun2 & _ & _ & _ & _ & _ & _ & Hheap).
  rewrite Hrun in Hrun2. injection Hrun2 as <-.
  rewrite Halloc in Hptr, Htrace, Hheap.
  assert (Hmessage : m = Builder.mkMessage None (declared_size c))
    by (destruct m; simpl in Hsize, Hptr; congruence).
  rewrite Hmessage in Hm, Htrace.
  exists st'. split; [exact Hrun|]. split; [exact Hm|].
  split; [exact Htrace|].
  apply map_eq. intros block. apply Hheap. discriminate.
Qed.

Lemma sensor_fields data env st seq :
  fields_of (Baro data) env
            (Telemetry.set_telemetrySeqNumber seq
               (cache_sample (Baro data) st))
  = [U32 (Telemetry.HAL_GetTick env); U32 (Telemetry.Packet_Number st);
     U32 (Telemetry.x (Telemetry.acceleration (Telemetry.imu st)));
     U32 (Telemetry.y (Telemetry.acceleration (Telemetry.imu st)));
     U32 (Telemetry.z (Telemetry.acceleration (Telemetry.imu st)));
     U32 (Telemetry.x (Telemetry.eulerAngles (Telemetry.imu st)));
     U32 (Telemetry.y (Telemetry.eulerAngles (Telemetry.imu st)));
     U32 (Telemetry.z (Telemetry.eulerAngles (Telemetry.imu st)));
     U32 (Telemetry.temperature data); U32 (Telemetry.pressure data);
     U32 (Telemetry.can_getSpeed env); U32 (Telemetry.can_getAltitude env)].
Proof. reflexivity. Qed.

(** X16: [telemetry_sendIMUData] stores its sample in the global [imu]
    before it looks at the clock, and [telemetry_sendBaroData] builds its
    datagram from that global: an inertial sample whose own call was
    dropped (returned false) is what the next barometer datagram carries
    as acceleration (first component at offsets 13 to 16), next to the
    temperature of the barometer sample just handed in (offsets 37 to
    40). *)
Theorem dropped_imu_sample_sent_with_baro
    (imu_env baro_env : Telemetry.Env) (imu_data : Telemetry.IMU_data)
    (baro_data : Telemetry.BARO_data) st :
  sizes_indexable -> fields_fit ->
  elapsed (IMU imu_data) imu_env st <= min_interval (IMU imu_data) ->
  Telemetry.pvPortMalloc_ok baro_env = true ->
  min_interval (Baro baro_data) < elapsed (Baro baro_data) baro_env st ->
  exists st1 st2 m datagram,
    on_data (IMU imu_data) imu_env st = Returns (false, st1) /\
    on_data (Baro baro_data) baro_env st1 = Returns (true, st2) /\
    Telemetry.MessagePut Telemetry.M3 m datagram 10
                         (Telemetry.osMessagePut_ok baro_env)
      ∈ Telemetry.trace st2 /\
    take 4 (drop 13 datagram)
    = Some <$> Builder.field_bytes
                 4 (Telemetry.x (Telemetry.acceleration imu_data)) /\
    take 4 (drop 37 datagram)
    = Some <$> Builder.field_bytes 4 (Telemetry.temperature baro_data).
Proof.
  intros Hsizes Hfit Hwait Halloc Hdue.
  pose proof (on_data_waits (IMU imu_data) imu_env st Hwait) as Hfirst.
  set (st1 := cache_sample (IMU imu_data) st) in *.
  assert (Hdue1 : min_interval (Baro baro_data)
                  < elapsed (Baro baro_data) baro_env st1) by exact Hdue.
  destruct (on_data_datagram (Baro baro_data) baro_env st1 Hsizes Hfit Halloc
              Hdue1) as (m & st2 & datagram & Hrun & Hput & Hprefix).
  rewrite sensor_fields in Hprefix.
  exists st1, st2, m, datagram.
  split; [exact Hfirst|]. split; [exact Hrun|]. split; [exact Hput|].
  change (Telemetry.imu st1) with imu_data in Hprefix.
  split.
  - eapply (field_at datagram _
              (header _ ++ Builder.field_bytes 4 _ ++ Builder.field_bytes 4 _)
              (Builder.field_bytes 4 _));
      [exact Hprefix | | | apply length_field_bytes].
    + unfold payload_image. rewrite !fmap_cons. simpl concat.
      rewrite <- !app_assoc. reflexivity.
    + rewrite !length_app, !length_field_bytes. reflexivity.
  - eapply (field_at datagram _
              (header _ ++ Builder.field_bytes 4 _ ++ Builder.field_bytes 4 _
               ++ Builder.field_bytes 4 _ ++ Builder.field_bytes 4 _
               ++ Builder.field_bytes 4 _ ++ Builder.field_bytes 4 _
               ++ Builder.field_bytes 4 _ ++ Builder.field_bytes 4 _)
              (Builder.field_bytes 4 _));
      [exact Hprefix | | | apply length_field_bytes].
    + unfold payload_image. rewrite !fmap_cons. simpl concat.
      rewrite <- !app_assoc. reflexivity.
    + rewrite !length_app, !length_field_bytes. reflexivity.
Qed.

Lemma fields_of_sequence c env st seq seq' seq'' :
  fields_of c env
            (Telemetry.set_telemetrySeqNumber seq
               (cache_sample c (Telemetry.set_telemetrySeqNumber seq' st)))
  = fields_of c env
              (Telemetry.set_telemetrySeqNumber seq'' (cache_sample c st)).
Proof. destruct c; reflexivity. Qed.

Lemma ctor_sequence_number (allocation : option N) (P ty seq seq' : Z) :
  Builder.DatagramBuilder_ctor allocation P ty seq
  = Builder.DatagramBuilder_ctor allocation P ty seq'.
Proof. unfold Builder.DatagramBuilder_ctor. reflexivity. Qed.

(** X17: the sequence number an entry point hands to the builder never
    reaches the radio: the constructor drops it (the code that wrote it
    is commented out).  Two runs of an entry point that differ only in
    [telemetrySeqNumber] make the same calls with the same messages and
    the same datagram bytes. *)
Theorem sequence_number_not_transmitted c env st (seq : Z) :
  sizes_indexable ->
  min_interval c < elapsed c env st ->
  exists st1 st2,
    on_data c env st = Returns (true, st1) /\
    on_data c env (Telemetry.set_telemetrySeqNumber seq st)
    = Returns (true, st2) /\
    Telemetry.trace st2 = Telemetry.trace st1 /\
    message_of c st2 = message_of c st1.
Proof.
  intros Hsizes Hdue.
  assert (Hdue' : min_interval c
                  < elapsed c env (Telemetry.set_telemetrySeqNumber seq st))
    by (destruct c; exact Hdue).
  destruct (on_data_sends c env st Hsizes Hdue)
    as (m1 & st1 & b1 & Hrun1 & Hbuild1 & Hm1 & _ & _ & Htrace1 & _).
  destruct (on_data_sends c env _ Hsizes Hdue')
    as (m2 & st2 & b2 & Hrun2 & Hbuild2 & Hm2 & _ & _ & Htrace2 & _).
  exists st1, st2. split; [exact Hrun1|]. split; [exact Hrun2|].
  change (Telemetry.telemetrySeqNumber
            (Telemetry.set_telemetrySeqNumber seq st)) with seq in Hbuild2.
  change (Telemetry.next_block (Telemetry.set_telemetrySeqNumber seq st))
    with (Telemetry.next_block st) in Hbuild2, Htrace2.
  change (Telemetry.trace (Telemetry.set_telemetrySeqNumber seq st))
    with (Telemetry.trace st) in Htrace2.
  rewrite (fields_of_sequence c env st _ seq
             (uint32 (Telemetry.telemetrySeqNumber st + 1))) in Hbuild2.
  unfold build in Hbuild1, Hbuild2.
  rewrite (ctor_sequence_number _ _ _ seq (Telemetry.telemetrySeqNumber st))
    in Hbuild2.
  rewrite Hbuild1 in Hbuild2. injection Hbuild2 as <- <-.
  split; [rewrite Htrace1, Htrace2; reflexivity|].
  rewrite Hm1, Hm2. reflexivity.
Qed.
End SchedulerCoverage.

Lemma packet_number_counts_attempts_witness :
  @sizes_indexable example_protocol /\
  exists handled st',
    @on_data crc16_xmodem BigEndian example_protocol (MotorPressure 3)
             (Telemetry.mkEnv 1000 1000 false false 0 0 0) Telemetry.initial
    = Returns (handled, st') /\
    Telemetry.Packet_Number st'
    = if handled then uint32 (Telemetry.Packet_Number Telemetry.initial + 1)
      else Telemetry.Packet_Number Telemetry.initial.
Proof.
  split; [exact example_sizes_indexable|].
  exact (@packet_number_counts_attempts
           crc16_xmodem BigEndian example_protocol (MotorPressure 3)
           (Telemetry.mkEnv 1000 1000 false false 0 0 0) Telemetry.initial
           example_sizes_indexable).
Defined.

Lemma packet_number_in_datagram_witness :
  @sizes_indexable example_protocol /\
  @fields_fit example_protocol /\
  exists m st' datagram,
    @on_data crc16_xmodem BigEndian example_protocol Airbrakes
             (env_at 1000) Telemetry.initial
    = Returns (true, st') /\
    Telemetry.MessagePut (slot_of Airbrakes) m datagram 10
                         (Telemetry.osMessagePut_ok (env_at 1000))
      ∈ Telemetry.trace st' /\
    take 4 (drop 9 datagram)
    = Some <$> @Builder.field_bytes
                 BigEndian 4 (Telemetry.Packet_Number Telemetry.initial) /\
    Telemetry.Packet_Number st'
    = uint32 (Telemetry.Packet_Number Telemetry.initial + 1).
Proof.
  split; [exact example_sizes_indexable|].
  split; [exact example_fields_fit|].
  apply (@packet_number_in_datagram
           crc16_xmodem BigEndian example_protocol Airbrakes
           (env_at 1000) Telemetry.initial
           example_sizes_indexable example_fields_fit).
  - reflexivity.
  - vm_compute. reflexivity.
Defined.

Lemma timer_shared_by_categories_witness :
  @sizes_indexable example_protocol /\
  exists st' handled st'',
    @on_data crc16_xmodem BigEndian example_protocol
             (IMU (Telemetry.imu Telemetry.initial))
             (env_at 1000) Telemetry.initial
    = Returns (true, st') /\
    @on_data crc16_xmodem BigEndian example_protocol
             (Baro (Telemetry.baro Telemetry.initial)) (env_at 1010) st'
    = Returns (handled, st'') /\
    (handled = true <->
     min_interval (Baro (Telemetry.baro Telemetry.initial))
     < uint32 (Telemetry.HAL_GetTick (env_at 1010)
               - Telemetry.HAL_GetTick (env_at 1000))).
Proof.
  split; [exact example_sizes_indexable|].
  apply (@timer_shared_by_categories
           crc16_xmodem BigEndian example_protocol
           (IMU (Telemetry.imu Telemetry.initial))
           (Baro (Telemetry.baro Telemetry.initial))
           (env_at 1000) (env_at 1010) Telemetry.initial
           example_sizes_indexable).
  - vm_compute. reflexivity.
  - reflexivity.
Defined.

Lemma other_categories_untouched_witness :
  @sizes_indexable example_protocol /\
  exists handled st',
    @on_data crc16_xmodem BigEndian example_protocol Airbrakes
             (env_at 1000) Telemetry.initial
    = Returns (handled, st') /\
    (forall c', timer_of c' <> timer_of Airbrakes ->
                last_sent c' st' = last_sent c' Telemetry.initial) /\
    (forall c', slot_of c' <> slot_of Airbrakes ->
                message_of c' st' = message_of c' Telemetry.initial) /\
    (forall block,
       block <> Telemetry.next_block Telemetry.initial ->
       Telemetry.heap st' !! block = Telemetry.heap Telemetry.initial !! block).
Proof.
  split; [exact example_sizes_indexable|].
  exact (@other_categories_untouched
           crc16_xmodem BigEndian example_protocol Airbrakes
           (env_at 1000) Telemetry.initial example_sizes_indexable).
Defined.

Lemma allocation_failure_still_queued_witness :
  @sizes_indexable example_protocol /\
  exists st',
    @on_data crc16_xmodem BigEndian example_protocol (MotorPressure 3)
             (Telemetry.mkEnv 1000 1000 false false 0 0 0) Telemetry.initial
    = Returns (true, st') /\
    message_of (MotorPressure 3) st'
    = Builder.mkMessage None (@declared_size example_protocol (MotorPressure 3)) /\
    Telemetry.trace st'
    = Telemetry.trace Telemetry.initial
        ++ [Telemetry.Malloc Builder.MALLOC_SIZE None;
            Telemetry.MessagePut
              (slot_of (MotorPressure 3))
              (Builder.mkMessage None (@declared_size example_protocol (MotorPressure 3))) [] 10
              (Telemetry.osMessagePut_ok
                 (Telemetry.mkEnv 1000 1000 false false 0 0 0))]
        ++ (if Telemetry.osMessagePut_ok
                 (Telemetry.mkEnv 1000 1000 false false 0 0 0)
            then [] else [Telemetry.Free None]) /\
    Telemetry.heap st' = Telemetry.heap Telemetry.initial.
Proof.
  split; [exact example_sizes_indexable|].
  apply (@allocation_failure_still_queued
           crc16_xmodem BigEndian example_protocol (MotorPressure 3)
           (Telemetry.mkEnv 1000 1000 false false 0 0 0) Telemetry.initial
           example_sizes_indexable).
  - reflexivity.
  - vm_compute. reflexivity.
Defined.

Lemma dropped_imu_sample_sent_with_baro_witness :
  @sizes_indexable example_protocol /\
  @fields_fit example_protocol /\
  exists st1 st2 m datagram,
    @on_data crc16_xmodem BigEndian example_protocol
             (IMU (Telemetry.mkIMU (Telemetry.mkFloat3D 1 2 3)
                                   (Telemetry.mkFloat3D 4 5 6) 0))
             (env_at 5) Telemetry.initial
    = Returns (false, st1) /\
    @on_data crc16_xmodem BigEndian example_protocol
             (Baro (Telemetry.mkBARO 7 8 0)) (env_at 1000) st1
    = Returns (true, st2) /\
    Telemetry.MessagePut Telemetry.M3 m datagram 10
                         (Telemetry.osMessagePut_ok (env_at 1000))
      ∈ Telemetry.trace st2 /\
    take 4 (drop 13 datagram)
    = Some <$> @Builder.field_bytes
                 BigEndian 4 (Telemetry.x
                      (Telemetry.acceleration
                         (Telemetry.mkIMU (Telemetry.mkFloat3D 1 2 3)
                                          (Telemetry.mkFloat3D 4 5 6) 0))) /\
    take 4 (drop 37 datagram)
    = Some <$> @Builder.field_bytes
                 BigEndian 4 (Telemetry.temperature (Telemetry.mkBARO 7 8 0)).
Proof.
  split; [exact example_sizes_indexable|].
  split; [exact example_fields_fit|].
  apply (@dropped_imu_sample_sent_with_baro
           crc16_xmodem BigEndian example_protocol
           (env_at 5) (env_at 1000)
           (Telemetry.mkIMU (Telemetry.mkFloat3D 1 2 3)
                            (Telemetry.mkFloat3D 4 5 6) 0)
           (Telemetry.mkBARO 7 8 0) Telemetry.initial
           example_sizes_indexable example_fields_fit).
  - vm_compute. discriminate.
  - reflexivity.
  - vm_compute. reflexivity.
Defined.

Lemma sequence_number_not_transmitted_witness :
  @sizes_indexable example_protocol /\
  exists st1 st2,
    @on_data crc16_xmodem BigEndian example_protocol Airbrakes
             (env_at 1000) Telemetry.initial
    = Returns (true, st1) /\
    @on_data crc16_xmodem BigEndian example_protocol Airbrakes
             (env_at 1000)
             (Telemetry.set_telemetrySeqNumber 77 Telemetry.initial)
    = Returns (true, st2) /\
    Telemetry.trace st2 = Telemetry.trace st1 /\
    message_of Airbrakes st2 = message_of Airbrakes st1.
Proof.
  split; [exact example_sizes_indexable|].
  apply (@sequence_number_not_transmitted
           crc16_xmodem BigEndian example_protocol Airbrakes
           (env_at 1000) Telemetry.initial 77 example_sizes_indexable).
  vm_compute. reflexivity.
Defined.
